(** * InterviewMate / parental_monitor: capture-to-storage pipeline

    A shallow embedding of the Python package [parental_monitor]
    (logger.py, utils.py, screenshot_capture/__init__.py,
    keystroke_capture/{windows,linux}.py, main.py) and the properties of
    its specification that concern the encrypted daily log store, the
    key life cycle, the keyword filter and the screenshot scheduler.

    Python code that mutates module globals, touches the file system,
    prints, sleeps or raises is modelled in a reader/state/exception
    monad [M]: the reader part [Env] holds what the program can only
    observe (platform, I/O faults, local time, entropy, the stop event,
    the window and screen collaborators), the state part [State] holds
    what it changes (file system, clock, console, module globals). *)

From Stdlib Require Import ZArith QArith Qround String Ascii List Bool Lia.
From Stdlib Require Import Qabs DecimalString Lqa.
From stdpp Require Import base option gmap strings.
Import ListNotations.

Close Scope Q_scope.
Local Open Scope string_scope.
Local Open Scope Z_scope.

(** ** Python values *)

(** A number read from [config.yaml]: YAML [5] loads as an [int], [0.2]
    as a [float].  A float is represented by the rational it denotes;
    what the scheduler does with it depends on its dynamic type and its
    sign only. *)
Inductive pynum : Type :=
| PyInt (n : Z)
| PyFloat (x : Q).

Inductive exn : Type :=
| OSError (msg : string)
| ValueError (msg : string)
| RuntimeError (msg : string)
| TypeError (msg : string)
| ZeroDivisionError
| InvalidToken
| NotImplementedError (msg : string).

Inductive res (A : Type) : Type :=
| Ok (a : A)
| Raise (e : exn).
Arguments Ok {A} a.
Arguments Raise {A} e.

(** [str(e)] as used by the f-strings of the error messages. *)
Definition exn_str (e : exn) : string :=
  match e with
  | OSError m | ValueError m | RuntimeError m | TypeError m
  | NotImplementedError m => m
  | ZeroDivisionError => "division by zero"
  | InvalidToken => ""
  end.

Definition is_NotImplementedError (e : exn) : bool :=
  match e with NotImplementedError _ => true | _ => false end.

(** [except FileNotFoundError]: the subclass of [OSError] that the
    interpreter picks for [errno] 2 ([ENOENT]); the text of such an
    error starts with its [errno]. *)
Definition is_FileNotFoundError (e : exn) : bool :=
  match e with OSError msg => String.prefix "[Errno 2] " msg | _ => false end.

(** ** The environment and the program state *)

(** [sys.platform]: ['win32'], ['linux...'] or another name *)
Inductive Platform : Type := Win32 | Linux | OtherPlatform (name : string).

(** [os.name == 'posix'] *)
Definition os_name_posix (p : Platform) : bool :=
  match p with Win32 => false | _ => true end.

Inductive os_op : Type :=
| OpMakedirs (p : string)
| OpRead (p : string)
| OpWrite (p : string)
| OpAppend (p : string)
| OpChmod (p : string).

Record datetime : Type := {
  dt_year : N; dt_month : N; dt_day : N;
  dt_hour : N; dt_minute : N; dt_second : N
}.

Inductive Node : Type :=
| File (content : string) (mode : Z)
| Dir (mode : Z).

(** ** The Fernet primitive (package [cryptography])

    The cipher is an external library: the model takes its four
    operations from the environment and does not look inside them. *)

Record FernetLib : Type := {
  (** [Fernet.generate_key()] from the 32 bytes of [os.urandom(32)] *)
  lib_generate_key : string -> string;
  (** whether [Fernet(key)] accepts [key]; otherwise it raises
      [ValueError] *)
  lib_key_ok : string -> bool;
  (** [Fernet(key).encrypt(data)] at [int(time.time())] with the 16
      bytes of [os.urandom(16)] as initialisation vector *)
  lib_encrypt : string -> Z -> string -> string -> string;
  (** [Fernet(key).decrypt(token)]; [None] stands for [InvalidToken] *)
  lib_decrypt : string -> string -> option string
}.

(** What the library documents: generated keys are accepted, and a token
    decrypts, under the key that made it, to the data it was made from. *)
Record FernetCorrect (L : FernetLib) : Prop := {
  lib_generate_key_ok :
    forall r, String.length r = 32%nat -> lib_key_ok L (lib_generate_key L r) = true;
  lib_round_trip :
    forall k t iv p,
      lib_key_ok L k = true ->
      String.length iv = 16%nat ->
      lib_decrypt L k (lib_encrypt L k t iv p) = Some p
}.

Record Env : Type := {
  sys_platform : Platform;
  (** an I/O operation the system refuses, with the message of its
      [OSError] *)
  faults : os_op -> option string;
  umask : Z;
  (** local wall-clock time at a given value of [time.time()] *)
  localtime : Q -> datetime;
  (** the bytes [os.urandom] hands out, by position *)
  entropy : nat -> ascii;
  (** the moment another thread sets the stop event, if ever *)
  stop_at : option Q;
  (** active-window collaborator: process name and window title *)
  active_window : string * string;
  (** screen-capture collaborator: whether building the capturer fails
      (with the message of its [RuntimeError]), and what [capture()]
      gives at a given time: PNG bytes, [None], or an exception *)
  capturer_init_error : option string;
  screen : Q -> res (option string);
  (** [os.path] of the platform *)
  path_join : string -> string -> string;
  path_dirname : string -> string;
  path_basename : string -> string;
  path_isabs : string -> bool;
  path_abspath : string -> string;
  (** [str.lower] and [str.isspace] of the interpreter's Unicode tables,
      and how it prints a float *)
  str_lower : string -> string;
  chr_isspace : ascii -> bool;
  float_repr : Q -> string;
  (** the installed [cryptography.fernet] *)
  fernet_lib : FernetLib
}.

(** The cipher object [Fernet(key)]: it keeps the key it was built from. *)
Record Fernet : Type := { fernet_key : string }.

Record State : Type := {
  fs : gmap string Node;
  clock : Q;
  entropy_pos : nat;
  stdout : list string;
  (** logger.py globals *)
  logger_ENCRYPTION_KEY : option string;
  logger_cipher_suite : option Fernet;
  (** utils.py globals *)
  utils_ENCRYPTION_KEY_BYTES : option string;
  utils_CIPHER_SUITE : option Fernet;
  (** screenshot_capture globals *)
  screenshot_capturer_instance : option Platform
}.

Definition set_fs (f : gmap string Node -> gmap string Node) (s : State) : State :=
  {| fs := f (fs s); clock := clock s; entropy_pos := entropy_pos s;
     stdout := stdout s;
     logger_ENCRYPTION_KEY := logger_ENCRYPTION_KEY s;
     logger_cipher_suite := logger_cipher_suite s;
     utils_ENCRYPTION_KEY_BYTES := utils_ENCRYPTION_KEY_BYTES s;
     utils_CIPHER_SUITE := utils_CIPHER_SUITE s;
     screenshot_capturer_instance := screenshot_capturer_instance s |}.

Definition set_clock (f : Q -> Q) (s : State) : State :=
  {| fs := fs s; clock := f (clock s); entropy_pos := entropy_pos s;
     stdout := stdout s;
     logger_ENCRYPTION_KEY := logger_ENCRYPTION_KEY s;
     logger_cipher_suite := logger_cipher_suite s;
     utils_ENCRYPTION_KEY_BYTES := utils_ENCRYPTION_KEY_BYTES s;
     utils_CIPHER_SUITE := utils_CIPHER_SUITE s;
     screenshot_capturer_instance := screenshot_capturer_instance s |}.

Definition set_entropy_pos (f : nat -> nat) (s : State) : State :=
  {| fs := fs s; clock := clock s; entropy_pos := f (entropy_pos s);
     stdout := stdout s;
     logger_ENCRYPTION_KEY := logger_ENCRYPTION_KEY s;
     logger_cipher_suite := logger_cipher_suite s;
     utils_ENCRYPTION_KEY_BYTES := utils_ENCRYPTION_KEY_BYTES s;
     utils_CIPHER_SUITE := utils_CIPHER_SUITE s;
     screenshot_capturer_instance := screenshot_capturer_instance s |}.

Definition set_stdout (f : list string -> list string) (s : State) : State :=
  {| fs := fs s; clock := clock s; entropy_pos := entropy_pos s;
     stdout := f (stdout s);
     logger_ENCRYPTION_KEY := logger_ENCRYPTION_KEY s;
     logger_cipher_suite := logger_cipher_suite s;
     utils_ENCRYPTION_KEY_BYTES := utils_ENCRYPTION_KEY_BYTES s;
     utils_CIPHER_SUITE := utils_CIPHER_SUITE s;
     screenshot_capturer_instance := screenshot_capturer_instance s |}.

Definition set_logger_ENCRYPTION_KEY (v : option string) (s : State) : State :=
  {| fs := fs s; clock := clock s; entropy_pos := entropy_pos s;
     stdout := stdout s;
     logger_ENCRYPTION_KEY := v;
     logger_cipher_suite := logger_cipher_suite s;
     utils_ENCRYPTION_KEY_BYTES := utils_ENCRYPTION_KEY_BYTES s;
     utils_CIPHER_SUITE := utils_CIPHER_SUITE s;
     screenshot_capturer_instance := screenshot_capturer_instance s |}.

Definition set_logger_cipher_suite (v : option Fernet) (s : State) : State :=
  {| fs := fs s; clock := clock s; entropy_pos := entropy_pos s;
     stdout := stdout s;
     logger_ENCRYPTION_KEY := logger_ENCRYPTION_KEY s;
     logger_cipher_suite := v;
     utils_ENCRYPTION_KEY_BYTES := utils_ENCRYPTION_KEY_BYTES s;
     utils_CIPHER_SUITE := utils_CIPHER_SUITE s;
     screenshot_capturer_instance := screenshot_capturer_instance s |}.

Definition set_utils_ENCRYPTION_KEY_BYTES (v : option string) (s : State) : State :=
  {| fs := fs s; clock := clock s; entropy_pos := entropy_pos s;
     stdout := stdout s;
     logger_ENCRYPTION_KEY := logger_ENCRYPTION_KEY s;
     logger_cipher_suite := logger_cipher_suite s;
     utils_ENCRYPTION_KEY_BYTES := v;
     utils_CIPHER_SUITE := utils_CIPHER_SUITE s;
     screenshot_capturer_instance := screenshot_capturer_instance s |}.

Definition set_utils_CIPHER_SUITE (v : option Fernet) (s : State) : State :=
  {| fs := fs s; clock := clock s; entropy_pos := entropy_pos s;
     stdout := stdout s;
     logger_ENCRYPTION_KEY := logger_ENCRYPTION_KEY s;
     logger_cipher_suite := logger_cipher_suite s;
     utils_ENCRYPTION_KEY_BYTES := utils_ENCRYPTION_KEY_BYTES s;
     utils_CIPHER_SUITE := v;
     screenshot_capturer_instance := screenshot_capturer_instance s |}.

Definition set_screenshot_capturer_instance (v : option Platform) (s : State) : State :=
  {| fs := fs s; clock := clock s; entropy_pos := entropy_pos s;
     stdout := stdout s;
     logger_ENCRYPTION_KEY := logger_ENCRYPTION_KEY s;
     logger_cipher_suite := logger_cipher_suite s;
     utils_ENCRYPTION_KEY_BYTES := utils_ENCRYPTION_KEY_BYTES s;
     utils_CIPHER_SUITE := utils_CIPHER_SUITE s;
     screenshot_capturer_instance := v |}.

(** ** The monad *)

Definition M (A : Type) : Type := Env -> State -> res A * State.

Definition ret {A} (a : A) : M A := fun _ s => (Ok a, s).

Definition bind {A B} (m : M A) (k : A -> M B) : M B :=
  fun env s =>
    match m env s with
    | (Ok a, s') => k a env s'
    | (Raise e, s') => (Raise e, s')
    end.

Definition raise {A} (e : exn) : M A := fun _ s => (Raise e, s).

(** [try: m  except Exception as e: h e] *)
Definition try_except {A} (m : M A) (h : exn -> M A) : M A :=
  fun env s =>
    match m env s with
    | (Ok a, s') => (Ok a, s')
    | (Raise e, s') => h e env s'
    end.

Definition ask : M Env := fun env s => (Ok env, s).
Definition get : M State := fun _ s => (Ok s, s).
Definition modify (f : State -> State) : M unit := fun _ s => (Ok tt, f s).

Notation "x <- m ;; k" := (bind m (fun x => k))
  (at level 100, m at next level, right associativity).
Notation "m ;;; k" := (bind m (fun _ => k))
  (at level 100, right associativity).

(** [print(line)] *)
Definition print (line : string) : M unit :=
  modify (set_stdout (fun out => (out ++ [line])%list)).

(** ** Python built-ins and the [os], [time], [datetime] modules *)

Definition py_mul (a b : pynum) : pynum :=
  match a, b with
  | PyInt m, PyInt n => PyInt (m * n)
  | PyInt m, PyFloat y => PyFloat (Qred (inject_Z m * y))
  | PyFloat x, PyInt n => PyFloat (Qred (x * inject_Z n))
  | PyFloat x, PyFloat y => PyFloat (Qred (x * y))
  end.

Definition py_to_Q (a : pynum) : Q :=
  match a with PyInt n => inject_Z n | PyFloat x => x end.

(** [a <= b] and [a > b] *)
Definition py_le (a b : pynum) : bool := Qle_bool (py_to_Q a) (py_to_Q b).
Definition py_gt (a b : pynum) : bool := negb (py_le a b).

Definition py_is_zero (a : pynum) : bool := Qeq_bool (py_to_Q a) 0%Q.

(** [a // b]: an [int] for two ints, a [float] otherwise. *)
Definition py_floordiv (a b : pynum) : M pynum :=
  if py_is_zero b then raise ZeroDivisionError
  else match a, b with
       | PyInt m, PyInt n => ret (PyInt (m / n))
       | _, _ => ret (PyFloat (inject_Z (Qfloor (py_to_Q a / py_to_Q b))))
       end.

(** [a % b] *)
Definition py_mod (a b : pynum) : M pynum :=
  if py_is_zero b then raise ZeroDivisionError
  else match a, b with
       | PyInt m, PyInt n => ret (PyInt (m mod n))
       | _, _ =>
           let q := inject_Z (Qfloor (py_to_Q a / py_to_Q b)) in
           ret (PyFloat (Qred (py_to_Q a - q * py_to_Q b)))
       end.

(** [str(a)] *)
Definition py_str (env : Env) (a : pynum) : string :=
  match a with
  | PyInt n => NilZero.string_of_int (Z.to_int n)
  | PyFloat x => float_repr env x
  end.

(** [range(n)]: the number of iterations; a float is refused. *)
Definition py_range (n : pynum) : M nat :=
  match n with
  | PyInt k => ret (Z.to_nat k)
  | PyFloat _ =>
      raise (TypeError "'float' object cannot be interpreted as an integer")
  end.

(** [time.sleep(d)] *)
Definition time_sleep (d : pynum) : M unit :=
  if Qle_bool 0%Q (py_to_Q d)
  then modify (set_clock (fun t => Qred (t + py_to_Q d)))
  else raise (ValueError "sleep length must be non-negative").

(** [stop_event.is_set()] *)
Definition stop_event_is_set : M bool :=
  env <- ask ;; s <- get ;;
  ret (match stop_at env with
       | Some t => Qle_bool t (clock s)
       | None => false
       end).

(** Decimal digits of [n], zero-padded on the left to [width]. *)
Fixpoint pad_decimal (width : nat) (n : N) : string :=
  match width with
  | O => ""
  | S w =>
      pad_decimal w (n / 10)%N
      ++ String (ascii_of_N (48 + n mod 10)%N) ""
  end.

(** [strftime('%Y%m%d')], [strftime('%Y%m%d_%H%M%S')] and
    [strftime('%Y-%m-%d %H:%M:%S')] *)
Definition strftime_Ymd (d : datetime) : string :=
  pad_decimal 4 (dt_year d) ++ pad_decimal 2 (dt_month d)
  ++ pad_decimal 2 (dt_day d).

Definition strftime_HMS (sep : string) (d : datetime) : string :=
  pad_decimal 2 (dt_hour d) ++ sep ++ pad_decimal 2 (dt_minute d)
  ++ sep ++ pad_decimal 2 (dt_second d).

Definition strftime_file (d : datetime) : string :=
  strftime_Ymd d ++ "_" ++ strftime_HMS "" d.

Definition strftime_log (d : datetime) : string :=
  pad_decimal 4 (dt_year d) ++ "-" ++ pad_decimal 2 (dt_month d) ++ "-"
  ++ pad_decimal 2 (dt_day d) ++ " " ++ strftime_HMS ":" d.

(** [datetime.datetime.now()] *)
Definition datetime_now : M datetime :=
  env <- ask ;; s <- get ;; ret (localtime env (clock s)).

(** [os.path.exists(p)] *)
Definition os_path_exists (p : string) : M bool :=
  s <- get ;; ret (bool_decide (is_Some (fs s !! p))).

(** [os.chmod(p, mode)] *)
Definition os_chmod (p : string) (mode : Z) : M unit :=
  env <- ask ;; s <- get ;;
  match faults env (OpChmod p) with
  | Some msg => raise (OSError msg)
  | None =>
      match fs s !! p with
      | Some (File c _) => modify (set_fs (insert p (File c mode)))
      | Some (Dir _) => modify (set_fs (insert p (Dir mode)))
      | None =>
          raise (OSError ("[Errno 2] No such file or directory: " ++ p))
      end
  end.

(** [with open(p, 'rb') as f: f.read()] *)
Definition read_file (p : string) : M string :=
  env <- ask ;; s <- get ;;
  match faults env (OpRead p) with
  | Some msg => raise (OSError msg)
  | None =>
      match fs s !! p with
      | Some (File c _) => ret c
      | Some (Dir _) => raise (OSError ("[Errno 21] Is a directory: " ++ p))
      | None =>
          raise (OSError ("[Errno 2] No such file or directory: " ++ p))
      end
  end.

(** [with open(p, 'wb') as f: f.write(data)]: a new file gets mode
    [0o666 & ~umask], an existing one keeps its mode. *)
Definition write_file (p data : string) : M unit :=
  env <- ask ;; s <- get ;;
  match faults env (OpWrite p) with
  | Some msg => raise (OSError msg)
  | None =>
      match fs s !! p with
      | Some (File _ m) => modify (set_fs (insert p (File data m)))
      | Some (Dir _) => raise (OSError ("[Errno 21] Is a directory: " ++ p))
      | None =>
          modify (set_fs (insert p (File data (Z.ldiff 438 (umask env)))))
      end
  end.

(** [with open(p, 'ab') as f: f.write(data)] (also text mode ['a']) *)
Definition append_file (p data : string) : M unit :=
  env <- ask ;; s <- get ;;
  match faults env (OpAppend p) with
  | Some msg => raise (OSError msg)
  | None =>
      match fs s !! p with
      | Some (File c m) => modify (set_fs (insert p (File (c ++ data) m)))
      | Some (Dir _) => raise (OSError ("[Errno 21] Is a directory: " ++ p))
      | None =>
          modify (set_fs (insert p (File data (Z.ldiff 438 (umask env)))))
      end
  end.

(** The [n] bytes of the entropy source from position [pos] on. *)
Definition entropy_bytes (env : Env) (pos n : nat) : string :=
  string_of_list_ascii (map (fun i => entropy env (pos + i)%nat) (seq 0 n)).

(** [os.urandom(n)] *)
Definition os_urandom (n : nat) : M string :=
  env <- ask ;; s <- get ;;
  modify (set_entropy_pos (fun p => (p + n)%nat)) ;;;
  ret (entropy_bytes env (entropy_pos s) n).

(** [os.makedirs] creates the missing ancestors first: the chain
    [..., dirname (dirname d), dirname d, d], outermost first. *)
Fixpoint makedirs_chain (dirname : string -> string) (fuel : nat) (d : string)
  : list string :=
  match fuel with
  | O => []
  | S fuel' =>
      if String.eqb d "" then []
      else if String.eqb (dirname d) d then [d]
      else (makedirs_chain dirname fuel' (dirname d) ++ [d])%list
  end.

Definition mkdir_exist_ok (d : string) : M unit :=
  env <- ask ;; s <- get ;;
  match fs s !! d with
  | Some (Dir _) => ret tt
  | Some (File _ _) => raise (OSError ("[Errno 17] File exists: " ++ d))
  | None => modify (set_fs (insert d (Dir (Z.ldiff 511 (umask env)))))
  end.

Fixpoint for_each {A} (f : A -> M unit) (l : list A) : M unit :=
  match l with
  | [] => ret tt
  | x :: l' => f x ;;; for_each f l'
  end.

(** [os.makedirs(d, exist_ok=True)] *)
Definition os_makedirs (d : string) : M unit :=
  env <- ask ;;
  match faults env (OpMakedirs d) with
  | Some msg => raise (OSError msg)
  | None =>
      if String.eqb d "" then
        raise (OSError "[Errno 2] No such file or directory: ''")
      else
        for_each mkdir_exist_ok
          (makedirs_chain (path_dirname env) (String.length d) d)
  end.

(** [Fernet.generate_key()] *)
Definition Fernet_generate_key : M string :=
  env <- ask ;;
  r <- os_urandom 32 ;; ret (lib_generate_key (fernet_lib env) r).

(** [Fernet(key)] *)
Definition Fernet_new (key : string) : M Fernet :=
  env <- ask ;;
  if lib_key_ok (fernet_lib env) key then ret {| fernet_key := key |}
  else raise (ValueError "Fernet key must be 32 url-safe base64-encoded bytes.").

(** [c.encrypt(data)] *)
Definition Fernet_encrypt (c : Fernet) (data : string) : M string :=
  env <- ask ;; s <- get ;;
  iv <- os_urandom 16 ;;
  ret (lib_encrypt (fernet_lib env) (fernet_key c) (Qfloor (clock s)) iv data).

(** [c.decrypt(token)] *)
Definition Fernet_decrypt (c : Fernet) (token : string) : M string :=
  env <- ask ;;
  match lib_decrypt (fernet_lib env) (fernet_key c) token with
  | Some data => ret data
  | None => raise InvalidToken
  end.

(** ** config.py: the configuration dictionary *)

Record KeywordFilters : Type := {
  kf_include_processes : option (list string);
  kf_exclude_words : option (list string)
}.

(** A key that is absent from the dictionary is [None]. *)
Record Config : Type := {
  cfg_screenshot_interval_minutes : option pynum;
  cfg_keyword_filters : option KeywordFilters;
  cfg_log_directory : option string;
  cfg_encryption_key_file : option string;
  cfg_config_file_path : option string
}.

(** The dictionary with another interval, or with other filter lists. *)
Definition with_interval (x : pynum) (c : Config) : Config :=
  {| cfg_screenshot_interval_minutes := Some x;
     cfg_keyword_filters := cfg_keyword_filters c;
     cfg_log_directory := cfg_log_directory c;
     cfg_encryption_key_file := cfg_encryption_key_file c;
     cfg_config_file_path := cfg_config_file_path c |}.

Definition with_filters (incl excl : list string) (c : Config) : Config :=
  {| cfg_screenshot_interval_minutes := cfg_screenshot_interval_minutes c;
     cfg_keyword_filters :=
       Some {| kf_include_processes := Some incl;
               kf_exclude_words := Some excl |};
     cfg_log_directory := cfg_log_directory c;
     cfg_encryption_key_file := cfg_encryption_key_file c;
     cfg_config_file_path := cfg_config_file_path c |}.

(** [d.get(key, default)] *)
Definition dict_get {A} (v : option A) (default : A) : A :=
  match v with Some a => a | None => default end.

(** Truth value of a string, and [a or b] on strings. *)
Definition str_truthy (a : string) : bool := negb (String.eqb a "").
Definition str_or (a b : string) : string := if str_truthy a then a else b.

Definition nl : string := String (ascii_of_nat 10) "".
Definition dquote : string := String (ascii_of_nat 34) "".


(** ** config.py: where the configuration file is *)

(** What [get_config_path] reads of its process: [os.getcwd()], the
    [__file__] of the module and [os.environ.get('ProgramFiles')]. *)
Record Process : Type := {
  proc_cwd : string;
  proc_file : string;
  proc_ProgramFiles : option string
}.

Module config.

Definition CONFIG_FILE_NAME : string := "config.yaml".

Definition get_config_path (proc : Process) : M string :=
  env <- ask ;;
  let cwd_config_path := path_join env (proc_cwd proc) CONFIG_FILE_NAME in
  found <- os_path_exists cwd_config_path ;;
  if found then ret cwd_config_path
  else
    let script_dir := path_dirname env (path_abspath env (proc_file proc)) in
    let script_dir_config_path := path_join env script_dir CONFIG_FILE_NAME in
    found <- os_path_exists script_dir_config_path ;;
    if found then ret script_dir_config_path
    else
      let app_dir :=
        if negb (os_name_posix (sys_platform env)) then
          let program_files :=
            dict_get (proc_ProgramFiles proc) "C:\Program Files" in
          path_join env program_files "ParentalMonitor"
        else "/opt/parental-monitor" in
      os_makedirs app_dir ;;;
      ret (path_join env app_dir CONFIG_FILE_NAME).

End config.

(** ** The console as a stream of characters

    [print(text, end='')] leaves the console in the middle of a line,
    which the list of printed lines [stdout] cannot hold.  A function
    that prints this way runs over the state together with the text
    that it has written to the console. *)

Definition T (A : Type) : Type :=
  Env -> State -> string -> res A * State * string.

Definition t_ret {A} (a : A) : T A := fun _ s out => (Ok a, s, out).

Definition t_bind {A B} (m : T A) (k : A -> T B) : T B :=
  fun env s out =>
    match m env s out with
    | (Ok a, s', out') => k a env s' out'
    | (Raise e, s', out') => (Raise e, s', out')
    end.

Definition t_raise {A} (e : exn) : T A := fun _ s out => (Raise e, s, out).

(** [try: m except Exception as e: h e] *)
Definition t_try_except {A} (m : T A) (h : exn -> T A) : T A :=
  fun env s out =>
    match m env s out with
    | (Ok a, s', out') => (Ok a, s', out')
    | (Raise e, s', out') => h e env s' out'
    end.

(** A step that prints nothing. *)
Definition t_lift {A} (m : M A) : T A :=
  fun env s out => let (r, s') := m env s in (r, s', out).

(** [print(text, end=end_)] *)
Definition t_print (text end_ : string) : T unit :=
  fun _ s out => (Ok tt, s, out ++ text ++ end_).

(** ** Byte strings *)

(** ASCII whitespace, which [bytes.strip()] removes: space, tab, line
    feed, vertical tab, form feed and carriage return. *)
Definition bytes_isspace (c : ascii) : bool :=
  let n := N_of_ascii c in
  (((9 <=? n) && (n <=? 13)) || (n =? 32))%N.

(** The lines of a file that is iterated over in binary mode: a line
    ends after its line feed; the last one may have none. *)
Fixpoint bytes_lines (data : string) : list string :=
  match data with
  | EmptyString => []
  | String c rest =>
      if Ascii.eqb c (ascii_of_nat 10) then
        String c EmptyString :: bytes_lines rest
      else
        match bytes_lines rest with
        | [] => [String c EmptyString]
        | line :: lines => String c line :: lines
        end
  end.

Fixpoint bytes_lstrip (data : string) : string :=
  match data with
  | EmptyString => EmptyString
  | String c rest => if bytes_isspace c then bytes_lstrip rest else data
  end.

Fixpoint bytes_rstrip (data : string) : string :=
  match data with
  | EmptyString => EmptyString
  | String c rest =>
      match bytes_rstrip rest with
      | EmptyString =>
          if bytes_isspace c then EmptyString else String c EmptyString
      | r => String c r
      end
  end.

(** [data.strip()] *)
Definition bytes_strip (data : string) : string :=
  bytes_rstrip (bytes_lstrip data).

Definition utf8_in (lo hi b : N) : bool := ((lo <=? b) && (b <=? hi))%N.

(** Well-formed UTF-8: no overlong form, no surrogate, nothing above
    U+10FFFF. *)
Fixpoint utf8_valid_bytes (l : list N) : bool :=
  match l with
  | [] => true
  | a :: l1 =>
      if (a <=? 127)%N then utf8_valid_bytes l1
      else
        match l1 with
        | [] => false
        | b :: l2 =>
            if utf8_in 194 223 a then
              utf8_in 128 191 b && utf8_valid_bytes l2
            else
              match l2 with
              | [] => false
              | c :: l3 =>
                  if utf8_in 224 239 a then
                    utf8_in (if (a =? 224)%N then 160 else 128)
                            (if (a =? 237)%N then 159 else 191) b
                    && utf8_in 128 191 c && utf8_valid_bytes l3
                  else
                    match l3 with
                    | [] => false
                    | d :: l4 =>
                        utf8_in 240 244 a
                        && utf8_in (if (a =? 240)%N then 144 else 128)
                                   (if (a =? 244)%N then 143 else 191) b
                        && utf8_in 128 191 c && utf8_in 128 191 d
                        && utf8_valid_bytes l4
                    end
              end
        end
  end.

Definition utf8_valid (data : string) : bool :=
  utf8_valid_bytes (map N_of_ascii (list_ascii_of_string data)).

(** [data.decode('utf-8')]: text is kept as its UTF-8 bytes, so that
    decoding checks them and hands them on; [codec_error] is the text
    of the [UnicodeDecodeError] (a [ValueError]) for bytes that are not
    well formed. *)
Definition bytes_decode_utf8 (codec_error : string -> string) (data : string)
  : T string :=
  if utf8_valid data then t_ret data
  else t_raise (ValueError (codec_error data)).

(** ** logger.py *)

Module logger.

Definition load_or_generate_key (key_path : string) : M Fernet :=
  env <- ask ;;
  found <- os_path_exists key_path ;;
  key <- (if found then read_file key_path
          else
            key <- Fernet_generate_key ;;
            os_makedirs (path_dirname env key_path) ;;;
            write_file key_path key ;;;
            print ("Generated new encryption key at " ++ key_path) ;;;
            ret key) ;;
  modify (set_logger_ENCRYPTION_KEY (Some key)) ;;;
  Fernet_new key.

Definition initialize_logger (config : Config) : M unit :=
  env <- ask ;;
  let key_file := dict_get (cfg_encryption_key_file config) "encryption.key" in
  let config_dir := path_dirname env (dict_get (cfg_config_file_path config) ".") in
  let key_file :=
    if negb (path_isabs env key_file) then path_join env config_dir key_file
    else key_file in
  dir_found <- os_path_exists (path_dirname env key_file) ;;
  key_file <-
    (if negb dir_found then
       let log_base_dir := dict_get (cfg_log_directory config) "ParentalMonitorData" in
       let log_base_dir :=
         if negb (path_isabs env log_base_dir) then path_abspath env log_base_dir
         else log_base_dir in
       let key_file_alt :=
         path_join env (str_or (path_dirname env log_base_dir) log_base_dir)
                   (path_basename env key_file) in
       alt_found <- os_path_exists (path_dirname env key_file_alt) ;;
       (if negb alt_found then
          os_makedirs (str_or (path_dirname env key_file_alt) key_file_alt)
        else ret tt) ;;;
       ret key_file_alt
     else ret key_file) ;;
  c <- load_or_generate_key key_file ;;
  modify (set_logger_cipher_suite (Some c)).

Definition get_daily_log_directory (base_log_dir : string) : M string :=
  env <- ask ;;
  today <- datetime_now ;;
  ret (path_join env base_log_dir (strftime_Ymd today)).

Definition ERROR_LOG_FILE : string := "error.log".

Definition get_error_log_path (config : Config) : M string :=
  env <- ask ;;
  let log_dir_base := dict_get (cfg_log_directory config) "ParentalMonitorData" in
  let log_dir_base :=
    if negb (path_isabs env log_dir_base) then
      match cfg_config_file_path config with
      | Some config_file_location =>
          if str_truthy config_file_location then
            path_join env
              (path_dirname env (path_dirname env config_file_location))
              log_dir_base
          else path_abspath env (path_join env ".." log_dir_base)
      | None => path_abspath env (path_join env ".." log_dir_base)
      end
    else log_dir_base in
  let error_log_dir := path_dirname env log_dir_base in
  let error_log_dir := if str_truthy error_log_dir then error_log_dir else "." in
  error_log_dir <-
    try_except (os_makedirs error_log_dir ;;; ret error_log_dir)
               (fun _ => ret ".") ;;
  ret (path_join env error_log_dir ERROR_LOG_FILE).

Definition log_error (message : string) (config : Config) (is_critical : bool)
  : M unit :=
  env <- ask ;;
  error_log_path <- get_error_log_path config ;;
  now <- datetime_now ;;
  let timestamp := strftime_log now in
  let log_entry :=
    "[" ++ timestamp ++ "] " ++ (if is_critical then "CRITICAL: " else "")
    ++ message ++ nl in
  try_except
    (append_file error_log_path log_entry ;;;
     if os_name_posix (sys_platform env) then
       try_except (os_chmod error_log_path 384) (fun _ => ret tt)
     else ret tt)
    (fun e =>
       print ("FATAL: Could not write to error log at " ++ error_log_path
              ++ ". Original error: " ++ message ++ ". Logging error: "
              ++ exn_str e)).

Definition ensure_daily_log_dir (config : Config) : M (string * string) :=
  env <- ask ;;
  let base_log_dir := dict_get (cfg_log_directory config) "ParentalMonitorData" in
  let base_log_dir :=
    if negb (path_isabs env base_log_dir) then
      match cfg_config_file_path config with
      | Some config_file_location =>
          if str_truthy config_file_location then
            path_join env (path_dirname env config_file_location) base_log_dir
          else path_abspath env base_log_dir
      | None => path_abspath env base_log_dir
      end
    else base_log_dir in
  daily_dir <- get_daily_log_directory base_log_dir ;;
  let screenshots_dir := path_join env daily_dir "Screenshots" in
  try_except
    (os_makedirs screenshots_dir ;;;
     if os_name_posix (sys_platform env) then
       os_chmod base_log_dir 448 ;;;
       os_chmod daily_dir 448 ;;;
       os_chmod screenshots_dir 448
     else ret tt)
    (fun e =>
       log_error ("Failed to create/set permissions for directory "
                  ++ screenshots_dir ++ ": " ++ exn_str e) config true ;;;
       raise e) ;;;
  ret (daily_dir, screenshots_dir).

Definition encrypt_data (data_bytes : string) : M string :=
  s <- get ;;
  match logger_cipher_suite s with
  | None => raise (ValueError "Logger not initialized or key not loaded.")
  | Some cipher_suite => Fernet_encrypt cipher_suite data_bytes
  end.

Definition log_keyword (keyword_entry : string) (config : Config) : M unit :=
  env <- ask ;; s <- get ;;
  match logger_cipher_suite s with
  | None =>
      print "Error: Encryption not initialized. Call initialize_logger first." ;;;
      log_error "Attempted to log keyword before encryption was initialized."
                config false
  | Some _ =>
      dirs <- ensure_daily_log_dir config ;;
      let daily_dir := fst dirs in
      let log_file_path := path_join env daily_dir "keywords.log.enc" in
      now <- datetime_now ;;
      let timestamp := strftime_log now in
      let full_log_entry := "[" ++ timestamp ++ "] " ++ keyword_entry ++ nl in
      encrypted_entry <- encrypt_data full_log_entry ;;
      try_except
        (append_file log_file_path (encrypted_entry ++ nl) ;;;
         if os_name_posix (sys_platform env) then os_chmod log_file_path 384
         else ret tt)
        (fun e =>
           log_error ("Failed to write to keyword log " ++ log_file_path
                      ++ ": " ++ exn_str e) config true)
  end.

Definition save_screenshot (image_bytes : string) (config : Config)
  : M (option string) :=
  env <- ask ;; s <- get ;;
  match logger_cipher_suite s with
  | None =>
      print "Error: Encryption not initialized. Call initialize_logger first." ;;;
      log_error "Attempted to save screenshot before encryption was initialized."
                config false ;;;
      ret None
  | Some _ =>
      dirs <- ensure_daily_log_dir config ;;
      let screenshots_dir := snd dirs in
      now <- datetime_now ;;
      let timestamp := strftime_file now in
      let file_name := timestamp ++ ".png.enc" in
      let file_path := path_join env screenshots_dir file_name in
      encrypted_image_bytes <- encrypt_data image_bytes ;;
      try_except
        (write_file file_path encrypted_image_bytes ;;;
         (if os_name_posix (sys_platform env) then os_chmod file_path 384
          else ret tt) ;;;
         print ("Screenshot saved to " ++ file_path) ;;;
         ret (Some file_path))
        (fun e =>
           log_error ("Failed to save screenshot to " ++ file_path ++ ": "
                      ++ exn_str e) config true ;;;
           ret None)
  end.

Definition decrypt_data (encrypted_data_bytes key_bytes : string) : M string :=
  fernet <- Fernet_new key_bytes ;;
  Fernet_decrypt fernet encrypted_data_bytes.

Definition decrypt_screenshot
    (screenshot_path_enc key_file_path output_path_dec : string) : M unit :=
  try_except
    (key <- read_file key_file_path ;;
     fernet <- Fernet_new key ;;
     encrypted_data <- read_file screenshot_path_enc ;;
     decrypted_data <- Fernet_decrypt fernet encrypted_data ;;
     write_file output_path_dec decrypted_data ;;;
     print ("Screenshot decrypted and saved to " ++ output_path_dec))
    (fun e =>
       if is_FileNotFoundError e then
         print ("Error: File not found (" ++ screenshot_path_enc ++ " or "
                ++ key_file_path ++ ")")
       else
         print ("An error occurred during decryption: " ++ exn_str e)).

(** The body of [for line in f_enc]. *)
Fixpoint decrypt_keyword_lines (codec_error : string -> string)
    (fernet : Fernet) (lines : list string) : T unit :=
  match lines with
  | [] => t_ret tt
  | line :: rest =>
      let line := bytes_strip line in
      if negb (str_truthy line) then
        decrypt_keyword_lines codec_error fernet rest
      else
        t_bind (t_lift (Fernet_decrypt fernet line)) (fun decrypted_entry =>
        t_bind (bytes_decode_utf8 codec_error decrypted_entry) (fun text =>
        t_bind (t_print text "") (fun _ =>
        decrypt_keyword_lines codec_error fernet rest)))
  end.

Definition decrypt_keyword_log (codec_error : string -> string)
    (log_file_path_enc key_file_path : string) : T unit :=
  t_try_except
    (t_bind (t_lift (read_file key_file_path)) (fun key =>
     t_bind (t_lift (Fernet_new key)) (fun fernet =>
     t_bind (t_lift (read_file log_file_path_enc)) (fun f_enc =>
     decrypt_keyword_lines codec_error fernet (bytes_lines f_enc)))))
    (fun e =>
       if is_FileNotFoundError e then
         t_print ("Error: File not found (" ++ log_file_path_enc ++ " or "
                  ++ key_file_path ++ ")") nl
       else
         t_print ("An error occurred during decryption: " ++ exn_str e) nl).

End logger.

(** ** utils.py *)

Module utils.

Definition generate_key_to_file (key_path : string) : M string :=
  env <- ask ;;
  key <- Fernet_generate_key ;;
  os_makedirs (path_dirname env key_path) ;;;
  write_file key_path key ;;;
  (if os_name_posix (sys_platform env) then
     try_except (os_chmod key_path 384)
       (fun e => print ("Warning: Failed to set permissions on key file "
                        ++ key_path ++ ": " ++ exn_str e))
   else ret tt) ;;;
  print ("Generated new encryption key at " ++ key_path) ;;;
  ret key.

Definition load_key_from_file (key_path : string) : M (option string) :=
  found <- os_path_exists key_path ;;
  if negb found then ret None
  else key <- read_file key_path ;; ret (Some key).

Definition initialize_encryption (key_path : string) : M unit :=
  loaded <- load_key_from_file key_path ;;
  modify (set_utils_ENCRYPTION_KEY_BYTES loaded) ;;;
  key <-
    match loaded with
    | Some key => ret key
    | None =>
        print ("Encryption key not found at " ++ key_path
               ++ ". Generating a new one.") ;;;
        key <- generate_key_to_file key_path ;;
        modify (set_utils_ENCRYPTION_KEY_BYTES (Some key)) ;;;
        if negb (str_truthy key) then
          raise (RuntimeError ("Failed to generate and save encryption key to "
                               ++ key_path))
        else ret key
    end ;;
  try_except
    (c <- Fernet_new key ;;
     modify (set_utils_CIPHER_SUITE (Some c)) ;;;
     print ("Encryption initialized successfully using key from "
            ++ key_path ++ "."))
    (fun e =>
       modify (set_utils_CIPHER_SUITE None) ;;;
       print ("CRITICAL: Failed to initialize Fernet cipher with key from "
              ++ key_path ++ ". Error: " ++ exn_str e) ;;;
       raise (ValueError ("Invalid or corrupted encryption key at "
                          ++ key_path ++ ". Cannot proceed."))).

Definition get_cipher : M Fernet :=
  s <- get ;;
  match utils_CIPHER_SUITE s with
  | None =>
      raise (RuntimeError
               "Encryption has not been initialized. Call utils.initialize_encryption(key_path) first.")
  | Some c => ret c
  end.

Definition encrypt (data_bytes : string) : M string :=
  cipher <- get_cipher ;;
  Fernet_encrypt cipher data_bytes.

Definition decrypt (token_bytes : string) : M string :=
  cipher <- get_cipher ;;
  try_except (Fernet_decrypt cipher token_bytes) (fun e => raise e).

End utils.

(** ** screenshot_capture/__init__.py *)

Module screenshot_capture.

(** [WindowsScreenshotCapture(config)] / [LinuxScreenshotCapture(config)] *)
Definition capturer_new : M unit :=
  env <- ask ;;
  match capturer_init_error env with
  | Some msg => raise (RuntimeError msg)
  | None => ret tt
  end.

(** [capturer.capture()] *)
Definition capturer_capture : M (option string) :=
  env <- ask ;; s <- get ;;
  match screen env (clock s) with
  | Ok image => ret image
  | Raise e => raise e
  end.

Definition _get_capturer_instance (config : Config) : M Platform :=
  env <- ask ;; s <- get ;;
  match screenshot_capturer_instance s with
  | Some inst => ret inst
  | None =>
      match sys_platform env with
      | Win32 =>
          capturer_new ;;;
          modify (set_screenshot_capturer_instance (Some Win32)) ;;;
          print "Windows screenshot capturer initialized." ;;;
          ret Win32
      | Linux =>
          capturer_new ;;;
          modify (set_screenshot_capturer_instance (Some Linux)) ;;;
          print "Linux screenshot capturer initialized." ;;;
          ret Linux
      | OtherPlatform name =>
          logger.log_error
            ("Screenshot capture not supported on this platform: " ++ name)
            config true ;;;
          raise (NotImplementedError
                   ("Screenshot capture not supported on platform " ++ name))
      end
  end.

Definition take_screenshot_and_log (config : Config) : M unit :=
  try_except
    (_get_capturer_instance config ;;;
     image_bytes <- capturer_capture ;;
     match image_bytes with
     | Some image =>
         if str_truthy image then
           saved_path <- logger.save_screenshot image config ;;
           match saved_path with
           | Some path =>
               if str_truthy path then
                 print ("Screenshot taken and logged to " ++ path)
               else print "Failed to save screenshot after capturing."
           | None => print "Failed to save screenshot after capturing."
           end
         else print "Failed to capture screenshot (capture method returned None)."
     | None => print "Failed to capture screenshot (capture method returned None)."
     end)
    (fun e =>
       if is_NotImplementedError e then ret tt
       else
         print ("Error during screenshot capture and logging: " ++ exn_str e) ;;;
         logger.log_error
           ("take_screenshot_and_log: Unhandled exception: " ++ exn_str e)
           config true).

Definition wait_chunk : pynum := PyInt 5.

(** [for _ in range(n): if stop_event.is_set(): break; time.sleep(wait_chunk)] *)
Fixpoint wait_in_chunks (n : nat) : M unit :=
  match n with
  | O => ret tt
  | S n' =>
      stop <- stop_event_is_set ;;
      if stop then ret tt
      else time_sleep wait_chunk ;;; wait_in_chunks n'
  end.

(** One pass through the body of [while not stop_event.is_set():];
    the result says whether the body left the loop with [break]. *)
Definition scheduler_loop_body (config : Config) (interval_seconds : pynum)
  : M bool :=
  try_except
    (chunks <- py_floordiv interval_seconds wait_chunk ;;
     n <- py_range chunks ;;
     wait_in_chunks n ;;;
     stop <- stop_event_is_set ;;
     (if negb stop then
        rest <- py_mod interval_seconds wait_chunk ;;
        if py_gt rest (PyInt 0) then
          rest <- py_mod interval_seconds wait_chunk ;;
          time_sleep rest
        else ret tt
      else ret tt) ;;;
     stop <- stop_event_is_set ;;
     if stop then ret true
     else
       print "Scheduler: Time to take a screenshot." ;;;
       take_screenshot_and_log config ;;;
       ret false)
    (fun e =>
       print ("Error in screenshot scheduler loop: " ++ exn_str e) ;;;
       logger.log_error ("Screenshot scheduler loop error: " ++ exn_str e)
                        config true ;;;
       time_sleep (PyInt 60) ;;;
       ret false).

(** The [while] loop, unrolled at most [fuel] times: [true] when the
    loop was left, [false] when it is still running after [fuel] passes. *)
Fixpoint scheduler_while (fuel : nat) (config : Config) (interval_seconds : pynum)
  : M bool :=
  match fuel with
  | O => ret false
  | S fuel' =>
      stop <- stop_event_is_set ;;
      if stop then ret true
      else
        left <- scheduler_loop_body config interval_seconds ;;
        if left then ret true
        else scheduler_while fuel' config interval_seconds
  end.

Definition _screenshot_scheduler_loop (fuel : nat) (config : Config) : M bool :=
  env <- ask ;;
  let interval_minutes :=
    dict_get (cfg_screenshot_interval_minutes config) (PyInt 5) in
  let interval_seconds := py_mul interval_minutes (PyInt 60) in
  if py_le interval_seconds (PyInt 0) then
    print ("Screenshot interval (" ++ py_str env interval_minutes
           ++ " min) is zero or negative. Scheduler will not run.") ;;;
    ret true
  else
    print ("Screenshot scheduler started. Interval: "
           ++ py_str env interval_minutes ++ " minutes.") ;;;
    finished <- scheduler_while fuel config interval_seconds ;;
    if finished then print "Screenshot scheduler stopped." ;;; ret true
    else ret false.

(** [start_screenshot_scheduler] when no scheduler thread is alive; the
    body of the thread it starts is run in place, for at most [fuel]
    passes of its loop.  [None]: no thread was started. *)
Definition start_screenshot_scheduler (fuel : nat) (app_config_obj : Config)
  : M (option bool) :=
  started <-
    try_except
      (_get_capturer_instance app_config_obj ;;; ret true)
      (fun e =>
         if is_NotImplementedError e then
           print "Cannot start screenshot scheduler: platform not supported for capture." ;;;
           ret false
         else
           print ("Could not initialize screenshot capturer: " ++ exn_str e
                  ++ ". Scheduler not started.") ;;;
           logger.log_error
             ("Failed to initialize screenshot capturer: " ++ exn_str e
              ++ ". Scheduler not started.") app_config_obj true ;;;
           ret false) ;;
  if started then
    finished <- _screenshot_scheduler_loop fuel app_config_obj ;;
    ret (Some finished)
  else ret None.

End screenshot_capture.

(** ** String methods used by the keystroke capture *)

(** [sub in s] *)
Fixpoint str_in (sub s : string) : bool :=
  if String.prefix sub s then true
  else match s with
       | EmptyString => false
       | String _ s' => str_in sub s'
       end.

Fixpoint str_lstrip (isspace : ascii -> bool) (s : string) : string :=
  match s with
  | EmptyString => EmptyString
  | String c s' => if isspace c then str_lstrip isspace s' else s
  end.

Fixpoint str_rstrip (isspace : ascii -> bool) (s : string) : string :=
  match s with
  | EmptyString => EmptyString
  | String c s' =>
      match str_rstrip isspace s' with
      | EmptyString => if isspace c then EmptyString else String c EmptyString
      | r => String c r
      end
  end.

(** [s.strip()] *)
Definition str_strip (isspace : ascii -> bool) (s : string) : string :=
  str_rstrip isspace (str_lstrip isspace s).

(** [s.replace(old, new)] for a non-empty [old]: occurrences are taken
    from the left and do not overlap; [skip] counts the characters of
    the occurrence being replaced that are still to be dropped. *)
Fixpoint str_replace_from (old new : string) (skip : nat) (s : string) : string :=
  match s with
  | EmptyString => EmptyString
  | String c s' =>
      match skip with
      | S k => str_replace_from old new k s'
      | O =>
          if String.prefix old s then
            new ++ str_replace_from old new (String.length old - 1) s'
          else String c (str_replace_from old new O s')
      end
  end.

Definition str_replace (old new s : string) : string :=
  str_replace_from old new O s.

(** ** keystroke_capture/windows.py and keystroke_capture/linux.py *)

(** The dictionary handed to the log callback. *)
Record LogData : Type := {
  ld_app : string;
  ld_word : string;
  ld_title : string
}.

(** The attributes of a capture object that [submit_word] reads. *)
Record KeyCapture : Type := {
  kc_config : Config;
  kc_log_callback : LogData -> M unit;
  kc_include_processes : list string;
  kc_exclude_words : list string
}.

(** [__init__] of both capture classes: the filter lists are lower-cased
    once, when the object is built. *)
Definition KeyCapture_new (env : Env) (config : Config)
    (log_callback : LogData -> M unit) : KeyCapture :=
  let filters :=
    dict_get (cfg_keyword_filters config)
             {| kf_include_processes := None; kf_exclude_words := None |} in
  {| kc_config := config;
     kc_log_callback := log_callback;
     kc_include_processes :=
       map (str_lower env) (dict_get (kf_include_processes filters) []);
     kc_exclude_words :=
       map (str_lower env) (dict_get (kf_exclude_words filters) []) |}.

Definition KeyCapture_init (config : Config) (log_callback : LogData -> M unit)
  : M KeyCapture :=
  env <- ask ;; ret (KeyCapture_new env config log_callback).

(** Active-window collaborator ([get_active_window_info],
    [get_active_window_info_x11]). *)
Definition get_active_window_info : M (string * string) :=
  env <- ask ;; ret (active_window env).

Definition list_truthy {A} (l : list A) : bool :=
  match l with [] => false | _ => true end.

(** [s.isspace()]: at least one character, and whitespace only *)
Definition str_isspace (isspace : ascii -> bool) (s : string) : bool :=
  str_truthy s && forallb isspace (list_ascii_of_string s).

(** [re.split(r'(\s+)', s)]: the pieces of [s] between its maximal runs
    of whitespace and, the pattern being a group, the runs themselves:
    [[text; run; text; ...; run; text]], where only the first and the
    last text can be empty. *)
Fixpoint re_split_spaces (isspace : ascii -> bool) (s : string) : list string :=
  match s with
  | EmptyString => [EmptyString]
  | String c s' =>
      match re_split_spaces isspace s' with
      | text :: rest =>
          if isspace c then
            match text, rest with
            | EmptyString, run :: rest' =>
                EmptyString :: String c run :: rest'
            | _, _ => EmptyString :: String c EmptyString :: text :: rest
            end
          else String c text :: rest
      | [] => [String c EmptyString]
      end
  end.

(** The loop [for part in parts] of [process_buffer] (the same in both
    capture classes), with the local [current_word] threaded through;
    the counter [processed_upto_idx] of the source is never read. *)
Fixpoint process_parts (isspace : ascii -> bool)
    (submit_word : string -> M unit) (parts : list string)
    (current_word : string) : M string :=
  match parts with
  | [] => ret current_word
  | part :: parts' =>
      if negb (str_truthy part) then
        process_parts isspace submit_word parts' current_word
      else if str_isspace isspace part then
        current_word <-
          (if str_truthy current_word then
             submit_word current_word ;;; ret ""
           else ret current_word) ;;
        process_parts isspace submit_word parts' current_word
      else
        process_parts isspace submit_word parts' (current_word ++ part)
  end.

(** A key event of the listener: a key with a character ([key.char] is
    not [None]), one of the three keys the capture reacts to, or any
    other key. *)
Inductive Key : Type :=
| KeyChar (char : string)
| KeySpace
| KeyEnter
| KeyTab
| KeyOther.

(** The attributes of a capture object that key events change. *)
Record CaptureState : Type := {
  cs_buffer : string;
  cs_last_activity_time : Q
}.

(** [self.buffer_timeout_seconds], set by [__init__] of both classes and
    never changed. *)
Definition buffer_timeout_seconds : Z := 5.

Module keystroke_windows.

Definition submit_word (self : KeyCapture) (word_candidate : string) : M unit :=
  env <- ask ;;
  let word_candidate :=
    str_lower env (str_strip (chr_isspace env) word_candidate) in
  if negb (str_truthy word_candidate)
     || (String.length word_candidate <? 2)%nat then ret tt
  else if existsb (fun excluded => str_in excluded word_candidate)
                  (kc_exclude_words self) then ret tt
  else
    info <- get_active_window_info ;;
    let app_name := fst info in
    let window_title := snd info in
    let app_name_lower := str_replace ".exe" "" (str_lower env app_name) in
    if list_truthy (kc_include_processes self)
       && negb (existsb (fun proc_name => str_in proc_name app_name_lower)
                        (kc_include_processes self)) then ret tt
    else
      kc_log_callback self
        {| ld_app := app_name; ld_word := word_candidate;
           ld_title := window_title |}.


(** [self.buffer] goes in and comes out; it is assigned at the very end
    only, so that a call that raises leaves it as it was. *)
Definition process_buffer (self : KeyCapture) (buffer : string)
    (force_flush : bool) : M string :=
  env <- ask ;;
  let content_to_process := buffer in
  let parts := re_split_spaces (chr_isspace env) content_to_process in
  current_word <-
    process_parts (chr_isspace env) (submit_word self) parts "" ;;
  if str_truthy current_word then
    if force_flush && str_truthy current_word then
      submit_word self current_word ;;; ret ""
    else ret current_word
  else ret "".

Definition on_press (self : KeyCapture) (st : CaptureState) (key : Key)
  : M CaptureState :=
  s <- get ;;
  let last_activity_time := clock s in
  let buffer := cs_buffer st in
  let failed (buffer : string) (e : exn) : M CaptureState :=
    print ("Error in on_press: " ++ exn_str e) ;;;
    ret {| cs_buffer := buffer;
           cs_last_activity_time := last_activity_time |} in
  match key with
  | KeyChar char =>
      ret {| cs_buffer := buffer ++ char;
             cs_last_activity_time := last_activity_time |}
  | KeySpace =>
      let buffer := buffer ++ " " in
      try_except
        (buffer <- process_buffer self buffer false ;;
         ret {| cs_buffer := buffer;
                cs_last_activity_time := last_activity_time |})
        (failed buffer)
  | KeyEnter | KeyTab =>
      try_except
        (buffer <- process_buffer self buffer true ;;
         ret {| cs_buffer := buffer;
                cs_last_activity_time := last_activity_time |})
        (failed buffer)
  | KeyOther =>
      ret {| cs_buffer := buffer;
             cs_last_activity_time := last_activity_time |}
  end.

(** One pass of [while self.running:] in [_buffer_timeout_checker];
    [st] is the object as the pass finds it when its sleep is over. *)
Definition buffer_timeout_pass (self : KeyCapture) (st : CaptureState)
  : M CaptureState :=
  time_sleep (PyFloat (inject_Z buffer_timeout_seconds / 2)) ;;;
  s <- get ;;
  if str_truthy (cs_buffer st)
     && py_gt (PyFloat (clock s - cs_last_activity_time st))
              (PyInt buffer_timeout_seconds)
  then
    buffer <- process_buffer self (cs_buffer st) true ;;
    ret {| cs_buffer := buffer;
           cs_last_activity_time := cs_last_activity_time st |}
  else ret st.

End keystroke_windows.

Module keystroke_linux.

Definition submit_word (self : KeyCapture) (word_candidate : string) : M unit :=
  env <- ask ;;
  let word_candidate :=
    str_lower env (str_strip (chr_isspace env) word_candidate) in
  if negb (str_truthy word_candidate)
     || (String.length word_candidate <? 2)%nat then ret tt
  else if existsb (fun excluded => str_in excluded word_candidate)
                  (kc_exclude_words self) then ret tt
  else
    info <- get_active_window_info ;;
    let app_name := fst info in
    let window_title := snd info in
    let app_name_lower := str_lower env app_name in
    if list_truthy (kc_include_processes self)
       && negb (existsb (fun proc_name => str_in proc_name app_name_lower)
                        (kc_include_processes self)) then ret tt
    else
      kc_log_callback self
        {| ld_app := app_name; ld_word := word_candidate;
           ld_title := window_title |}.


(** [self.buffer] goes in and comes out; it is assigned at the very end
    only, so that a call that raises leaves it as it was. *)
Definition process_buffer (self : KeyCapture) (buffer : string)
    (force_flush : bool) : M string :=
  env <- ask ;;
  let content_to_process := buffer in
  let parts := re_split_spaces (chr_isspace env) content_to_process in
  current_word <-
    process_parts (chr_isspace env) (submit_word self) parts "" ;;
  if str_truthy current_word then
    if force_flush then submit_word self current_word ;;; ret ""
    else ret current_word
  else ret "".

Definition on_press (self : KeyCapture) (st : CaptureState) (key : Key)
  : M CaptureState :=
  s <- get ;;
  let last_activity_time := clock s in
  let buffer := cs_buffer st in
  let failed (buffer : string) (e : exn) : M CaptureState :=
    print ("Error in on_press (Linux): " ++ exn_str e) ;;;
    ret {| cs_buffer := buffer;
           cs_last_activity_time := last_activity_time |} in
  match key with
  | KeyChar char =>
      ret {| cs_buffer := buffer ++ char;
             cs_last_activity_time := last_activity_time |}
  | KeySpace =>
      let buffer := buffer ++ " " in
      try_except
        (buffer <- process_buffer self buffer false ;;
         ret {| cs_buffer := buffer;
                cs_last_activity_time := last_activity_time |})
        (failed buffer)
  | KeyEnter | KeyTab =>
      try_except
        (buffer <- process_buffer self buffer true ;;
         ret {| cs_buffer := buffer;
                cs_last_activity_time := last_activity_time |})
        (failed buffer)
  | KeyOther =>
      ret {| cs_buffer := buffer;
             cs_last_activity_time := last_activity_time |}
  end.

(** One pass of [while self.running:] in [_buffer_timeout_checker];
    [st] is the object as the pass finds it when its sleep is over. *)
Definition buffer_timeout_pass (self : KeyCapture) (st : CaptureState)
  : M CaptureState :=
  time_sleep (PyFloat (inject_Z buffer_timeout_seconds / 2)) ;;;
  s <- get ;;
  if str_truthy (cs_buffer st)
     && py_gt (PyFloat (clock s - cs_last_activity_time st))
              (PyInt buffer_timeout_seconds)
  then
    buffer <- process_buffer self (cs_buffer st) true ;;
    ret {| cs_buffer := buffer;
           cs_last_activity_time := cs_last_activity_time st |}
  else ret st.

End keystroke_linux.

(** ** main.py *)

Module main.

Definition handle_keyword_log (config : Config) (keyword_data : LogData)
  : M unit :=
  try_except
    (let app_name := ld_app keyword_data in
     let word := ld_word keyword_data in
     let title := ld_title keyword_data in
     let log_entry :=
       if str_truthy title
          && negb (String.eqb title "Unknown Title")
          && negb (String.eqb title "Error")
       then app_name ++ ": " ++ dquote ++ word ++ dquote ++ " (Window: "
            ++ String.substring 0 100 title ++ ")"
       else app_name ++ ": " ++ dquote ++ word ++ dquote in
     logger.log_keyword log_entry config)
    (fun e =>
       print ("Error in handle_keyword_log: " ++ exn_str e) ;;;
       try_except
         (logger.log_error ("Exception in handle_keyword_log: " ++ exn_str e)
                           config false)
         (fun _ => ret tt)).

(** [keyword_callback = lambda kw_data: handle_keyword_log(config, kw_data)]
    as passed to the capture object by [start_monitoring_services]. *)
Definition keyword_callback (config : Config) : LogData -> M unit :=
  fun kw_data => handle_keyword_log config kw_data.

(** [start_monitoring_services]; the result is the value it leaves in
    the global [monitoring_active].  [ks_start_capture] stands for
    [keystroke_capture.start_capture], which builds the platform's
    capture object and starts its listener threads; the scheduler thread
    that [start_screenshot_scheduler] starts is run in place, for at
    most [fuel] passes of its loop, as in the model of that function. *)
Definition start_monitoring_services
    (ks_start_capture : Config -> (LogData -> M unit) -> M unit)
    (fuel : nat) (config : Config) : M bool :=
  print "Starting monitoring services..." ;;;
  keystroke_started <-
    try_except
      (ks_start_capture config (keyword_callback config) ;;;
       print "Keystroke capture service initiated." ;;;
       ret true)
      (fun e =>
         if is_NotImplementedError e then
           print ("Keystroke capture not started: " ++ exn_str e) ;;;
           logger.log_error ("Keystroke capture not started: " ++ exn_str e)
                            config false ;;;
           ret false
         else
           print ("Failed to start keystroke capture: " ++ exn_str e) ;;;
           logger.log_error ("Failed to start keystroke capture: "
                             ++ exn_str e) config true ;;;
           ret false) ;;
  screenshot_started <-
    try_except
      (screenshot_capture.start_screenshot_scheduler fuel config ;;;
       print "Screenshot capture service initiated." ;;;
       ret true)
      (fun e =>
         if is_NotImplementedError e then
           print ("Screenshot scheduler not started: " ++ exn_str e) ;;;
           logger.log_error ("Screenshot scheduler not started: "
                             ++ exn_str e) config false ;;;
           ret false
         else
           print ("Failed to start screenshot scheduler: " ++ exn_str e) ;;;
           logger.log_error ("Failed to start screenshot scheduler: "
                             ++ exn_str e) config true ;;;
           ret false) ;;
  let monitoring_active := keystroke_started || screenshot_started in
  (if negb monitoring_active then
     print "No monitoring services could be started. Application might not log any data." ;;;
     logger.log_error "No monitoring services could be started." config true
   else
     print "Monitoring services are active." ;;;
     logger.log_error "Monitoring services started." config false) ;;;
  ret monitoring_active.

End main.

(** ** A reference environment

    Concrete stand-ins for the library functions of [Env], used to run
    the model on examples: POSIX [os.path], ASCII [str.lower] and
    [str.isspace], and a toy cipher with the interface of Fernet (keys
    are the url-safe base64 text of 32 bytes; a token is a key check, the
    initialisation vector and the masked data). *)

Module Ref.

Definition ascii_lower (c : ascii) : ascii :=
  let n := N_of_ascii c in
  if ((65 <=? n) && (n <=? 90))%N then ascii_of_N (n + 32) else c.

Fixpoint lower (s : string) : string :=
  match s with
  | EmptyString => EmptyString
  | String c s' => String (ascii_lower c) (lower s')
  end.

Definition isspace (c : ascii) : bool :=
  let n := N_of_ascii c in
  (((9 <=? n) && (n <=? 13)) || ((28 <=? n) && (n <=? 32)))%N.

(** *** posixpath *)

Definition slash : ascii := "/"%char.

Fixpoint split_on (sep : ascii) (s : string) : list string :=
  match s with
  | EmptyString => [EmptyString]
  | String c s' =>
      if Ascii.eqb c sep then EmptyString :: split_on sep s'
      else match split_on sep s' with
           | h :: t => String c h :: t
           | [] => [String c EmptyString]
           end
  end.

Fixpoint head_tail (comps : list string) : string * string :=
  match comps with
  | [] => (EmptyString, EmptyString)
  | [x] => (EmptyString, x)
  | x :: rest =>
      let ht := head_tail rest in (x ++ "/" ++ fst ht, snd ht)
  end.

Definition all_slashes (s : string) : bool :=
  forallb (Ascii.eqb slash) (list_ascii_of_string s).

Definition dirname (p : string) : string :=
  let h := fst (head_tail (split_on slash p)) in
  if str_truthy h && negb (all_slashes h) then str_rstrip (Ascii.eqb slash) h
  else h.

Definition basename (p : string) : string :=
  snd (head_tail (split_on slash p)).

Definition isabs (p : string) : bool := String.prefix "/" p.

Definition ends_with_slash (s : string) : bool :=
  match rev (list_ascii_of_string s) with
  | c :: _ => Ascii.eqb c slash
  | [] => false
  end.

Definition join (a b : string) : string :=
  if isabs b then b
  else if negb (str_truthy a) || ends_with_slash a then a ++ b
  else a ++ "/" ++ b.

Fixpoint norm_components (comps : list string) (stack : list string)
  : list string :=
  match comps with
  | [] => rev stack
  | c :: rest =>
      if String.eqb c "" || String.eqb c "." then norm_components rest stack
      else if String.eqb c ".." then norm_components rest (tl stack)
      else norm_components rest (c :: stack)
  end.

Definition cwd : string := "/srv/monitor".

(** [abspath] of a path, with [cwd] as working directory *)
Definition abspath (p : string) : string :=
  "/" ++ String.concat "/" (norm_components (split_on slash (join cwd p)) []).

(** *** The toy cipher *)

Definition b64_alphabet : string :=
  "ABCDEFGHIJKLMNOPQRSTUVWXYZabcdefghijklmnopqrstuvwxyz0123456789-_".

Definition pad_char : ascii := "="%char.

Definition b64_char (n : N) : ascii :=
  match String.get (N.to_nat (n mod 64)) b64_alphabet with
  | Some c => c
  | None => pad_char
  end.

Fixpoint b64_encode_list (l : list ascii) : list ascii :=
  match l with
  | a :: b :: c :: rest =>
      let n := (N_of_ascii a * 65536 + N_of_ascii b * 256 + N_of_ascii c)%N in
      b64_char (n / 262144) :: b64_char (n / 4096) :: b64_char (n / 64)
      :: b64_char n :: b64_encode_list rest
  | [a; b] =>
      let n := ((N_of_ascii a * 256 + N_of_ascii b) * 4)%N in
      [b64_char (n / 4096); b64_char (n / 64); b64_char n; pad_char]
  | [a] =>
      let n := (N_of_ascii a * 16)%N in
      [b64_char (n / 64); b64_char n; pad_char; pad_char]
  | [] => []
  end.

(** [base64.urlsafe_b64encode] *)
Definition urlsafe_b64encode (s : string) : string :=
  string_of_list_ascii (b64_encode_list (list_ascii_of_string s)).

Definition is_b64url (c : ascii) : bool :=
  existsb (Ascii.eqb c) (list_ascii_of_string b64_alphabet)
  || Ascii.eqb c pad_char.

Definition key_ok (k : string) : bool :=
  (String.length k =? 44)%nat
  && forallb is_b64url (list_ascii_of_string k).

Definition xor_ascii (m c : ascii) : ascii :=
  match m, c with
  | Ascii m0 m1 m2 m3 m4 m5 m6 m7, Ascii c0 c1 c2 c3 c4 c5 c6 c7 =>
      Ascii (xorb m0 c0) (xorb m1 c1) (xorb m2 c2) (xorb m3 c3)
            (xorb m4 c4) (xorb m5 c5) (xorb m6 c6) (xorb m7 c7)
  end.

Definition key_mask (k : string) : ascii :=
  match k with
  | EmptyString => zero
  | String c _ => c
  end.

Fixpoint mask (m : ascii) (s : string) : string :=
  match s with
  | EmptyString => EmptyString
  | String c s' => String (xor_ascii m c) (mask m s')
  end.

Fixpoint drop (n : nat) (s : string) : string :=
  match n, s with
  | O, _ => s
  | S n', String _ s' => drop n' s'
  | S _, EmptyString => EmptyString
  end.

Definition encrypt (k : string) (t : Z) (iv data : string) : string :=
  k ++ iv ++ mask (key_mask k) data.

Definition decrypt (k token : string) : option string :=
  if String.prefix k token && (String.length k + 16 <=? String.length token)%nat
  then Some (mask (key_mask k) (drop (String.length k + 16) token))
  else None.

Definition fernet : FernetLib :=
  {| lib_generate_key := urlsafe_b64encode;
     lib_key_ok := key_ok;
     lib_encrypt := encrypt;
     lib_decrypt := decrypt |}.

(** Decimal digits without the trailing zeros, keeping at least one. *)
Fixpoint trim_zeros (digits : list ascii) : list ascii :=
  match digits with
  | [] => []
  | c :: rest =>
      match trim_zeros rest with
      | [] => if Ascii.eqb c "0" then [] else [c]
      | r => c :: r
      end
  end.

(** [repr] of a float with at most six decimals *)
Definition repr_float (x : Q) : string :=
  let scaled := Qfloor (Qabs x * 1000000) in
  let decimals :=
    trim_zeros (list_ascii_of_string
                  (pad_decimal 6 (Z.to_N (scaled mod 1000000)))) in
  (if Qle_bool 0 x then "" else "-")
  ++ NilZero.string_of_int (Z.to_int (scaled / 1000000))
  ++ "."
  ++ string_of_list_ascii (match decimals with [] => ["0"%char] | d => d end).

(** A 2026 calendar day; the clock counts seconds since its midnight. *)
Definition day_time (t : Q) : datetime :=
  let secs := Z.to_N (Qfloor t) in
  {| dt_year := 2026; dt_month := 3; dt_day := 14;
     dt_hour := (secs / 3600) mod 24;
     dt_minute := (secs / 60) mod 60;
     dt_second := secs mod 60 |}.

Definition entropy_src (i : nat) : ascii := ascii_of_nat (7 * i + 3).

Definition env : Env :=
  {| sys_platform := Linux;
     faults := fun _ => None;
     umask := 18;
     localtime := day_time;
     entropy := entropy_src;
     stop_at := None;
     active_window := ("chrome", "Search - Chrome");
     capturer_init_error := None;
     screen := fun _ => Ok (Some "PNG-bytes");
     path_join := join;
     path_dirname := dirname;
     path_basename := basename;
     path_isabs := isabs;
     path_abspath := abspath;
     str_lower := lower;
     chr_isspace := isspace;
     float_repr := repr_float;
     fernet_lib := fernet |}.

(** The reference environment on another platform, with another
    foreground window, or with I/O faults. *)
Definition with_platform (p : Platform) (e : Env) : Env :=
  {| sys_platform := p; faults := faults e; umask := umask e;
     localtime := localtime e; entropy := entropy e;
     stop_at := stop_at e; active_window := active_window e;
     capturer_init_error := capturer_init_error e; screen := screen e;
     path_join := path_join e; path_dirname := path_dirname e;
     path_basename := path_basename e; path_isabs := path_isabs e;
     path_abspath := path_abspath e; str_lower := str_lower e;
     chr_isspace := chr_isspace e; float_repr := float_repr e;
     fernet_lib := fernet_lib e |}.

Definition with_window (w : string * string) (e : Env) : Env :=
  {| sys_platform := sys_platform e; faults := faults e; umask := umask e;
     localtime := localtime e; entropy := entropy e;
     stop_at := stop_at e; active_window := w;
     capturer_init_error := capturer_init_error e; screen := screen e;
     path_join := path_join e; path_dirname := path_dirname e;
     path_basename := path_basename e; path_isabs := path_isabs e;
     path_abspath := path_abspath e; str_lower := str_lower e;
     chr_isspace := chr_isspace e; float_repr := float_repr e;
     fernet_lib := fernet_lib e |}.

Definition with_faults (f : os_op -> option string) (e : Env) : Env :=
  {| sys_platform := sys_platform e; faults := f; umask := umask e;
     localtime := localtime e; entropy := entropy e;
     stop_at := stop_at e; active_window := active_window e;
     capturer_init_error := capturer_init_error e; screen := screen e;
     path_join := path_join e; path_dirname := path_dirname e;
     path_basename := path_basename e; path_isabs := path_isabs e;
     path_abspath := path_abspath e; str_lower := str_lower e;
     chr_isspace := chr_isspace e; float_repr := float_repr e;
     fernet_lib := fernet_lib e |}.

Definition with_stop_at (t : option Q) (e : Env) : Env :=
  {| sys_platform := sys_platform e; faults := faults e; umask := umask e;
     localtime := localtime e; entropy := entropy e;
     stop_at := t; active_window := active_window e;
     capturer_init_error := capturer_init_error e; screen := screen e;
     path_join := path_join e; path_dirname := path_dirname e;
     path_basename := path_basename e; path_isabs := path_isabs e;
     path_abspath := path_abspath e; str_lower := str_lower e;
     chr_isspace := chr_isspace e; float_repr := float_repr e;
     fernet_lib := fernet_lib e |}.

(** A freshly started interpreter over the file system [files]. *)
Definition boot (files : gmap string Node) : State :=
  {| fs := files; clock := 0%Q; entropy_pos := 0; stdout := [];
     logger_ENCRYPTION_KEY := None; logger_cipher_suite := None;
     utils_ENCRYPTION_KEY_BYTES := None; utils_CIPHER_SUITE := None;
     screenshot_capturer_instance := None |}.

Definition config : Config :=
  {| cfg_screenshot_interval_minutes := Some (PyInt 5);
     cfg_keyword_filters :=
       Some {| kf_include_processes := Some ["chrome"; "firefox"];
               kf_exclude_words := Some ["password"; "secret"] |};
     cfg_log_directory := Some "/var/lib/monitor/data";
     cfg_encryption_key_file := Some "/etc/monitor/encryption.key";
     cfg_config_file_path := Some "/etc/monitor/config.yaml" |}.

(** The file system of a fresh installation: the configuration
    directory with [config.yaml] in it. *)
Definition installed : gmap string Node :=
  {[ "/" := Dir 493; "/etc" := Dir 493; "/var" := Dir 493;
     "/var/lib" := Dir 493; "/etc/monitor" := Dir 493;
     "/etc/monitor/config.yaml" := File "eula_accepted: true" 420 ]}.

(** The interpreter once [initialize_logger] has run. *)
Definition ready : State :=
  snd (logger.initialize_logger config env (boot installed)).

(** The cipher it has built, from the first 32 bytes of entropy. *)
Definition ready_cipher : Fernet :=
  {| fernet_key := urlsafe_b64encode (entropy_bytes env 0 32) |}.

(** The data volume has become read-only: nothing can be created below
    the log directory. *)
Definition read_only_data (op : os_op) : option string :=
  match op with
  | OpMakedirs p =>
      if String.prefix "/var/lib/monitor/data" p
      then Some "[Errno 30] Read-only file system"
      else None
  | _ => None
  end.

Definition env_read_only : Env := with_faults read_only_data env.

End Ref.

(** * Vocabulary of the statements *)

(** A program that returns normally from every state. *)
Definition never_raises {A} (m : M A) : Prop :=
  forall env s, exists a s', m env s = (Ok a, s').

(** What file and console operations leave alone: the clock, the
    entropy position and the module globals. *)
Definition same_globals (s s' : State) : Prop :=
  clock s' = clock s
  /\ entropy_pos s' = entropy_pos s
  /\ logger_ENCRYPTION_KEY s' = logger_ENCRYPTION_KEY s
  /\ logger_cipher_suite s' = logger_cipher_suite s
  /\ utils_ENCRYPTION_KEY_BYTES s' = utils_ENCRYPTION_KEY_BYTES s
  /\ utils_CIPHER_SUITE s' = utils_CIPHER_SUITE s
  /\ screenshot_capturer_instance s' = screenshot_capturer_instance s.

Definition io_only {A} (m : M A) : Prop :=
  forall env s, same_globals s (snd (m env s)).

(** The error log (a file [error.log] in some directory) ends with a
    line for [message] ... *)
Definition error_logged (env : Env) (message : string) (is_critical : bool)
    (s : State) : Prop :=
  exists dir before timestamp mode,
    fs s !! path_join env dir logger.ERROR_LOG_FILE
    = Some (File (before ++ "[" ++ timestamp ++ "] "
                  ++ (if is_critical then "CRITICAL: " else "")
                  ++ message ++ nl) mode).

(** ... or, the error log being out of reach, the console got the
    last-resort line. *)
Definition error_printed (message : string) (s : State) : Prop :=
  exists lines path reason,
    stdout s
    = (lines ++ [("FATAL: Could not write to error log at " ++ path
                  ++ ". Original error: " ++ message ++ ". Logging error: "
                  ++ reason)%string])%list.

Definition error_reported (env : Env) (message : string) (is_critical : bool)
    (s : State) : Prop :=
  error_logged env message is_critical s \/ error_printed message s.

(** The bytes stored at [path] are [image_bytes] encrypted under the key
    of [c]. *)
Definition holds_encrypted (env : Env) (c : Fernet) (data path : string)
    (s : State) : Prop :=
  exists t iv mode,
    String.length iv = 16%nat
    /\ fs s !! path
       = Some (File (lib_encrypt (fernet_lib env) (fernet_key c) t iv data) mode).

(** The keyword log of a daily partition holds, as its last record,
    [keyword_entry] with its time stamp, encrypted under the key of [c]. *)
Definition keyword_stored (env : Env) (c : Fernet) (keyword_entry : string)
    (s : State) : Prop :=
  exists daily_dir before timestamp t iv mode,
    String.length iv = 16%nat
    /\ fs s !! path_join env daily_dir "keywords.log.enc"
       = Some (File (before
                     ++ lib_encrypt (fernet_lib env) (fernet_key c) t iv
                          ("[" ++ timestamp ++ "] " ++ keyword_entry ++ nl)
                     ++ nl) mode).

(** A capture tick leaves this line on the console, and nothing else in
    the program prints it. *)
Definition tick_line : string := "Scheduler: Time to take a screenshot.".

Definition ticks (s : State) : nat :=
  count_occ string_dec (stdout s) tick_line.

(** A program that fires no capture tick. *)
Definition no_tick {A} (m : M A) : Prop :=
  forall env s, ticks (snd (m env s)) = ticks s.

(** The filter decision in the words of the specification (§4.3), on a
    lower-cased word and process name and the lower-cased filter lists:
    first the exclude check, then the include check. *)
Definition shouldLog_spec (excludeWords includeProcesses : list string)
    (word activeProcessName : string) : bool :=
  if existsb (fun e => str_in e word) excludeWords then false
  else match includeProcesses with
       | [] => true
       | _ => existsb (fun p => str_in p activeProcessName) includeProcesses
       end.

(** What [submit_word] does with a candidate, given the name under which
    the active process is matched: at least two characters and
    [shouldLog_spec] hand the entry to the callback, anything else
    returns with nothing done. *)
Definition submit_word_spec (env : Env) (self : KeyCapture)
    (word_candidate matched_name : string) : M unit :=
  let word := str_lower env (str_strip (chr_isspace env) word_candidate) in
  if (2 <=? String.length word)%nat
     && shouldLog_spec (kc_exclude_words self) (kc_include_processes self)
          word matched_name
  then kc_log_callback self
         {| ld_app := fst (active_window env); ld_word := word;
            ld_title := snd (active_window env) |}
  else ret tt.

(** A callback that leaves a trace on the console. *)
Definition trace_callback (d : LogData) : M unit :=
  print (ld_app d ++ ": " ++ ld_word d).

(** The permission bits of a node, and the node [os.chmod] leaves. *)
Definition node_mode (n : Node) : Z :=
  match n with File _ m | Dir m => m end.

Definition chmod_node (mode : Z) (n : Node) : Node :=
  match n with File c _ => File c mode | Dir _ => Dir mode end.

Definition is_dir (n : Node) : bool :=
  match n with Dir _ => true | File _ _ => false end.

(** A path holds a node with the permission bits [mode]. *)
Definition has_mode (mode : Z) (p : string) (s : State) : Prop :=
  exists n, fs s !! p = Some n /\ node_mode n = mode.

(** A string without whitespace, and a word: such a string with at
    least one character. *)
Definition no_space (isspace : ascii -> bool) (s : string) : bool :=
  forallb (fun c => negb (isspace c)) (list_ascii_of_string s).

Definition is_word (isspace : ascii -> bool) (w : string) : bool :=
  str_truthy w && no_space isspace w.

(** What was typed: words, each followed by a run of whitespace. *)
Fixpoint typed_text (ws : list (string * string)) : string :=
  match ws with
  | [] => ""
  | (w, sep) :: ws' => w ++ sep ++ typed_text ws'
  end.

Definition typed_ok (isspace : ascii -> bool) (ws : list (string * string))
  : bool :=
  forallb (fun p => is_word isspace (fst p) && str_isspace isspace (snd p)) ws.

(** A string that does not begin with whitespace. *)
Definition starts_nonspace (isspace : ascii -> bool) (r : string) : bool :=
  match r with
  | EmptyString => true
  | String c _ => negb (isspace c)
  end.

(** The keys that end a word, and what [on_press] has put into the
    buffer before it calls [process_buffer] for one of them. *)
Definition is_delimiter (key : Key) : bool :=
  match key with KeySpace | KeyEnter | KeyTab => true | _ => false end.

Definition force_flush_of (key : Key) : bool :=
  match key with KeySpace => false | _ => true end.

Definition buffer_at (key : Key) (word : string) : string :=
  match key with KeySpace => word ++ " " | _ => word end.

(** The characters of the keys pressed, one after the other. *)
Definition typed_chars (chars : list string) : string :=
  fold_right String.append "" chars.

(** The listener hands the key events to [on_press] one by one. *)
Fixpoint press_all (on_press : CaptureState -> Key -> M CaptureState)
    (keys : list Key) (st : CaptureState) : M CaptureState :=
  match keys with
  | [] => ret st
  | key :: keys' => st' <- on_press st key ;; press_all on_press keys' st'
  end.

(** The checker thread alone: [n] passes of its loop, with no key
    pressed and the capture not stopped meanwhile. *)
Fixpoint idle_passes (pass : CaptureState -> M CaptureState) (n : nat)
    (st : CaptureState) : M CaptureState :=
  match n with
  | O => ret st
  | S n' => st' <- pass st ;; idle_passes pass n' st'
  end.

(** [s'] is [s] at a later time. *)
Definition later (d : Q) (s s' : State) : Prop :=
  s' = set_clock (fun _ => clock s') s /\ (clock s' == clock s + d)%Q.

(** The directory in which [get_config_path] puts a configuration that
    it has found nowhere, and the directories that [os.makedirs] makes
    for it, outermost first. *)
Definition default_app_dir (env : Env) (proc : Process) : string :=
  if negb (os_name_posix (sys_platform env)) then
    path_join env (dict_get (proc_ProgramFiles proc) "C:\Program Files")
      "ParentalMonitor"
  else "/opt/parental-monitor".

Definition app_dir_chain (env : Env) (proc : Process) : list string :=
  makedirs_chain (path_dirname env)
    (String.length (default_app_dir env proc)) (default_app_dir env proc).

(** The two places where a configuration file is looked for first. *)
Definition config_candidates (env : Env) (proc : Process) : list string :=
  [path_join env (proc_cwd proc) config.CONFIG_FILE_NAME;
   path_join env (path_dirname env (path_abspath env (proc_file proc)))
     config.CONFIG_FILE_NAME].

(** A program that takes no time: it does not sleep. *)
Definition keeps_clock {A} (m : M A) : Prop :=
  forall env s, clock (snd (m env s)) = clock s.

(** The stop event is not set at time [c] (nor, then, before). *)
Definition stop_after (env : Env) (c : Q) : Prop :=
  match stop_at env with
  | None => True
  | Some t => (c < t)%Q
  end.

(** A block of the keyword log, as one line of the file: not empty,
    free of line feeds, no ASCII whitespace at either end.  Every
    Fernet token is one, being base64 text. *)
Definition block_starts (block : string) : bool :=
  match block with
  | EmptyString => false
  | String c _ => negb (bytes_isspace c)
  end.

Fixpoint block_ends (block : string) : bool :=
  match block with
  | EmptyString => false
  | String c rest =>
      match rest with
      | EmptyString => negb (bytes_isspace c)
      | String _ _ => block_ends rest
      end
  end.

Fixpoint no_line_feed (block : string) : bool :=
  match block with
  | EmptyString => true
  | String c rest => negb (Ascii.eqb c (ascii_of_nat 10)) && no_line_feed rest
  end.

Definition is_block (block : string) : bool :=
  block_starts block && block_ends block && no_line_feed block.

(** The file that holds the blocks, each followed by a line feed, and
    the text made of the entries. *)
Fixpoint blocks (tokens : list string) : string :=
  match tokens with
  | [] => EmptyString
  | token :: rest => token ++ nl ++ blocks rest
  end.

Fixpoint text_of (entries : list string) : string :=
  match entries with
  | [] => EmptyString
  | entry :: rest => entry ++ text_of rest
  end.

(** [token] is a block that the key opens, and [entry] (well-formed
    UTF-8) is what it holds. *)
Definition readable (env : Env) (key token entry : string) : Prop :=
  is_block token = true
  /\ lib_decrypt (fernet_lib env) key token = Some entry
  /\ utf8_valid entry = true.

(** The keyword log at [path] holds exactly the blocks [tokens]; a log
    that does not exist yet holds none. *)
Definition log_holds (s : State) (path : string) (tokens : list string)
  : Prop :=
  match fs s !! path with
  | None => tokens = []
  | Some (File data _) => data = blocks tokens
  | Some (Dir _) => False
  end.

(** A program over the console that leaves the state alone and only
    adds text to the console. *)
Definition only_prints {A} (m : T A) : Prop :=
  forall env s out, exists r text, m env s out = (r, s, out ++ text).

(** * Reasoning about programs in [M] *)

Lemma bind_Ok {A B} (m : M A) (k : A -> M B) env s a s' :
  m env s = (Ok a, s') -> bind m k env s = k a env s'.
Proof. intros H. unfold bind. now rewrite H. Qed.

Lemma bind_Raise {A B} (m : M A) (k : A -> M B) env s e s' :
  m env s = (Raise e, s') -> bind m k env s = (Raise e, s').
Proof. intros H. unfold bind. now rewrite H. Qed.

Lemma try_except_Ok {A} (m : M A) h env s a s' :
  m env s = (Ok a, s') -> try_except m h env s = (Ok a, s').
Proof. intros H. unfold try_except. now rewrite H. Qed.

Lemma try_except_Raise {A} (m : M A) h env s e s' :
  m env s = (Raise e, s') -> try_except m h env s = h e env s'.
Proof. intros H. unfold try_except. now rewrite H. Qed.

Lemma bind_ask {B} (k : Env -> M B) env s : bind ask k env s = k env env s.
Proof. reflexivity. Qed.

Lemma bind_get {B} (k : State -> M B) env s : bind get k env s = k s env s.
Proof. reflexivity. Qed.

Lemma bind_ret {A B} (a : A) (k : A -> M B) env s :
  bind (ret a) k env s = k a env s.
Proof. reflexivity. Qed.

Lemma bind_raise {A B} e (k : A -> M B) env s :
  bind (raise e) k env s = (Raise e, s).
Proof. reflexivity. Qed.

Lemma bind_modify {B} f (k : unit -> M B) env s :
  bind (modify f) k env s = k tt env (f s).
Proof. reflexivity. Qed.

Lemma bind_print {B} line (k : unit -> M B) env s :
  bind (print line) k env s
  = k tt env (set_stdout (fun out => (out ++ [line])%list) s).
Proof. reflexivity. Qed.

Lemma bind_datetime_now {B} (k : datetime -> M B) env s :
  bind datetime_now k env s = k (localtime env (clock s)) env s.
Proof. reflexivity. Qed.

Lemma bind_bind {A B C} (m : M A) (k : A -> M B) (k' : B -> M C) env s :
  bind (bind m k) k' env s = bind m (fun a => bind (k a) k') env s.
Proof. unfold bind. now destruct (m env s) as [[a|e] s']. Qed.

Lemma ret_run {A} (a : A) env s : ret a env s = (Ok a, s).
Proof. reflexivity. Qed.

Lemma raise_run {A} e env s : @raise A e env s = (Raise e, s).
Proof. reflexivity. Qed.

Lemma print_run line env s :
  print line env s = (Ok tt, set_stdout (fun out => (out ++ [line])%list) s).
Proof. reflexivity. Qed.

Create Rewrite HintDb msimp.
#[local] Hint Rewrite @bind_ask @bind_get @bind_ret @bind_raise @bind_modify
  @bind_print @bind_datetime_now @bind_bind @ret_run @raise_run print_run
  : msimp.

(** Runs the steps of a program whose outcome is already determined. *)
Ltac msimp := repeat (progress (autorewrite with msimp; cbv beta iota)).

Lemma same_globals_refl s : same_globals s s.
Proof. repeat split. Qed.

Lemma same_globals_trans s1 s2 s3 :
  same_globals s1 s2 -> same_globals s2 s3 -> same_globals s1 s3.
Proof.
  unfold same_globals. intros (?&?&?&?&?&?&?) (?&?&?&?&?&?&?).
  repeat split; congruence.
Qed.

Lemma same_globals_set_fs f s : same_globals s (set_fs f s).
Proof. repeat split. Qed.

Lemma same_globals_set_stdout f s : same_globals s (set_stdout f s).
Proof. repeat split. Qed.

Create HintDb monad_db.

Lemma never_raises_ret {A} (a : A) : never_raises (ret a).
Proof. intros env s. now exists a, s. Qed.

Lemma never_raises_bind {A B} (m : M A) (k : A -> M B) :
  never_raises m -> (forall a, never_raises (k a)) -> never_raises (bind m k).
Proof.
  intros Hm Hk env s. destruct (Hm env s) as (a & s' & E).
  rewrite (bind_Ok _ _ _ _ _ _ E). apply Hk.
Qed.

Lemma never_raises_try_except {A} (m : M A) h :
  (forall e, never_raises (h e)) -> never_raises (try_except m h).
Proof.
  intros Hh env s. unfold try_except.
  destruct (m env s) as [[a|e] s']; [now exists a, s' | apply Hh].
Qed.

Lemma never_raises_ask : never_raises ask.
Proof. intros env s. now exists env, s. Qed.

Lemma never_raises_get : never_raises get.
Proof. intros env s. now exists s, s. Qed.

Lemma never_raises_modify f : never_raises (modify f).
Proof. intros env s. now exists tt, (f s). Qed.

Lemma never_raises_print line : never_raises (print line).
Proof. apply never_raises_modify. Qed.

Lemma never_raises_datetime_now : never_raises datetime_now.
Proof. intros env s. now exists (localtime env (clock s)), s. Qed.

#[local] Hint Resolve never_raises_ret never_raises_ask never_raises_get
  never_raises_modify never_raises_print never_raises_datetime_now : monad_db.

Lemma io_only_ret {A} (a : A) : io_only (ret a).
Proof. intros env s. apply same_globals_refl. Qed.

Lemma io_only_raise {A} e : io_only (@raise A e).
Proof. intros env s. apply same_globals_refl. Qed.

Lemma io_only_ask : io_only ask.
Proof. intros env s. apply same_globals_refl. Qed.

Lemma io_only_get : io_only get.
Proof. intros env s. apply same_globals_refl. Qed.

Lemma io_only_bind {A B} (m : M A) (k : A -> M B) :
  io_only m -> (forall a, io_only (k a)) -> io_only (bind m k).
Proof.
  intros Hm Hk env s. unfold bind. specialize (Hm env s).
  destruct (m env s) as [[a|e] s']; simpl in *; [|assumption].
  eapply same_globals_trans; [eassumption | apply Hk].
Qed.

Lemma io_only_try_except {A} (m : M A) h :
  io_only m -> (forall e, io_only (h e)) -> io_only (try_except m h).
Proof.
  intros Hm Hh env s. unfold try_except. specialize (Hm env s).
  destruct (m env s) as [[a|e] s']; simpl in *; [assumption|].
  eapply same_globals_trans; [eassumption | apply Hh].
Qed.

Lemma io_only_print line : io_only (print line).
Proof. intros env s. apply same_globals_set_stdout. Qed.

Lemma io_only_set_fs f : io_only (modify (set_fs f)).
Proof. intros env s. apply same_globals_set_fs. Qed.

Lemma io_only_datetime_now : io_only datetime_now.
Proof. intros env s. apply same_globals_refl. Qed.

Lemma io_only_os_path_exists p : io_only (os_path_exists p).
Proof. intros env s. apply same_globals_refl. Qed.

#[local] Hint Resolve io_only_ret io_only_raise io_only_ask io_only_get
  io_only_print io_only_set_fs io_only_datetime_now io_only_os_path_exists
  : monad_db.

(** Splits a goal about a composite program along its structure and
    closes the leaves with the hints of [monad_db]. *)
Ltac monad_auto :=
  repeat first
    [ progress auto with monad_db
    | apply never_raises_bind; [|intros ?]
    | apply never_raises_try_except; intros ?
    | apply io_only_bind; [|intros ?]
    | apply io_only_try_except; [|intros ?]
    | match goal with
      | |- never_raises (if ?b then _ else _) => destruct b
      | |- never_raises (match ?x with _ => _ end) => destruct x
      | |- io_only (if ?b then _ else _) => destruct b
      | |- io_only (match ?x with _ => _ end) => destruct x
      end ].

Lemma io_only_mkdir_exist_ok d : io_only (mkdir_exist_ok d).
Proof.
  intros env s. unfold mkdir_exist_ok, bind, ask, get. simpl.
  destruct (fs s !! d) as [[c m|m]|]; simpl;
    auto using same_globals_refl, same_globals_set_fs.
Qed.

Lemma io_only_for_each {A} (f : A -> M unit) l :
  (forall x, io_only (f x)) -> io_only (for_each f l).
Proof. intros Hf. induction l; simpl; monad_auto. Qed.

Lemma io_only_os_makedirs d : io_only (os_makedirs d).
Proof.
  unfold os_makedirs. monad_auto.
  apply io_only_for_each, io_only_mkdir_exist_ok.
Qed.

Lemma io_only_os_chmod p mode : io_only (os_chmod p mode).
Proof. unfold os_chmod. monad_auto. Qed.

Lemma io_only_read_file p : io_only (read_file p).
Proof. unfold read_file. monad_auto. Qed.

Lemma io_only_write_file p data : io_only (write_file p data).
Proof. unfold write_file. monad_auto. Qed.

Lemma io_only_append_file p data : io_only (append_file p data).
Proof. unfold append_file. monad_auto. Qed.

#[local] Hint Resolve io_only_os_makedirs io_only_os_chmod io_only_read_file
  io_only_write_file io_only_append_file : monad_db.

(** The two outcomes of writing a file: refused, with nothing changed,
    or done. *)
Lemma write_file_result p data env s :
  (exists e, write_file p data env s = (Raise e, s))
  \/ (exists mode,
        write_file p data env s
        = (Ok tt, set_fs (insert p (File data mode)) s)).
Proof.
  unfold write_file. msimp.
  destruct (faults env (OpWrite p)); [left; now eexists|].
  destruct (fs s !! p) as [[c m|m]|]; msimp;
    [right | left | right]; now eexists.
Qed.

Lemma write_file_Ok_no_fault p data env s s' :
  write_file p data env s = (Ok tt, s') -> faults env (OpWrite p) = None.
Proof.
  unfold write_file. msimp.
  destruct (faults env (OpWrite p)); [discriminate | reflexivity].
Qed.

Lemma append_file_result p data env s :
  (exists e, append_file p data env s = (Raise e, s))
  \/ (exists before mode,
        append_file p data env s
        = (Ok tt, set_fs (insert p (File (before ++ data) mode)) s)).
Proof.
  unfold append_file. msimp.
  destruct (faults env (OpAppend p)); [left; now eexists|].
  destruct (fs s !! p) as [[c m|m]|]; msimp.
  - right. now exists c, m.
  - left. now eexists.
  - right. now exists "", (Z.ldiff 438 (umask env)).
Qed.

Lemma os_chmod_file_result p mode env s c m :
  fs s !! p = Some (File c m) ->
  (exists e, os_chmod p mode env s = (Raise e, s))
  \/ os_chmod p mode env s = (Ok tt, set_fs (insert p (File c mode)) s).
Proof.
  intros H. unfold os_chmod. msimp.
  destruct (faults env (OpChmod p)); [left; now eexists|].
  rewrite H. now right.
Qed.

(** ** logger.py: the error log *)

Lemma never_raises_get_error_log_path config :
  never_raises (logger.get_error_log_path config).
Proof. unfold logger.get_error_log_path. monad_auto. Qed.

Lemma io_only_get_error_log_path config :
  io_only (logger.get_error_log_path config).
Proof. unfold logger.get_error_log_path. monad_auto. Qed.

Lemma never_raises_log_error message config is_critical :
  never_raises (logger.log_error message config is_critical).
Proof.
  unfold logger.log_error. monad_auto.
Qed.

Lemma io_only_log_error message config is_critical :
  io_only (logger.log_error message config is_critical).
Proof.
  unfold logger.log_error. monad_auto.
Qed.

#[local] Hint Resolve never_raises_get_error_log_path io_only_get_error_log_path
  never_raises_log_error io_only_log_error : monad_db.

Lemma get_error_log_path_result config env s :
  exists dir s1,
    logger.get_error_log_path config env s
    = (Ok (path_join env dir logger.ERROR_LOG_FILE), s1).
Proof.
  unfold logger.get_error_log_path. msimp.
  match goal with
  | |- context [try_except ?m ?h] =>
      destruct (try_except m h env s) as [[dir|e] s1] eqn:E
  end.
  - exists dir, s1. now rewrite (bind_Ok _ _ _ _ _ _ E).
  - exfalso. revert E. unfold try_except.
    match goal with
    | |- context [match ?x with _ => _ end] => destruct x as [[?|?] ?]
    end; discriminate.
Qed.

Lemma log_error_reports message config is_critical env s :
  exists s',
    logger.log_error message config is_critical env s = (Ok tt, s')
    /\ error_reported env message is_critical s'.
Proof.
  unfold logger.log_error.
  destruct (get_error_log_path_result config env s) as (dir & s1 & Ep).
  rewrite bind_ask, (bind_Ok _ _ _ _ _ _ Ep), bind_datetime_now.
  set (p := path_join env dir logger.ERROR_LOG_FILE).
  set (timestamp := strftime_log (localtime env (clock s1))).
  set (entry := "[" ++ timestamp ++ "] " ++ _ ++ message ++ nl).
  destruct (append_file_result p entry env s1)
    as [[e0 Ea]|(before & mode0 & Ea)].
  { (* the log cannot be appended to: last resort, the console *)
    erewrite try_except_Raise
      by (rewrite (bind_Raise _ _ _ _ _ _ Ea); reflexivity).
    eexists. split; [reflexivity|]. right. unfold error_printed. simpl.
    now eexists _, _, _. }
  set (s2 := set_fs _ s1) in Ea.
  assert (Hlook : fs s2 !! p = Some (File (before ++ entry) mode0))
    by (subst s2; simpl; apply lookup_insert_eq).
  destruct (os_name_posix (sys_platform env)).
  - destruct (os_chmod_file_result p 384 env s2 _ _ Hlook) as [[e0 Ec]|Ec].
    + (* the line is written; the failure of chmod is ignored *)
      erewrite try_except_Ok
        by (rewrite (bind_Ok _ _ _ _ _ _ Ea),
              (try_except_Raise _ _ _ _ _ _ Ec); reflexivity).
      eexists. split; [reflexivity|]. left.
      now exists dir, before, timestamp, mode0.
    + erewrite try_except_Ok
        by (rewrite (bind_Ok _ _ _ _ _ _ Ea),
              (try_except_Ok _ _ _ _ _ _ Ec); reflexivity).
      eexists. split; [reflexivity|]. left.
      exists dir, before, timestamp, 384. simpl. apply lookup_insert_eq.
  - erewrite try_except_Ok
      by (rewrite (bind_Ok _ _ _ _ _ _ Ea); reflexivity).
    eexists. split; [reflexivity|]. left.
    now exists dir, before, timestamp, mode0.
Qed.

(** ** logger.py: the daily partition and the two write operations *)

Lemma length_string_of_list_ascii l :
  String.length (string_of_list_ascii l) = length l.
Proof. induction l; simpl; congruence. Qed.

Lemma length_entropy_bytes env pos n :
  String.length (entropy_bytes env pos n) = n.
Proof.
  unfold entropy_bytes.
  now rewrite length_string_of_list_ascii, length_map, length_seq.
Qed.

Lemma io_only_ensure_daily_log_dir config :
  io_only (logger.ensure_daily_log_dir config).
Proof. unfold logger.ensure_daily_log_dir. monad_auto. Qed.

#[local] Hint Resolve io_only_ensure_daily_log_dir : monad_db.

(** When the partition cannot be set up, the failure has been handed to
    the error log before it is raised again. *)
Lemma ensure_daily_log_dir_raises config env s e s1 :
  logger.ensure_daily_log_dir config env s = (Raise e, s1) ->
  exists message, error_reported env message true s1.
Proof.
  unfold logger.ensure_daily_log_dir.
  unfold bind at 1. unfold ask at 1. cbv beta iota.
  unfold bind at 1.
  unfold logger.get_daily_log_directory at 1.
  unfold bind at 1. unfold ask at 1. cbv beta iota.
  unfold bind at 1. unfold datetime_now at 1.
  unfold bind at 1. unfold ask at 1. cbv beta iota.
  unfold bind at 1. unfold get at 1. cbv beta iota.
  unfold ret at 1. cbv beta iota. unfold ret at 1. cbv beta iota.
  unfold bind at 1. unfold try_except at 1.
  match goal with
  | |- context [match ?body env s with _ => _ end] =>
      destruct (body env s) as [[[]|e0] s0]
  end.
  - unfold ret. discriminate.
  - unfold bind at 1.
    match goal with
    | |- context [logger.log_error ?msg config true env s0] =>
        destruct (log_error_reports msg config true env s0) as (s' & E & R);
        rewrite E
    end.
    unfold raise. cbv beta iota. intros [= <- <-]. eexists. exact R.
Qed.

Lemma encrypt_data_initialized data env s c :
  logger_cipher_suite s = Some c ->
  logger.encrypt_data data env s
  = (Ok (lib_encrypt (fernet_lib env) (fernet_key c) (Qfloor (clock s))
           (entropy_bytes env (entropy_pos s) 16) data),
     set_entropy_pos (fun p => (p + 16)%nat) s).
Proof.
  intros H. unfold logger.encrypt_data, bind, get. rewrite H. reflexivity.
Qed.

Lemma save_screenshot_uninitialized image config env s :
  logger_cipher_suite s = None ->
  exists s',
    logger.save_screenshot image config env s = (Ok None, s')
    /\ error_reported env
         "Attempted to save screenshot before encryption was initialized."
         false s'.
Proof.
  intros H. unfold logger.save_screenshot. msimp. rewrite H. msimp.
  match goal with
  | |- context [bind (logger.log_error ?msg config false) _ env ?s0] =>
      destruct (log_error_reports msg config false env s0) as (s' & E & R)
  end.
  rewrite (bind_Ok _ _ _ _ _ _ E). msimp. now exists s'.
Qed.

Lemma save_screenshot_initialized image config env s c :
  logger_cipher_suite s = Some c ->
  match logger.ensure_daily_log_dir config env s with
  | (Raise e, s1) =>
      logger.save_screenshot image config env s = (Raise e, s1)
  | (Ok _, _) =>
      exists r s',
        logger.save_screenshot image config env s = (Ok r, s')
        /\ match r with
           | Some path =>
               faults env (OpWrite path) = None
               /\ holds_encrypted env c image path s'
           | None => exists message, error_reported env message true s'
           end
  end.
Proof.
  intros H.
  pose proof (io_only_ensure_daily_log_dir config env s) as G.
  destruct (logger.ensure_daily_log_dir config env s) as [[dirs|e] s1] eqn:Ed;
    unfold logger.save_screenshot; msimp; rewrite H; cbv beta iota.
  2: { now rewrite (bind_Raise _ _ _ _ _ _ Ed). }
  rewrite (bind_Ok _ _ _ _ _ _ Ed). msimp.
  simpl in G. destruct G as (_ & _ & _ & Hc & _). rewrite H in Hc.
  rewrite (bind_Ok _ _ _ _ _ _ (encrypt_data_initialized _ _ _ _ Hc)).
  set (token := lib_encrypt _ _ _ _ _).
  set (file_path := path_join env _ _).
  set (s2 := set_entropy_pos _ s1).
  assert (Hrep : forall e0 s0,
             exists r s',
               (bind (logger.log_error
                        ("Failed to save screenshot to " ++ file_path ++ ": "
                         ++ exn_str e0) config true)
                     (fun _ => ret None)) env s0 = (Ok r, s')
               /\ match r with
                  | Some path =>
                      faults env (OpWrite path) = None
                      /\ holds_encrypted env c image path s'
                  | None => exists message, error_reported env message true s'
                  end).
  { intros e0 s0.
    match goal with
    | |- context [bind (logger.log_error ?msg config true) _ env s0] =>
        destruct (log_error_reports msg config true env s0) as (s' & E & R);
        exists None, s'; split;
        [rewrite (bind_Ok _ _ _ _ _ _ E); reflexivity | now exists msg]
    end. }
  destruct (write_file_result file_path token env s2) as [[e0 Ew]|[mode0 Ew]].
  { erewrite try_except_Raise by (rewrite (bind_Raise _ _ _ _ _ _ Ew); reflexivity).
    apply Hrep. }
  pose proof (write_file_Ok_no_fault _ _ _ _ _ Ew) as Hnf.
  set (s3 := set_fs _ s2) in Ew.
  assert (Hlook : fs s3 !! file_path = Some (File token mode0))
    by (subst s3; simpl; apply lookup_insert_eq).
  assert (Hlen : String.length (entropy_bytes env (entropy_pos s1) 16) = 16%nat)
    by apply length_entropy_bytes.
  destruct (os_name_posix (sys_platform env)).
  - destruct (os_chmod_file_result file_path 384 env s3 _ _ Hlook)
      as [[e0 Ec]|Ec].
    + erewrite try_except_Raise
        by (rewrite (bind_Ok _ _ _ _ _ _ Ew), (bind_Raise _ _ _ _ _ _ Ec);
            reflexivity).
      apply Hrep.
    + erewrite try_except_Ok
        by (rewrite (bind_Ok _ _ _ _ _ _ Ew), (bind_Ok _ _ _ _ _ _ Ec);
            msimp; reflexivity).
      exists (Some file_path). eexists. split; [reflexivity|].
      split; [exact Hnf|].
      exists (Qfloor (clock s1)), (entropy_bytes env (entropy_pos s1) 16), 384.
      split; [exact Hlen|]. simpl. now rewrite lookup_insert_eq.
  - erewrite try_except_Ok
      by (rewrite (bind_Ok _ _ _ _ _ _ Ew); msimp; reflexivity).
    exists (Some file_path). eexists. split; [reflexivity|].
    split; [exact Hnf|].
    exists (Qfloor (clock s1)), (entropy_bytes env (entropy_pos s1) 16), mode0.
    split; [exact Hlen|]. exact Hlook.
Qed.

Lemma log_keyword_uninitialized keyword_entry config env s :
  logger_cipher_suite s = None ->
  exists s',
    logger.log_keyword keyword_entry config env s = (Ok tt, s')
    /\ error_reported env
         "Attempted to log keyword before encryption was initialized."
         false s'.
Proof.
  intros H. unfold logger.log_keyword. msimp. rewrite H. msimp.
  apply log_error_reports.
Qed.

Lemma log_keyword_initialized keyword_entry config env s c :
  logger_cipher_suite s = Some c ->
  match logger.ensure_daily_log_dir config env s with
  | (Raise e, s1) =>
      logger.log_keyword keyword_entry config env s = (Raise e, s1)
  | (Ok _, _) =>
      exists s',
        logger.log_keyword keyword_entry config env s = (Ok tt, s')
        /\ (keyword_stored env c keyword_entry s'
            \/ exists message, error_reported env message true s')
  end.
Proof.
  intros H.
  pose proof (io_only_ensure_daily_log_dir config env s) as G.
  destruct (logger.ensure_daily_log_dir config env s) as [[dirs|e] s1] eqn:Ed;
    unfold logger.log_keyword; msimp; rewrite H; cbv beta iota.
  2: { now rewrite (bind_Raise _ _ _ _ _ _ Ed). }
  rewrite (bind_Ok _ _ _ _ _ _ Ed). msimp.
  simpl in G. destruct G as (_ & _ & _ & Hc & _). rewrite H in Hc.
  rewrite (bind_Ok _ _ _ _ _ _ (encrypt_data_initialized _ _ _ _ Hc)).
  set (token := lib_encrypt _ _ _ _ _).
  set (log_file_path := path_join env _ _).
  set (s2 := set_entropy_pos _ s1).
  assert (Hrep : forall e0 s0,
             exists s',
               logger.log_error
                 ("Failed to write to keyword log " ++ log_file_path ++ ": "
                  ++ exn_str e0) config true env s0 = (Ok tt, s')
               /\ (keyword_stored env c keyword_entry s'
                   \/ exists message, error_reported env message true s')).
  { intros e0 s0.
    match goal with
    | |- context [logger.log_error ?msg config true env s0] =>
        destruct (log_error_reports msg config true env s0) as (s' & E & R);
        exists s'; split; [exact E | right; now exists msg]
    end. }
  destruct (append_file_result log_file_path (token ++ nl) env s2)
    as [[e0 Ea]|(before & mode0 & Ea)].
  { erewrite try_except_Raise
      by (rewrite (bind_Raise _ _ _ _ _ _ Ea); reflexivity).
    apply Hrep. }
  set (s3 := set_fs _ s2) in Ea.
  assert (Hlook : fs s3 !! log_file_path
                  = Some (File (before ++ token ++ nl) mode0))
    by (subst s3; simpl; apply lookup_insert_eq).
  assert (Hlen : String.length (entropy_bytes env (entropy_pos s1) 16) = 16%nat)
    by apply length_entropy_bytes.
  destruct (os_name_posix (sys_platform env)).
  - destruct (os_chmod_file_result log_file_path 384 env s3 _ _ Hlook)
      as [[e0 Ec]|Ec].
    + erewrite try_except_Raise
        by (rewrite (bind_Ok _ _ _ _ _ _ Ea), Ec; reflexivity).
      apply Hrep.
    + erewrite try_except_Ok
        by (rewrite (bind_Ok _ _ _ _ _ _ Ea), Ec; reflexivity).
      eexists. split; [reflexivity|]. left.
      exists (fst dirs), before, (strftime_log (localtime env (clock s1))),
        (Qfloor (clock s1)), (entropy_bytes env (entropy_pos s1) 16), 384.
      split; [exact Hlen|]. simpl. now rewrite lookup_insert_eq.
  - erewrite try_except_Ok
      by (rewrite (bind_Ok _ _ _ _ _ _ Ea); reflexivity).
    eexists. split; [reflexivity|]. left.
    exists (fst dirs), before, (strftime_log (localtime env (clock s1))),
      (Qfloor (clock s1)), (entropy_bytes env (entropy_pos s1) 16), mode0.
    split; [exact Hlen|]. exact Hlook.
Qed.

(** The callers of the store absorb what it raises: neither the keyword
    callback nor the screenshot action lets an exception through. *)
Lemma handle_keyword_log_never_raises config keyword_data :
  never_raises (main.handle_keyword_log config keyword_data).
Proof. unfold main.handle_keyword_log. monad_auto. Qed.

Lemma take_screenshot_and_log_never_raises config :
  never_raises (screenshot_capture.take_screenshot_and_log config).
Proof. unfold screenshot_capture.take_screenshot_and_log. monad_auto. Qed.

(** C2 (as amended).  After initialisation, [log_keyword] and
    [save_screenshot] raise exactly when the daily partition cannot be
    set up: [ensure_daily_log_dir] reports that failure through
    [log_error] and raises it again, and both operations pass it on to
    their caller.  With the partition in place neither raises: a record
    that could not be written (or whose permissions could not be set) is
    reported through [log_error], that is, to the error log or, when
    that is out of reach too, to the console. *)
Theorem store_failures_reported_or_raised env s config keyword_entry image c :
  logger_cipher_suite s = Some c ->
  match logger.ensure_daily_log_dir config env s with
  | (Raise e, s1) =>
      (exists message, error_reported env message true s1)
      /\ logger.log_keyword keyword_entry config env s = (Raise e, s1)
      /\ logger.save_screenshot image config env s = (Raise e, s1)
  | (Ok _, _) =>
      (exists s',
         logger.log_keyword keyword_entry config env s = (Ok tt, s')
         /\ (keyword_stored env c keyword_entry s'
             \/ exists message, error_reported env message true s'))
      /\ (exists r s',
            logger.save_screenshot image config env s = (Ok r, s')
            /\ match r with
               | Some path => holds_encrypted env c image path s'
               | None => exists message, error_reported env message true s'
               end)
  end.
Proof.
  intros H.
  pose proof (log_keyword_initialized keyword_entry config env s c H) as K.
  pose proof (save_screenshot_initialized image config env s c H) as S.
  destruct (logger.ensure_daily_log_dir config env s) as [[dirs|e] s1] eqn:Ed.
  - split; [exact K|].
    destruct S as (r & s' & E & R). exists r, s'. split; [exact E|].
    destruct r; [apply R | exact R].
  - split; [|split; assumption].
    eapply ensure_daily_log_dir_raises; eassumption.
Qed.

(** C10 (as amended).  [save_screenshot] returns [None], without
    raising, when encryption is not initialised; once it is, and the
    daily partition is in place, it returns without raising: either a
    path, and then that path could be written and holds the encrypted
    image, or [None], and then the failure was reported.  When the
    partition cannot be set up it does not return: the exception of
    [ensure_daily_log_dir] goes to the caller. *)
Theorem save_screenshot_result env s config image :
  match logger_cipher_suite s with
  | None =>
      exists s', logger.save_screenshot image config env s = (Ok None, s')
  | Some c =>
      match logger.ensure_daily_log_dir config env s with
      | (Raise e, s1) =>
          logger.save_screenshot image config env s = (Raise e, s1)
      | (Ok _, _) =>
          exists r s',
            logger.save_screenshot image config env s = (Ok r, s')
            /\ match r with
               | Some path =>
                   faults env (OpWrite path) = None
                   /\ holds_encrypted env c image path s'
               | None => exists message, error_reported env message true s'
               end
      end
  end.
Proof.
  destruct (logger_cipher_suite s) as [c|] eqn:H.
  - apply save_screenshot_initialized, H.
  - destruct (save_screenshot_uninitialized image config env s H)
      as (s' & E & _).
    now exists s'.
Qed.

(** The amended C2 at work: the reference store, initialised, on a
    healthy file system. *)
Lemma store_failures_reported_or_raised_witness :
  logger_cipher_suite Ref.ready = Some Ref.ready_cipher
  /\ match logger.ensure_daily_log_dir Ref.config Ref.env Ref.ready with
     | (Raise e, s1) =>
         (exists message, error_reported Ref.env message true s1)
         /\ logger.log_keyword "chrome: hello" Ref.config Ref.env Ref.ready
            = (Raise e, s1)
         /\ logger.save_screenshot "PNG" Ref.config Ref.env Ref.ready
            = (Raise e, s1)
     | (Ok _, _) =>
         (exists s',
            logger.log_keyword "chrome: hello" Ref.config Ref.env Ref.ready
            = (Ok tt, s')
            /\ (keyword_stored Ref.env Ref.ready_cipher "chrome: hello" s'
                \/ exists message, error_reported Ref.env message true s'))
         /\ (exists r s',
               logger.save_screenshot "PNG" Ref.config Ref.env Ref.ready
               = (Ok r, s')
               /\ match r with
                  | Some path =>
                      holds_encrypted Ref.env Ref.ready_cipher "PNG" path s'
                  | None => exists message, error_reported Ref.env message true s'
                  end)
     end.
Proof.
  split; [vm_compute; reflexivity|].
  apply (store_failures_reported_or_raised Ref.env Ref.ready Ref.config
           "chrome: hello" "PNG" Ref.ready_cipher).
  vm_compute; reflexivity.
Defined.

(** C2 as stated fails.  The store is initialised; the data volume is
    read-only, so the daily partition cannot be created; [log_keyword]
    does not return but raises the [OSError] of [os.makedirs]. *)
Lemma log_keyword_raises_on_read_only_volume :
  logger_cipher_suite Ref.ready = Some Ref.ready_cipher
  /\ fst (logger.log_keyword "chrome: hello" Ref.config Ref.env_read_only
            Ref.ready)
     = Raise (OSError "[Errno 30] Read-only file system").
Proof. split; vm_compute; reflexivity. Qed.

(** C10 as stated fails.  Encryption is initialised and the encrypted
    file cannot be written, because its directory cannot be created:
    [save_screenshot] raises instead of returning [None]. *)
Lemma save_screenshot_raises_on_read_only_volume :
  logger_cipher_suite Ref.ready = Some Ref.ready_cipher
  /\ fst (logger.save_screenshot "PNG" Ref.config Ref.env_read_only Ref.ready)
     = Raise (OSError "[Errno 30] Read-only file system").
Proof. split; vm_compute; reflexivity. Qed.

(** ** The reference cipher meets the contract of the library *)

Lemma length_append a b :
  String.length (a ++ b) = (String.length a + String.length b)%nat.
Proof. induction a as [|c a IH]; simpl; [reflexivity | now rewrite IH]. Qed.

Lemma prefix_append a b : String.prefix a (a ++ b) = true.
Proof.
  induction a as [|c a IH]; simpl; [now destruct b|].
  destruct (ascii_dec c c); [exact IH | contradiction].
Qed.

Lemma drop_append a b : Ref.drop (String.length a) (a ++ b) = b.
Proof. induction a; simpl; [now destruct b | assumption]. Qed.

Lemma drop_add n m s : Ref.drop (n + m) s = Ref.drop m (Ref.drop n s).
Proof.
  revert s. induction n as [|n IH]; intros s; simpl; [reflexivity|].
  destruct s; [now destruct m | apply IH].
Qed.

Lemma xor_ascii_involutive m c : Ref.xor_ascii m (Ref.xor_ascii m c) = c.
Proof.
  destruct m as [m0 m1 m2 m3 m4 m5 m6 m7], c as [c0 c1 c2 c3 c4 c5 c6 c7].
  simpl. f_equal;
    match goal with |- xorb ?a (xorb ?a ?b) = ?b => now destruct a, b end.
Qed.

Lemma mask_involutive m s : Ref.mask m (Ref.mask m s) = s.
Proof.
  induction s as [|c s IH]; simpl; [reflexivity|].
  now rewrite xor_ascii_involutive, IH.
Qed.

Lemma ref_round_trip k t iv p :
  String.length iv = 16%nat ->
  Ref.decrypt k (Ref.encrypt k t iv p) = Some p.
Proof.
  intros Hiv. unfold Ref.decrypt, Ref.encrypt.
  rewrite prefix_append, !length_append, Hiv.
  replace (String.length k + 16
           <=? String.length k
               + (16 + String.length (Ref.mask (Ref.key_mask k) p)))%nat
    with true by (symmetry; apply Nat.leb_le; lia).
  simpl andb. cbv iota.
  rewrite drop_add, drop_append, <- Hiv, drop_append.
  now rewrite mask_involutive.
Qed.

Lemma is_b64url_b64_char n : Ref.is_b64url (Ref.b64_char n) = true.
Proof.
  unfold Ref.b64_char.
  assert (H : (N.to_nat (n mod 64) < 64)%nat).
  { pose proof (N.mod_upper_bound n 64). lia. }
  remember (N.to_nat (n mod 64)) as i eqn:Ei. clear Ei n.
  do 64 (destruct i as [|i]; [reflexivity|]). lia.
Qed.

Lemma b64_encode_list_chars l :
  forallb Ref.is_b64url (Ref.b64_encode_list l) = true.
Proof.
  assert (H : forall n l, (length l <= n)%nat ->
                forallb Ref.is_b64url (Ref.b64_encode_list l) = true).
  { clear l. induction n as [|n IH]; intros l Hl.
    - destruct l; [reflexivity | simpl in Hl; lia].
    - destruct l as [|a [|b [|c rest]]]; cbn [Ref.b64_encode_list forallb];
        rewrite ?is_b64url_b64_char; try reflexivity.
      cbn [andb]. apply IH. simpl in Hl. lia. }
  now apply (H (length l)).
Qed.

Lemma length_list_ascii_of_string s :
  length (list_ascii_of_string s) = String.length s.
Proof. induction s; simpl; congruence. Qed.

Lemma ref_generate_key_ok r :
  String.length r = 32%nat -> Ref.key_ok (Ref.urlsafe_b64encode r) = true.
Proof.
  intros Hr. unfold Ref.key_ok, Ref.urlsafe_b64encode.
  rewrite list_ascii_of_string_of_list_ascii, b64_encode_list_chars,
    length_string_of_list_ascii, andb_true_r.
  rewrite <- length_list_ascii_of_string in Hr.
  destruct (list_ascii_of_string r) as [|x l]; [discriminate|].
  do 31 (destruct l as [|? l]; [discriminate|]).
  destruct l; [reflexivity | discriminate].
Qed.

Lemma ref_fernet_correct : FernetCorrect Ref.fernet.
Proof.
  split.
  - intros r Hr. simpl. now apply ref_generate_key_ok.
  - intros k t iv p _ Hiv. simpl. now apply ref_round_trip.
Qed.

(** ** The key store *)

Lemma bind_os_path_exists {B} p (k : bool -> M B) env s :
  bind (os_path_exists p) k env s
  = k (bool_decide (is_Some (fs s !! p))) env s.
Proof. reflexivity. Qed.

Lemma read_file_existing p env s content mode :
  fs s !! p = Some (File content mode) ->
  faults env (OpRead p) = None ->
  read_file p env s = (Ok content, s).
Proof. intros H F. unfold read_file. msimp. now rewrite F, H. Qed.

Lemma read_file_state p env s : snd (read_file p env s) = s.
Proof.
  unfold read_file. msimp. destruct (faults env (OpRead p)); [reflexivity|].
  now destruct (fs s !! p) as [[]|].
Qed.

Lemma Fernet_new_run key env s :
  Fernet_new key env s
  = (if lib_key_ok (fernet_lib env) key then Ok {| fernet_key := key |}
     else Raise (ValueError
                   "Fernet key must be 32 url-safe base64-encoded bytes."),
     s).
Proof.
  unfold Fernet_new. msimp. now destruct (lib_key_ok (fernet_lib env) key).
Qed.

(** C5 (as amended).  When something exists at the key path, opening the
    key store writes nothing to the file system, so a key file is never
    regenerated or overwritten while it is there.  When it is a readable
    file, its bytes are taken unchanged as the key (they become
    [ENCRYPTION_KEY]) and are handed to the constructor of the cipher,
    which validates them: the open returns the cipher built from exactly
    these bytes when the library accepts them as a key, and fails with
    [ValueError] when it does not. *)
Theorem load_existing_key env s key_path :
  is_Some (fs s !! key_path) ->
  fs (snd (logger.load_or_generate_key key_path env s)) = fs s
  /\ forall content mode,
       fs s !! key_path = Some (File content mode) ->
       faults env (OpRead key_path) = None ->
       logger.load_or_generate_key key_path env s
       = (if lib_key_ok (fernet_lib env) content
          then Ok {| fernet_key := content |}
          else Raise (ValueError
                        "Fernet key must be 32 url-safe base64-encoded bytes."),
          set_logger_ENCRYPTION_KEY (Some content) s).
Proof.
  intros Hex. unfold logger.load_or_generate_key. msimp.
  rewrite bind_os_path_exists, (bool_decide_eq_true_2 _ Hex). cbv iota.
  split.
  - unfold bind at 1. pose proof (read_file_state key_path env s) as Hs.
    destruct (read_file key_path env s) as [[key|e] s1]; simpl in Hs; subst s1;
      [|reflexivity].
    msimp. now rewrite Fernet_new_run.
  - intros content mode Hf Hr.
    rewrite (bind_Ok _ _ _ _ _ _ (read_file_existing _ _ _ _ _ Hf Hr)).
    msimp. apply Fernet_new_run.
Qed.

(** The amended C5 on the key file that the reference store generated. *)
Lemma load_existing_key_witness :
  is_Some (fs Ref.ready !! "/etc/monitor/encryption.key")
  /\ fs (snd (logger.load_or_generate_key "/etc/monitor/encryption.key"
                Ref.env Ref.ready))
     = fs Ref.ready.
Proof.
  assert (H : is_Some (fs Ref.ready !! "/etc/monitor/encryption.key"))
    by (eexists; vm_compute; reflexivity).
  split; [exact H|].
  exact (proj1 (load_existing_key Ref.env Ref.ready
                  "/etc/monitor/encryption.key" H)).
Defined.

(** C5 as stated fails.  The key file exists but is empty (truncated):
    the open does not return its bytes as the key, it fails with the
    [ValueError] of the cipher's key check. *)
Lemma load_rejects_truncated_key_file :
  let s := Ref.boot (<["/etc/monitor/encryption.key" := File "" 384]>
                       Ref.installed) in
  fs s !! "/etc/monitor/encryption.key" = Some (File "" 384)
  /\ fst (logger.load_or_generate_key "/etc/monitor/encryption.key" Ref.env s)
     = Raise (ValueError "Fernet key must be 32 url-safe base64-encoded bytes.").
Proof. split; vm_compute; reflexivity. Qed.

(** Creating directories creates no file: what was absent is absent or
    a directory afterwards. *)
Lemma mkdir_exist_ok_no_file d p env s r s' :
  mkdir_exist_ok d env s = (r, s') ->
  (fs s !! p = None \/ exists mode, fs s !! p = Some (Dir mode)) ->
  fs s' !! p = None \/ exists mode, fs s' !! p = Some (Dir mode).
Proof.
  unfold mkdir_exist_ok. msimp. intros E Hp.
  destruct (fs s !! d) as [[c m|m]|]; msimp; injection E as <- <-; auto.
  simpl. destruct (decide (d = p)) as [->|Hne].
  - right. rewrite lookup_insert_eq. now eexists.
  - now rewrite lookup_insert_ne.
Qed.

Lemma for_each_mkdir_no_file l p env s r s' :
  for_each mkdir_exist_ok l env s = (r, s') ->
  (fs s !! p = None \/ exists mode, fs s !! p = Some (Dir mode)) ->
  fs s' !! p = None \/ exists mode, fs s' !! p = Some (Dir mode).
Proof.
  revert s. induction l as [|d l IH]; intros s E Hp.
  - simpl in E. injection E as <- <-. exact Hp.
  - simpl in E. unfold bind in E.
    destruct (mkdir_exist_ok d env s) as [[[]|e] s1] eqn:Ed.
    + apply (IH s1 E). eapply mkdir_exist_ok_no_file; eassumption.
    + injection E as <- <-. eapply mkdir_exist_ok_no_file; eassumption.
Qed.

Lemma os_makedirs_no_file d p env s r s' :
  os_makedirs d env s = (r, s') ->
  fs s !! p = None ->
  fs s' !! p = None \/ exists mode, fs s' !! p = Some (Dir mode).
Proof.
  unfold os_makedirs. msimp. intros E Hp.
  destruct (faults env (OpMakedirs d)); [injection E as <- <-; auto|].
  destruct (String.eqb d ""); [injection E as <- <-; auto|].
  eapply for_each_mkdir_no_file; [exact E | auto].
Qed.

(** C4, what [logger.load_or_generate_key] does on a first run.  When no
    key file exists and the open succeeds, the key file holds the key of
    the cipher that was returned, and its mode is the default creation
    mode [0o666 & ~umask]: nothing restricts it to its owner. *)
Theorem logger_key_file_mode_is_default env s key_path c s' :
  fs s !! key_path = None ->
  logger.load_or_generate_key key_path env s = (Ok c, s') ->
  fs s' !! key_path = Some (File (fernet_key c) (Z.ldiff 438 (umask env))).
Proof.
  intros Hnone. unfold logger.load_or_generate_key. msimp.
  rewrite bind_os_path_exists.
  rewrite bool_decide_eq_false_2
    by (rewrite Hnone; intros [? ?]; discriminate).
  cbv iota. unfold Fernet_generate_key, os_urandom. msimp.
  set (key := lib_generate_key _ _).
  set (s1 := set_entropy_pos _ s).
  unfold bind at 1.
  destruct (os_makedirs (path_dirname env key_path) env s1)
    as [[[]|e] s2] eqn:Em; [|discriminate].
  assert (Hs1 : fs s1 !! key_path = None) by exact Hnone.
  pose proof (os_makedirs_no_file _ key_path _ _ _ _ Em Hs1) as Hs2.
  unfold write_file. msimp.
  destruct (faults env (OpWrite key_path)); [discriminate|].
  destruct Hs2 as [Hs2|[mode Hs2]]; rewrite Hs2; msimp; [|discriminate].
  rewrite Fernet_new_run.
  destruct (lib_key_ok (fernet_lib env) key); [|discriminate].
  intros [= <- <-]. simpl. now rewrite lookup_insert_eq.
Qed.

(** C4 at the failing input: first run, no key file, a POSIX system with
    the usual umask [0o022].  [logger.load_or_generate_key] leaves the
    key file with mode [0o644] (420): group and others can read the
    key. *)
Lemma logger_key_file_mode_is_default_witness :
  let key_path := "/etc/monitor/encryption.key" in
  let s := Ref.boot Ref.installed in
  fs s !! key_path = None
  /\ logger.load_or_generate_key key_path Ref.env s
     = (Ok Ref.ready_cipher,
        snd (logger.load_or_generate_key key_path Ref.env s))
  /\ fs (snd (logger.load_or_generate_key key_path Ref.env s)) !! key_path
     = Some (File (fernet_key Ref.ready_cipher) 420).
Proof.
  cbv zeta.
  assert (Hnone : fs (Ref.boot Ref.installed) !! "/etc/monitor/encryption.key"
                  = None) by (vm_compute; reflexivity).
  assert (Hrun : logger.load_or_generate_key "/etc/monitor/encryption.key"
                   Ref.env (Ref.boot Ref.installed)
                 = (Ok Ref.ready_cipher,
                    snd (logger.load_or_generate_key
                           "/etc/monitor/encryption.key" Ref.env
                           (Ref.boot Ref.installed))))
    by (vm_compute; reflexivity).
  split; [exact Hnone|]. split; [exact Hrun|].
  exact (logger_key_file_mode_is_default Ref.env (Ref.boot Ref.installed)
           "/etc/monitor/encryption.key" Ref.ready_cipher _ Hnone Hrun).
Defined.

(** What the sibling [utils.generate_key_to_file] does in the same
    situation on a POSIX system: unless [chmod] is refused, the key file
    ends with mode [0o600]. *)
Lemma utils_key_file_is_owner_only env s key_path key s' :
  os_name_posix (sys_platform env) = true ->
  faults env (OpChmod key_path) = None ->
  utils.generate_key_to_file key_path env s = (Ok key, s') ->
  fs s' !! key_path = Some (File key 384).
Proof.
  intros Hposix Hchmod. unfold utils.generate_key_to_file. msimp.
  unfold Fernet_generate_key, os_urandom. msimp.
  set (k := lib_generate_key _ _).
  set (s1 := set_entropy_pos _ s).
  unfold bind at 1.
  destruct (os_makedirs (path_dirname env key_path) env s1)
    as [[[]|e] s2]; [|discriminate].
  destruct (write_file_result key_path k env s2) as [[e Ew]|[mode Ew]].
  { rewrite (bind_Raise _ _ _ _ _ _ Ew). discriminate. }
  rewrite (bind_Ok _ _ _ _ _ _ Ew), Hposix.
  set (s3 := set_fs _ s2).
  assert (Ec : os_chmod key_path 384 env s3
               = (Ok tt, set_fs (insert key_path (File k 384)) s3)).
  { unfold os_chmod. msimp. rewrite Hchmod. subst s3.
    replace (fs (set_fs <[key_path:=File k mode]> s2) !! key_path)
      with (Some (File k mode))
      by (destruct s2; simpl; now rewrite lookup_insert_eq).
    reflexivity. }
  rewrite (bind_Ok _ _ _ _ _ _ (try_except_Ok _ _ _ _ _ _ Ec)). msimp.
  intros [= <- <-]. simpl. now rewrite lookup_insert_eq.
Qed.

(** The sibling [utils.initialize_encryption], run on the same input,
    leaves the key file with mode [0o600] (384); the logger's own
    [initialize_logger] does not. *)
Lemma key_file_modes_compared :
  let key_path := "/etc/monitor/encryption.key" in
  let key := Ref.urlsafe_b64encode (entropy_bytes Ref.env 0 32) in
  fs (snd (utils.initialize_encryption key_path Ref.env
             (Ref.boot Ref.installed))) !! key_path
  = Some (File key 384)
  /\ fs Ref.ready !! key_path = Some (File key 420).
Proof. split; vm_compute; reflexivity. Qed.

(** C8.  Under a key the library accepts, what [encrypt_data] produces
    with the cipher built from that key is decrypted by [decrypt_data],
    given the key's bytes, to exactly the payload (the library is taken
    at its contract [FernetCorrect]). *)
Theorem encrypt_decrypt_round_trip env s key data :
  FernetCorrect (fernet_lib env) ->
  lib_key_ok (fernet_lib env) key = true ->
  logger_cipher_suite s = Some {| fernet_key := key |} ->
  exists token s',
    logger.encrypt_data data env s = (Ok token, s')
    /\ logger.decrypt_data token key env s' = (Ok data, s').
Proof.
  intros HL Hk Hc. rewrite (encrypt_data_initialized _ _ _ _ Hc).
  eexists _, _. split; [reflexivity|].
  unfold logger.decrypt_data.
  pose proof (Fernet_new_run key env (set_entropy_pos (fun p => (p + 16)%nat) s))
    as Hn.
  rewrite Hk in Hn. rewrite (bind_Ok _ _ _ _ _ _ Hn).
  unfold Fernet_decrypt. msimp. simpl fernet_key.
  rewrite (lib_round_trip _ HL); [reflexivity | exact Hk |].
  apply length_entropy_bytes.
Qed.

Lemma encrypt_decrypt_round_trip_witness :
  FernetCorrect (fernet_lib Ref.env)
  /\ lib_key_ok (fernet_lib Ref.env) (fernet_key Ref.ready_cipher) = true
  /\ logger_cipher_suite Ref.ready = Some Ref.ready_cipher
  /\ exists token s',
       logger.encrypt_data "PNG" Ref.env Ref.ready = (Ok token, s')
       /\ logger.decrypt_data token (fernet_key Ref.ready_cipher) Ref.env s'
          = (Ok "PNG", s').
Proof.
  assert (Hk : lib_key_ok (fernet_lib Ref.env) (fernet_key Ref.ready_cipher)
               = true) by (vm_compute; reflexivity).
  assert (Hc : logger_cipher_suite Ref.ready = Some Ref.ready_cipher)
    by (vm_compute; reflexivity).
  split; [exact ref_fernet_correct|].
  split; [exact Hk|]. split; [exact Hc|].
  exact (encrypt_decrypt_round_trip Ref.env Ref.ready
           (fernet_key Ref.ready_cipher) "PNG" ref_fernet_correct Hk Hc).
Defined.

(** The same round trip through [utils.encrypt] and [utils.decrypt]. *)
Lemma utils_encrypt_decrypt_round_trip env s key data :
  FernetCorrect (fernet_lib env) ->
  lib_key_ok (fernet_lib env) key = true ->
  utils_CIPHER_SUITE s = Some {| fernet_key := key |} ->
  exists token s',
    utils.encrypt data env s = (Ok token, s')
    /\ utils.decrypt token env s' = (Ok data, s').
Proof.
  intros HL Hk Hc.
  assert (He : utils.encrypt data env s
               = (Ok (lib_encrypt (fernet_lib env) key (Qfloor (clock s))
                        (entropy_bytes env (entropy_pos s) 16) data),
                  set_entropy_pos (fun p => (p + 16)%nat) s)).
  { unfold utils.encrypt, utils.get_cipher. msimp. rewrite Hc. msimp.
    unfold Fernet_encrypt, os_urandom. msimp. reflexivity. }
  rewrite He. eexists _, _. split; [reflexivity|].
  unfold utils.decrypt, utils.get_cipher. msimp.
  simpl utils_CIPHER_SUITE. rewrite Hc. msimp.
  unfold try_except, Fernet_decrypt. msimp. simpl fernet_key.
  rewrite (lib_round_trip _ HL); [reflexivity | exact Hk |].
  apply length_entropy_bytes.
Qed.

(** ** The screenshot scheduler *)

Lemma no_tick_ret {A} (a : A) : no_tick (ret a).
Proof. now intros env s. Qed.

Lemma no_tick_raise {A} e : no_tick (@raise A e).
Proof. now intros env s. Qed.

Lemma no_tick_ask : no_tick ask.
Proof. now intros env s. Qed.

Lemma no_tick_get : no_tick get.
Proof. now intros env s. Qed.

Lemma no_tick_bind {A B} (m : M A) (k : A -> M B) :
  no_tick m -> (forall a, no_tick (k a)) -> no_tick (bind m k).
Proof.
  intros Hm Hk env s. unfold bind. specialize (Hm env s).
  destruct (m env s) as [[a|e] s']; simpl in *; [|assumption].
  now rewrite Hk.
Qed.

Lemma no_tick_try_except {A} (m : M A) h :
  no_tick m -> (forall e, no_tick (h e)) -> no_tick (try_except m h).
Proof.
  intros Hm Hh env s. unfold try_except. specialize (Hm env s).
  destruct (m env s) as [[a|e] s']; simpl in *; [assumption|].
  now rewrite Hh.
Qed.

Lemma no_tick_print line : line <> tick_line -> no_tick (print line).
Proof.
  intros Hne env s. unfold ticks. simpl. rewrite count_occ_app. simpl.
  destruct (string_dec line tick_line); [contradiction | lia].
Qed.

Lemma no_tick_set_fs f : no_tick (modify (set_fs f)).
Proof. now intros env s. Qed.

Lemma no_tick_set_clock f : no_tick (modify (set_clock f)).
Proof. now intros env s. Qed.

Lemma no_tick_datetime_now : no_tick datetime_now.
Proof. now intros env s. Qed.

Lemma no_tick_stop_event_is_set : no_tick stop_event_is_set.
Proof. now intros env s. Qed.

#[local] Hint Resolve no_tick_ret no_tick_raise no_tick_ask no_tick_get
  no_tick_set_fs no_tick_set_clock no_tick_datetime_now
  no_tick_stop_event_is_set : monad_db.

Ltac no_tick_auto :=
  repeat first
    [ progress auto with monad_db
    | apply no_tick_bind; [|intros ?]
    | apply no_tick_try_except; [|intros ?]
    | apply no_tick_print; unfold tick_line;
      let H := fresh in intros H; cbn in H; discriminate H
    | match goal with
      | |- no_tick (if ?b then _ else _) => destruct b
      | |- no_tick (match ?x with _ => _ end) => destruct x
      end ].

Lemma no_tick_for_each {A} (f : A -> M unit) l :
  (forall x, no_tick (f x)) -> no_tick (for_each f l).
Proof. intros Hf. induction l; simpl; no_tick_auto. Qed.

Lemma no_tick_os_makedirs d : no_tick (os_makedirs d).
Proof.
  unfold os_makedirs. no_tick_auto.
  apply no_tick_for_each. intros x. unfold mkdir_exist_ok. no_tick_auto.
Qed.

Lemma no_tick_os_chmod p mode : no_tick (os_chmod p mode).
Proof. unfold os_chmod. no_tick_auto. Qed.

Lemma no_tick_append_file p data : no_tick (append_file p data).
Proof. unfold append_file. no_tick_auto. Qed.

Lemma no_tick_time_sleep d : no_tick (time_sleep d).
Proof. unfold time_sleep. no_tick_auto. Qed.

#[local] Hint Resolve no_tick_os_makedirs no_tick_os_chmod no_tick_append_file
  no_tick_time_sleep : monad_db.

Lemma no_tick_log_error message config is_critical :
  no_tick (logger.log_error message config is_critical).
Proof.
  unfold logger.log_error, logger.get_error_log_path. no_tick_auto.
Qed.

#[local] Hint Resolve no_tick_log_error : monad_db.

(** With a float interval the wait raises before it sleeps:
    [interval_seconds // wait_chunk] is a float, and [range] refuses it.
    The pass ends in the handler of the loop. *)
Lemma scheduler_loop_body_float config x env s :
  screenshot_capture.scheduler_loop_body config (PyFloat x) env s
  = (print "Error in screenshot scheduler loop: 'float' object cannot be interpreted as an integer" ;;;
     logger.log_error
       "Screenshot scheduler loop error: 'float' object cannot be interpreted as an integer"
       config true ;;;
     time_sleep (PyInt 60) ;;;
     ret false) env s.
Proof.
  unfold screenshot_capture.scheduler_loop_body.
  unfold try_except at 1. unfold py_floordiv at 1.
  change (py_is_zero screenshot_capture.wait_chunk) with false.
  cbv iota. simpl screenshot_capture.wait_chunk. cbv iota.
  rewrite bind_ret. unfold py_range at 1. rewrite bind_raise.
  reflexivity.
Qed.

Lemma no_tick_scheduler_while_float fuel config x :
  no_tick (screenshot_capture.scheduler_while fuel config (PyFloat x)).
Proof.
  induction fuel as [|fuel IH]; simpl; [no_tick_auto|].
  apply no_tick_bind; [no_tick_auto|]. intros [|]; [no_tick_auto|].
  apply no_tick_bind.
  - intros env s. rewrite scheduler_loop_body_float.
    revert env s. change (no_tick
      (print "Error in screenshot scheduler loop: 'float' object cannot be interpreted as an integer" ;;;
       logger.log_error
         "Screenshot scheduler loop error: 'float' object cannot be interpreted as an integer"
         config true ;;;
       time_sleep (PyInt 60) ;;;
       ret false)).
    no_tick_auto.
  - intros [|]; [no_tick_auto | exact IH].
Qed.


Lemma never_raises_stop_event_is_set : never_raises stop_event_is_set.
Proof. unfold stop_event_is_set. monad_auto. Qed.

Lemma never_raises_sleep_a_minute : never_raises (time_sleep (PyInt 60)).
Proof. intros env s. now eexists _, _. Qed.

#[local] Hint Resolve never_raises_stop_event_is_set
  never_raises_sleep_a_minute : monad_db.

(** Whatever happens in a pass of the loop, the pass itself returns. *)
Lemma never_raises_scheduler_loop_body config interval_seconds :
  never_raises (screenshot_capture.scheduler_loop_body config interval_seconds).
Proof. unfold screenshot_capture.scheduler_loop_body. monad_auto. Qed.

Lemma never_raises_scheduler_while fuel config interval_seconds :
  never_raises (screenshot_capture.scheduler_while fuel config interval_seconds).
Proof.
  induction fuel as [|fuel IH]; simpl; [monad_auto|].
  apply never_raises_bind; [monad_auto|]. intros [|]; [monad_auto|].
  apply never_raises_bind; [apply never_raises_scheduler_loop_body|].
  intros [|]; [monad_auto | exact IH].
Qed.

Lemma never_raises_screenshot_scheduler_loop fuel config :
  never_raises (screenshot_capture._screenshot_scheduler_loop fuel config).
Proof.
  unfold screenshot_capture._screenshot_scheduler_loop.
  apply never_raises_bind; [monad_auto|]. intros env.
  destruct (py_le _ _); [monad_auto|].
  apply never_raises_bind; [monad_auto|]. intros _.
  apply never_raises_bind; [apply never_raises_scheduler_while|].
  intros [|]; monad_auto.
Qed.

Lemma no_tick_screenshot_scheduler_loop_float fuel x config :
  no_tick (screenshot_capture._screenshot_scheduler_loop fuel
             (with_interval (PyFloat x) config)).
Proof.
  unfold screenshot_capture._screenshot_scheduler_loop.
  simpl dict_get. simpl py_mul.
  apply no_tick_bind; [no_tick_auto|]. intros env.
  destruct (py_le _ _); [no_tick_auto|].
  apply no_tick_bind; [no_tick_auto|]. intros _.
  apply no_tick_bind; [apply no_tick_scheduler_while_float|].
  intros [|]; no_tick_auto.
Qed.

(** C1 at the failing inputs: whatever value [x] the interval is given
    as a float, however long the loop runs and whatever the environment
    does, the scheduler loop returns normally and has fired no capture
    tick: every pass ends in the handler of the loop (see
    [scheduler_loop_body_float]). *)
Theorem scheduler_float_interval_never_ticks fuel x config env s :
  let r := screenshot_capture._screenshot_scheduler_loop fuel
             (with_interval (PyFloat x) config) env s in
  (exists finished, fst r = Ok finished) /\ ticks (snd r) = ticks s.
Proof.
  cbv zeta. split.
  - destruct (never_raises_screenshot_scheduler_loop fuel
                (with_interval (PyFloat x) config) env s)
      as (finished & s' & E).
    rewrite E. now exists finished.
  - apply no_tick_screenshot_scheduler_loop_float.
Qed.

(** The interval of the module's own example, [0.2] minutes: three
    passes of the loop on the reference system.  Each pass fails in the
    wait and backs off for a minute; after three minutes the console
    shows three errors and the error log three lines, and no screenshot
    was taken.  With the interval [1] (an int) two passes take two
    screenshots. *)
Lemma scheduler_example_interval_fails :
  let r := screenshot_capture._screenshot_scheduler_loop 3
             (with_interval (PyFloat (1 # 5)) Ref.config)
             Ref.env Ref.ready in
  let r' := screenshot_capture._screenshot_scheduler_loop 2
              (with_interval (PyInt 1) Ref.config)
              Ref.env Ref.ready in
  fst r = Ok false
  /\ ticks (snd r) = 0%nat
  /\ clock (snd r) = 180%Q
  /\ count_occ string_dec (stdout (snd r))
       "Error in screenshot scheduler loop: 'float' object cannot be interpreted as an integer"
     = 3%nat
  /\ fst r' = Ok false
  /\ ticks (snd r') = 2%nat
  /\ clock (snd r') = 120%Q.
Proof. repeat split; vm_compute; reflexivity. Qed.

Lemma py_le_seconds_minutes x :
  py_le (py_mul x (PyInt 60)) (PyInt 0) = py_le x (PyInt 0).
Proof.
  destruct x as [n|q]; unfold py_le, py_mul, py_to_Q.
  - unfold Qle_bool. simpl. destruct (Z.leb_spec (n * 60 * 1) 0);
      destruct (Z.leb_spec (n * 1) 0); (reflexivity || lia).
  - rewrite Qred_correct. destruct q as [a b]. unfold Qle_bool. simpl.
    destruct (Z.leb_spec (a * 60 * 1) 0); destruct (Z.leb_spec (a * 1) 0);
      (reflexivity || lia).
Qed.

Lemma nonpositive_interval_returns_at_once fuel config env s :
  py_le (dict_get (cfg_screenshot_interval_minutes config) (PyInt 5)) (PyInt 0)
  = true ->
  screenshot_capture._screenshot_scheduler_loop fuel config env s
  = (Ok true,
     set_stdout
       (fun out =>
          (out ++ [("Screenshot interval ("
                    ++ py_str env (dict_get (cfg_screenshot_interval_minutes
                                               config) (PyInt 5))
                    ++ " min) is zero or negative. Scheduler will not run.")%string
                  ])%list) s).
Proof.
  intros H. unfold screenshot_capture._screenshot_scheduler_loop.
  rewrite bind_ask, py_le_seconds_minutes, H. reflexivity.
Qed.

(** C3 (as amended).  When the configured interval is zero or negative
    (as an int or as a float), the scheduler loop returns at once,
    whatever the fuel: it fires no tick, does not sleep or loop, and
    prints its configuration warning to the console exactly once.
    Nothing else changes; in particular nothing is written to the error
    log. *)
Theorem scheduler_refuses_nonpositive_interval fuel config env s :
  py_le (dict_get (cfg_screenshot_interval_minutes config) (PyInt 5)) (PyInt 0)
  = true ->
  screenshot_capture._screenshot_scheduler_loop fuel config env s
  = (Ok true,
     set_stdout
       (fun out =>
          (out ++ [("Screenshot interval ("
                    ++ py_str env (dict_get (cfg_screenshot_interval_minutes
                                               config) (PyInt 5))
                    ++ " min) is zero or negative. Scheduler will not run.")%string
                  ])%list) s).
Proof.
  intros Hle. unfold screenshot_capture._screenshot_scheduler_loop.
  rewrite bind_ask.
  (* the test is on seconds, the hypothesis on minutes *)
  rewrite py_le_seconds_minutes, Hle.
  reflexivity.
Qed.

Lemma scheduler_refuses_nonpositive_interval_witness :
  py_le (dict_get (cfg_screenshot_interval_minutes
                     (with_interval (PyFloat (-1 # 2)) Ref.config))
                  (PyInt 5)) (PyInt 0) = true
  /\ screenshot_capture._screenshot_scheduler_loop 7
       (with_interval (PyFloat (-1 # 2)) Ref.config) Ref.env Ref.ready
     = (Ok true,
        set_stdout
          (fun out =>
             (out ++ [("Screenshot interval ("
                       ++ py_str Ref.env
                            (dict_get (cfg_screenshot_interval_minutes
                                         (with_interval (PyFloat (-1 # 2))
                                            Ref.config)) (PyInt 5))
                       ++ " min) is zero or negative. Scheduler will not run.")%string
                     ])%list) Ref.ready).
Proof.
  split; [reflexivity|].
  apply (scheduler_refuses_nonpositive_interval 7
           (with_interval (PyFloat (-1 # 2)) Ref.config) Ref.env Ref.ready).
  reflexivity.
Defined.

(** The same through [start_screenshot_scheduler], once the capturer
    exists: a thread is started, and its body returns at once. *)
Lemma start_with_nonpositive_interval fuel config env s inst :
  screenshot_capturer_instance s = Some inst ->
  py_le (dict_get (cfg_screenshot_interval_minutes config) (PyInt 5)) (PyInt 0)
  = true ->
  exists s',
    screenshot_capture.start_screenshot_scheduler fuel config env s
    = (Ok (Some true), s')
    /\ fs s' = fs s /\ clock s' = clock s /\ ticks s' = ticks s.
Proof.
  intros Hi H. unfold screenshot_capture.start_screenshot_scheduler.
  assert (E : try_except
                (screenshot_capture._get_capturer_instance config ;;; ret true)
                (fun e =>
                   if is_NotImplementedError e then
                     print "Cannot start screenshot scheduler: platform not supported for capture." ;;;
                     ret false
                   else
                     print ("Could not initialize screenshot capturer: "
                            ++ exn_str e ++ ". Scheduler not started.") ;;;
                     logger.log_error
                       ("Failed to initialize screenshot capturer: "
                        ++ exn_str e ++ ". Scheduler not started.")
                       config true ;;;
                     ret false) env s = (Ok true, s)).
  { apply try_except_Ok.
    unfold screenshot_capture._get_capturer_instance. msimp.
    rewrite Hi. reflexivity. }
  rewrite (bind_Ok _ _ _ _ _ _ E). cbv iota.
  rewrite (bind_Ok _ _ _ _ _ _
             (nonpositive_interval_returns_at_once fuel config env s H)).
  eexists. split; [reflexivity|]. repeat split.
  unfold ticks. simpl. rewrite count_occ_app. simpl.
  lia.
Qed.

(** C3 as stated fails.  The interval is [0]; the scheduler is started
    and its thread returns, and the error log (at the path
    [get_error_log_path] gives) does not even exist: no warning was
    written to it. *)
Lemma nonpositive_interval_writes_no_error_log :
  let config := with_interval (PyInt 0) Ref.config in
  let r := screenshot_capture.start_screenshot_scheduler 3 config
             Ref.env Ref.ready in
  fst r = Ok (Some true)
  /\ fst (logger.get_error_log_path config Ref.env (snd r))
     = Ok "/var/lib/monitor/error.log"
  /\ fs (snd r) !! "/var/lib/monitor/error.log" = None
  /\ fs (snd r) = fs Ref.ready
  /\ stdout (snd r)
     = (stdout Ref.ready
        ++ ["Linux screenshot capturer initialized.";
            "Screenshot interval (0 min) is zero or negative. Scheduler will not run."])%list.
Proof. repeat split; vm_compute; reflexivity. Qed.

(** ** The keyword filter *)

Lemma short_word_test word :
  negb (str_truthy word) || (String.length word <? 2)%nat
  = negb (2 <=? String.length word)%nat.
Proof. destruct word as [|a [|b word]]; reflexivity. Qed.

Lemma include_test (include : list string) f :
  list_truthy include && negb (existsb f include)
  = negb match include with [] => true | _ => existsb f include end.
Proof. now destruct include. Qed.

Lemma linux_submit_word_filter self word_candidate env s :
  keystroke_linux.submit_word self word_candidate env s
  = submit_word_spec env self word_candidate
      (str_lower env (fst (active_window env))) env s.
Proof.
  unfold keystroke_linux.submit_word, submit_word_spec, shouldLog_spec,
    get_active_window_info.
  rewrite bind_ask, short_word_test.
  destruct (2 <=? _)%nat; [|reflexivity]. cbn [negb andb].
  destruct (existsb _ (kc_exclude_words self)); [reflexivity|].
  msimp. cbn [fst snd]. rewrite include_test.
  now destruct (match kc_include_processes self with [] => true | _ => _ end).
Qed.

Lemma windows_submit_word_filter self word_candidate env s :
  keystroke_windows.submit_word self word_candidate env s
  = submit_word_spec env self word_candidate
      (str_replace ".exe" "" (str_lower env (fst (active_window env)))) env s.
Proof.
  unfold keystroke_windows.submit_word, submit_word_spec, shouldLog_spec,
    get_active_window_info.
  rewrite bind_ask, short_word_test.
  destruct (2 <=? _)%nat; [|reflexivity]. cbn [negb andb].
  destruct (existsb _ (kc_exclude_words self)); [reflexivity|].
  msimp. cbn [fst snd]. rewrite include_test.
  now destruct (match kc_include_processes self with [] => true | _ => _ end).
Qed.

(** C6 (as amended).  On both platforms [submit_word] decides as the
    filter of the specification does: a word that contains a configured
    exclude-substring (both lower-cased) is dropped whatever the active
    process; with an empty include list the include check passes; with a
    non-empty one the word is dropped unless the name of the active
    process contains a configured (lower-cased) substring.  The name
    that is matched is the lower-cased process name on Linux; on
    Windows it is the lower-cased process name with every [.exe] removed
    from it. *)
Theorem submit_word_filter env config log_callback word_candidate s :
  let self := KeyCapture_new env config log_callback in
  let process_name := str_lower env (fst (active_window env)) in
  keystroke_linux.submit_word self word_candidate env s
  = submit_word_spec env self word_candidate process_name env s
  /\ keystroke_windows.submit_word self word_candidate env s
     = submit_word_spec env self word_candidate
         (str_replace ".exe" "" process_name) env s.
Proof.
  cbv zeta. split;
    [apply linux_submit_word_filter | apply windows_submit_word_filter].
Qed.

(** The three parts of the filter policy, read off [shouldLog_spec]. *)
Lemma shouldLog_spec_exclude_wins excludeWords includeProcesses word name e :
  In e excludeWords -> str_in e word = true ->
  shouldLog_spec excludeWords includeProcesses word name = false.
Proof.
  intros Hin He. unfold shouldLog_spec.
  replace (existsb _ excludeWords) with true; [reflexivity|].
  symmetry. apply existsb_exists. now exists e.
Qed.

Lemma shouldLog_spec_include_empty excludeWords word name :
  shouldLog_spec excludeWords [] word name
  = negb (existsb (fun e => str_in e word) excludeWords).
Proof. unfold shouldLog_spec. now destruct (existsb _ _). Qed.

Lemma shouldLog_spec_include_needed excludeWords includeProcesses word name :
  includeProcesses <> [] ->
  (forall p, In p includeProcesses -> str_in p name = false) ->
  shouldLog_spec excludeWords includeProcesses word name = false.
Proof.
  intros Hne Hall. unfold shouldLog_spec.
  destruct (existsb _ excludeWords); [reflexivity|].
  destruct includeProcesses as [|p l]; [contradiction|].
  apply not_true_is_false. intros H. apply existsb_exists in H.
  destruct H as (q & Hq & Hin). rewrite (Hall q Hq) in Hin. discriminate.
Qed.

(** The examples of the specification (§8). *)
Lemma shouldLog_spec_examples :
  shouldLog_spec ["secret"] [] "secret123" "chrome" = false
  /\ shouldLog_spec [] ["chrome"] "weather" "chrome" = true
  /\ shouldLog_spec [] ["chrome"] "weather" "notepad" = false.
Proof. repeat split. Qed.

(** C6 as stated fails on Windows.  With the include list [notepad] and
    the active process [note.exepad.exe], the lower-cased process name
    contains no configured substring, yet the word is logged; with the
    include list [chrome.exe] and the active process [chrome.exe], the
    lower-cased process name contains the configured substring, yet the
    word is dropped. *)
Lemma windows_include_check_strips_exe :
  let windows := Ref.with_platform Win32 Ref.env in
  let env1 := Ref.with_window ("note.exepad.exe", "Untitled") windows in
  let self1 :=
    KeyCapture_new env1 (with_filters ["notepad"] [] Ref.config)
      trace_callback in
  let env2 := Ref.with_window ("chrome.exe", "Search") windows in
  let self2 :=
    KeyCapture_new env2 (with_filters ["chrome.exe"] [] Ref.config)
      trace_callback in
  (str_in "notepad" (str_lower env1 "note.exepad.exe") = false
   /\ stdout (snd (keystroke_windows.submit_word self1 "weather" env1
                     (Ref.boot ∅)))
      = ["note.exepad.exe: weather"])
  /\ (str_in "chrome.exe" (str_lower env2 "chrome.exe") = true
      /\ keystroke_windows.submit_word self2 "weather" env2 (Ref.boot ∅)
         = (Ok tt, Ref.boot ∅)).
Proof. repeat split; vm_compute; reflexivity. Qed.

(** C7.  A candidate whose trimmed, lower-cased form has fewer than two
    characters is dropped by [submit_word] on both platforms: the call
    returns with the state untouched, so the callback was not run,
    nothing was logged and no error was recorded.  Conversely, whenever
    [submit_word] does anything at all, the normalised word has at least
    two characters. *)
Theorem short_words_are_dropped env self word_candidate s :
  let word := str_lower env (str_strip (chr_isspace env) word_candidate) in
  ((String.length word < 2)%nat ->
   keystroke_windows.submit_word self word_candidate env s = (Ok tt, s)
   /\ keystroke_linux.submit_word self word_candidate env s = (Ok tt, s))
  /\ (keystroke_windows.submit_word self word_candidate env s <> (Ok tt, s)
      \/ keystroke_linux.submit_word self word_candidate env s <> (Ok tt, s) ->
      (2 <= String.length word)%nat).
Proof.
  cbv zeta.
  assert (Hshort :
    (String.length (str_lower env (str_strip (chr_isspace env) word_candidate))
     < 2)%nat ->
    keystroke_windows.submit_word self word_candidate env s = (Ok tt, s)
    /\ keystroke_linux.submit_word self word_candidate env s = (Ok tt, s)).
  { intros Hlen.
    rewrite windows_submit_word_filter, linux_submit_word_filter.
    unfold submit_word_spec.
    replace (2 <=? _)%nat with false
      by (symmetry; apply Nat.leb_gt; exact Hlen).
    now split. }
  split; [exact Hshort|].
  intros Hdid.
  destruct (Nat.lt_ge_cases
              (String.length
                 (str_lower env (str_strip (chr_isspace env) word_candidate)))
              2) as [Hlt|Hge]; [|exact Hge].
  destruct (Hshort Hlt) as [Hw Hl]. destruct Hdid; contradiction.
Qed.

Lemma short_words_are_dropped_witness :
  let self := KeyCapture_new Ref.env Ref.config trace_callback in
  (String.length (str_lower Ref.env (str_strip (chr_isspace Ref.env) " A "))
   < 2)%nat
  /\ keystroke_windows.submit_word self " A " Ref.env Ref.ready
     = (Ok tt, Ref.ready)
  /\ keystroke_linux.submit_word self " A " Ref.env Ref.ready
     = (Ok tt, Ref.ready).
Proof.
  cbv zeta.
  assert (H : (String.length
                 (str_lower Ref.env (str_strip (chr_isspace Ref.env) " A "))
               < 2)%nat) by (vm_compute; lia).
  split; [exact H|].
  exact (proj1 (short_words_are_dropped Ref.env
                  (KeyCapture_new Ref.env Ref.config trace_callback)
                  " A " Ref.ready) H).
Defined.

(** ** Decryption failures *)

(** [utils.decrypt] adds nothing to the verdict of the cipher: it fails
    with [RuntimeError] when encryption was never initialised, passes on
    the [InvalidToken] of a token the cipher rejects, and returns data
    only when the cipher authenticated the token under the key in use.
    It never changes the state. *)
Lemma utils_decrypt_outcome token env s :
  utils.decrypt token env s
  = (match utils_CIPHER_SUITE s with
     | None =>
         Raise (RuntimeError
                  "Encryption has not been initialized. Call utils.initialize_encryption(key_path) first.")
     | Some c =>
         match lib_decrypt (fernet_lib env) (fernet_key c) token with
         | Some data => Ok data
         | None => Raise InvalidToken
         end
     end, s).
Proof.
  unfold utils.decrypt, utils.get_cipher. msimp.
  destruct (utils_CIPHER_SUITE s) as [c|]; msimp; [|reflexivity].
  unfold try_except, Fernet_decrypt. msimp.
  now destruct (lib_decrypt (fernet_lib env) (fernet_key c) token).
Qed.

(** On the reference cipher: a token made under another key, and a
    truncated token, are rejected. *)
Lemma utils_decrypt_examples :
  let s := snd (utils.initialize_encryption "/etc/monitor/encryption.key"
                  Ref.env (Ref.boot Ref.installed)) in
  let token := fst (utils.encrypt "secret" Ref.env s) in
  let other_key := Ref.urlsafe_b64encode (entropy_bytes Ref.env 100 32) in
  forall token_bytes, token = Ok token_bytes ->
    fst (utils.decrypt token_bytes Ref.env s) = Ok "secret"
    /\ fst (utils.decrypt (String.substring 0 50 token_bytes) Ref.env s)
       = Raise InvalidToken
    /\ fst (utils.decrypt (Ref.encrypt other_key 0 "0123456789abcdef" "secret")
              Ref.env s)
       = Raise InvalidToken.
Proof.
  cbv zeta. intros token_bytes H. vm_compute in H.
  injection H as <-. repeat split; vm_compute; reflexivity.
Qed.

(** ** The scheduler with a whole number of minutes *)

Lemma no_tick_set_entropy_pos f : no_tick (modify (set_entropy_pos f)).
Proof. now intros env s. Qed.

Lemma no_tick_set_screenshot_capturer_instance v :
  no_tick (modify (set_screenshot_capturer_instance v)).
Proof. now intros env s. Qed.

#[local] Hint Resolve no_tick_set_entropy_pos
  no_tick_set_screenshot_capturer_instance : monad_db.

Lemma no_tick_write_file p data : no_tick (write_file p data).
Proof. unfold write_file. no_tick_auto. Qed.

#[local] Hint Resolve no_tick_write_file : monad_db.

Lemma no_tick_ensure_daily_log_dir config :
  no_tick (logger.ensure_daily_log_dir config).
Proof.
  unfold logger.ensure_daily_log_dir, logger.get_daily_log_directory.
  no_tick_auto.
Qed.

#[local] Hint Resolve no_tick_ensure_daily_log_dir : monad_db.

Lemma no_tick_save_screenshot image config :
  no_tick (logger.save_screenshot image config).
Proof.
  unfold logger.save_screenshot, logger.encrypt_data, Fernet_encrypt,
    os_urandom.
  no_tick_auto.
Qed.

#[local] Hint Resolve no_tick_save_screenshot : monad_db.

(** The capture action itself prints no tick line: ticks count the
    passes of the loop that reached it. *)
Lemma no_tick_take_screenshot_and_log config :
  no_tick (screenshot_capture.take_screenshot_and_log config).
Proof.
  unfold screenshot_capture.take_screenshot_and_log,
    screenshot_capture._get_capturer_instance,
    screenshot_capture.capturer_new, screenshot_capture.capturer_capture.
  no_tick_auto.
Qed.

Lemma stop_event_never_set env s :
  stop_at env = None -> stop_event_is_set env s = (Ok false, s).
Proof. intros H. unfold stop_event_is_set. msimp. now rewrite H. Qed.

(** Without a stop signal, [k] chunks of waiting advance the clock by
    [5 * k] seconds and change nothing else. *)
Lemma wait_in_chunks_no_stop k env s :
  stop_at env = None ->
  exists c,
    (c == clock s + inject_Z (5 * Z.of_nat k))%Q
    /\ screenshot_capture.wait_in_chunks k env s
       = (Ok tt, set_clock (fun _ => c) s).
Proof.
  intros Hstop. revert s. induction k as [|k IH]; intros s.
  - exists (clock s). split; [|now destruct s].
    change (inject_Z (5 * Z.of_nat 0)) with 0%Q. ring.
  - cbn [screenshot_capture.wait_in_chunks].
    rewrite (bind_Ok _ _ _ _ _ _ (stop_event_never_set env s Hstop)).
    cbv iota. unfold time_sleep, screenshot_capture.wait_chunk.
    change (Qle_bool 0 (py_to_Q (PyInt 5))) with true. cbv iota.
    rewrite bind_modify.
    destruct (IH (set_clock (fun t => Qred (t + py_to_Q (PyInt 5))) s))
      as (c & Hc & E).
    exists c. split; [|exact E].
    rewrite Hc. simpl clock. rewrite Qred_correct.
    replace (5 * Z.of_nat (S k))%Z with (5 + 5 * Z.of_nat k)%Z by lia.
    rewrite inject_Z_plus. simpl py_to_Q. ring.
Qed.

(** One pass of the loop with an interval of [n] minutes, [n] a positive
    int, and no stop signal: the wait lasts [60 * n] seconds, then the
    tick line is printed and the capture action runs; the pass returns
    normally, without leaving the loop. *)
Lemma scheduler_loop_body_int config n env s :
  0 < n -> stop_at env = None ->
  exists c s',
    (c == clock s + inject_Z (60 * n))%Q
    /\ screenshot_capture.take_screenshot_and_log config env
         (set_stdout (fun out => (out ++ [tick_line])%list)
            (set_clock (fun _ => c) s))
       = (Ok tt, s')
    /\ screenshot_capture.scheduler_loop_body config (PyInt (n * 60)) env s
       = (Ok false, s').
Proof.
  intros Hn Hstop.
  destruct (wait_in_chunks_no_stop (Z.to_nat (n * 60 / 5)) env s Hstop)
    as (c & Hc & Ew).
  set (s1 := set_clock (fun _ => c) s) in *.
  destruct (take_screenshot_and_log_never_raises config env
              (set_stdout (fun out => (out ++ [tick_line])%list) s1))
    as ([] & s' & Et).
  exists c, s'. split; [|split; [exact Et|]].
  - rewrite Hc. rewrite Z2Nat.id by (apply Z.div_pos; lia).
    replace (5 * (n * 60 / 5)) with (60 * n)
      by (rewrite <- Z_div_exact_full_2; [lia | lia |];
          replace (n * 60) with (n * 12 * 5) by lia; apply Z_mod_mult).
    reflexivity.
  - unfold screenshot_capture.scheduler_loop_body.
    apply try_except_Ok.
    unfold py_floordiv, py_mod.
    change (py_is_zero screenshot_capture.wait_chunk) with false. cbv iota.
    unfold screenshot_capture.wait_chunk. cbv iota. msimp.
    unfold py_range. msimp.
    rewrite (bind_Ok _ _ _ _ _ _ Ew).
    rewrite (bind_Ok _ _ _ _ _ _ (stop_event_never_set env s1 Hstop)).
    cbn [negb]. cbv iota. msimp.
    replace (n * 60 mod 5) with 0
      by (symmetry; replace (n * 60) with (n * 12 * 5) by lia;
          apply Z_mod_mult).
    change (py_gt (PyInt 0) (PyInt 0)) with false. cbv iota. msimp.
    rewrite (bind_Ok _ _ _ _ _ _ (stop_event_never_set env s1 Hstop)).
    cbv iota. msimp.
    fold tick_line. rewrite (bind_Ok _ _ _ _ _ _ Et). reflexivity.
Qed.

(** With an interval given as a positive int and no stop signal, every
    pass of the loop fires exactly one tick: after [fuel] passes the
    loop is still running and has fired [fuel] ticks. *)
Lemma scheduler_while_int_ticks fuel config n env s :
  0 < n -> stop_at env = None ->
  exists s',
    screenshot_capture.scheduler_while fuel config (PyInt (n * 60)) env s
    = (Ok false, s')
    /\ ticks s' = (ticks s + fuel)%nat.
Proof.
  intros Hn Hstop. revert s. induction fuel as [|fuel IH]; intros s.
  - exists s. split; [reflexivity | lia].
  - cbn [screenshot_capture.scheduler_while].
    rewrite (bind_Ok _ _ _ _ _ _ (stop_event_never_set env s Hstop)).
    cbv iota.
    destruct (scheduler_loop_body_int config n env s Hn Hstop)
      as (c & s1 & _ & Et & Eb).
    rewrite (bind_Ok _ _ _ _ _ _ Eb). cbv iota.
    destruct (IH s1) as (s' & E & Ht). exists s'. split; [exact E|].
    rewrite Ht.
    pose proof (no_tick_take_screenshot_and_log config env
                  (set_stdout (fun out => (out ++ [tick_line])%list)
                     (set_clock (fun _ => c) s))) as Hnt.
    rewrite Et in Hnt. simpl in Hnt. rewrite Hnt.
    unfold ticks. simpl. rewrite count_occ_app. simpl.
    destruct (string_dec tick_line tick_line); [lia | contradiction].
Qed.

(** ** The pipeline on the reference system *)

(** From a candidate word to the store, with the callback of [main.py]:
    [" Weather "], typed into Chrome, ends as one encrypted record of
    today's keyword log and decrypts to the line of the specification;
    a candidate that contains an excluded word leaves the file system as
    it was. *)
Lemma keystroke_to_store_example :
  let self :=
    KeyCapture_new Ref.env Ref.config (main.keyword_callback Ref.config) in
  let log := "/var/lib/monitor/data/20260314/keywords.log.enc" in
  let after := snd (keystroke_linux.submit_word self " Weather " Ref.env
                      Ref.ready) in
  (exists record mode,
     fs after !! log = Some (File (record ++ nl) mode)
     /\ mode = 384
     /\ fst (logger.decrypt_data record (fernet_key Ref.ready_cipher)
               Ref.env after)
        = Ok ("[2026-03-14 00:00:00] chrome: " ++ dquote ++ "weather"
              ++ dquote ++ " (Window: Search - Chrome)" ++ nl))
  /\ keystroke_linux.submit_word self "MyPassword1" Ref.env Ref.ready
     = (Ok tt, Ref.ready).
Proof.
  cbv zeta. split.
  - exists (Ref.encrypt (fernet_key Ref.ready_cipher) 0
              (entropy_bytes Ref.env 32 16)
              ("[2026-03-14 00:00:00] chrome: " ++ dquote ++ "weather"
               ++ dquote ++ " (Window: Search - Chrome)" ++ nl)), 384.
    repeat split; vm_compute; reflexivity.
  - vm_compute; reflexivity.
Qed.

(** * Further properties of the code *)

(** ** utils.py: the life cycle of the key *)

Lemma read_file_Ok_inv p env s content s' :
  read_file p env s = (Ok content, s') ->
  s' = s /\ faults env (OpRead p) = None
  /\ exists mode, fs s !! p = Some (File content mode).
Proof.
  unfold read_file. msimp.
  destruct (faults env (OpRead p)); [discriminate|].
  destruct (fs s !! p) as [[c m|m]|]; msimp; try discriminate.
  intros [= <- <-]. repeat split. now exists m.
Qed.

Lemma os_chmod_file_Ok p mode env s c m :
  fs s !! p = Some (File c m) -> faults env (OpChmod p) = None ->
  os_chmod p mode env s = (Ok tt, set_fs (insert p (File c mode)) s).
Proof. intros H F. unfold os_chmod. msimp. now rewrite F, H. Qed.

Lemma fs_set_fs f s : fs (set_fs f s) = f (fs s).
Proof. reflexivity. Qed.

Lemma fs_boot files : fs (Ref.boot files) = files.
Proof. reflexivity. Qed.

(** What a successful [generate_key_to_file] leaves behind. *)
Lemma generate_key_to_file_outcome key_path env s key s' :
  utils.generate_key_to_file key_path env s = (Ok key, s') ->
  exists mode,
    fs s' !! key_path = Some (File key mode)
    /\ (os_name_posix (sys_platform env) = true ->
        faults env (OpChmod key_path) = None -> mode = 384).
Proof.
  unfold utils.generate_key_to_file. msimp.
  unfold Fernet_generate_key, os_urandom. msimp.
  set (k := lib_generate_key _ _).
  set (s1 := set_entropy_pos _ s).
  unfold bind at 1.
  destruct (os_makedirs (path_dirname env key_path) env s1)
    as [[[]|e] s2]; [|discriminate].
  destruct (write_file_result key_path k env s2) as [[e Ew]|[mode Ew]].
  { rewrite (bind_Raise _ _ _ _ _ _ Ew). discriminate. }
  rewrite (bind_Ok _ _ _ _ _ _ Ew).
  set (s3 := set_fs _ s2).
  assert (Hlook : fs s3 !! key_path = Some (File k mode))
    by (subst s3; rewrite fs_set_fs; apply lookup_insert_eq).
  destruct (os_name_posix (sys_platform env)).
  - destruct (os_chmod_file_result key_path 384 env s3 _ _ Hlook)
      as [[e Ec]|Ec].
    + erewrite bind_Ok
        by (rewrite (try_except_Raise _ _ _ _ _ _ Ec); reflexivity).
      msimp. intros [= <- <-]. exists mode. split; [exact Hlook|].
      intros _ Hf. rewrite (os_chmod_file_Ok _ _ _ _ _ _ Hlook Hf) in Ec.
      discriminate.
    + rewrite (bind_Ok _ _ _ _ _ _ (try_except_Ok _ _ _ _ _ _ Ec)).
      msimp. intros [= <- <-]. exists 384. split; [|reflexivity].
      simpl. apply lookup_insert_eq.
  - msimp. intros [= <- <-]. exists mode. split; [exact Hlook|].
    intros; discriminate.
Qed.

(** What a successful [initialize_encryption] leaves behind: the key
    file holds the key of the cipher now in use. *)
Lemma initialize_encryption_outcome key_path env s s1 :
  utils.initialize_encryption key_path env s = (Ok tt, s1) ->
  exists key mode,
    fs s1 !! key_path = Some (File key mode)
    /\ lib_key_ok (fernet_lib env) key = true
    /\ utils_CIPHER_SUITE s1 = Some {| fernet_key := key |}
    /\ utils_ENCRYPTION_KEY_BYTES s1 = Some key
    /\ (is_Some (fs s !! key_path) -> fs s1 = fs s)
    /\ (fs s !! key_path = None ->
        os_name_posix (sys_platform env) = true ->
        faults env (OpChmod key_path) = None -> mode = 384).
Proof.
  unfold utils.initialize_encryption, utils.load_key_from_file.
  rewrite bind_bind, bind_os_path_exists.
  destruct (fs s !! key_path) as [node|] eqn:Hnode.
  - rewrite bool_decide_eq_true_2 by (now eexists). cbn [negb]. cbv iota.
    rewrite bind_bind.
    destruct (read_file key_path env s) as [[key|e] s0] eqn:Er.
    2: { rewrite (bind_Raise _ _ _ _ _ _ Er). discriminate. }
    destruct (read_file_Ok_inv _ _ _ _ _ Er) as (-> & Hf & mode & Hfile).
    rewrite (bind_Ok _ _ _ _ _ _ Er). msimp.
    unfold try_except. unfold bind at 1. rewrite Fernet_new_run.
    destruct (lib_key_ok (fernet_lib env) key) eqn:Hk; msimp;
      [|discriminate].
    intros [= <-]. exists key, mode. simpl.
    repeat split; try assumption; try reflexivity.
    intros H. discriminate H.
  - rewrite bool_decide_eq_false_2 by (intros [? ?]; discriminate).
    cbn [negb]. cbv iota. msimp.
    match goal with
    | |- context [bind (utils.generate_key_to_file key_path) _ env ?s0] =>
        destruct (utils.generate_key_to_file key_path env s0)
          as [[key|e] s2] eqn:Eg
    end.
    2: { rewrite (bind_Raise _ _ _ _ _ _ Eg). discriminate. }
    rewrite (bind_Ok _ _ _ _ _ _ Eg). msimp.
    destruct (generate_key_to_file_outcome _ _ _ _ _ Eg) as (mode & Hfile & Hmode).
    destruct (str_truthy key); cbn [negb]; cbv iota; msimp; [|discriminate].
    unfold try_except. unfold bind at 1. rewrite Fernet_new_run.
    destruct (lib_key_ok (fernet_lib env) key) eqn:Hk; msimp;
      [|discriminate].
    intros [= <-]. exists key, mode. simpl.
    repeat split; try assumption; try reflexivity.
    + intros [? H]. discriminate H.
    + intros _. exact Hmode.
Qed.

(** [initialize_encryption] on a key file that is there and readable. *)
Lemma initialize_encryption_existing key_path env s content mode :
  fs s !! key_path = Some (File content mode) ->
  faults env (OpRead key_path) = None ->
  utils.initialize_encryption key_path env s
  = if lib_key_ok (fernet_lib env) content then
      (Ok tt,
       set_stdout
         (fun out =>
            (out ++ [("Encryption initialized successfully using key from "
                      ++ key_path ++ ".")%string])%list)
         (set_utils_CIPHER_SUITE (Some {| fernet_key := content |})
            (set_utils_ENCRYPTION_KEY_BYTES (Some content) s)))
    else
      (Raise (ValueError ("Invalid or corrupted encryption key at "
                          ++ key_path ++ ". Cannot proceed.")),
       set_stdout
         (fun out =>
            (out ++ [("CRITICAL: Failed to initialize Fernet cipher with key from "
                      ++ key_path ++ ". Error: "
                      ++ "Fernet key must be 32 url-safe base64-encoded bytes.")%string
                    ])%list)
         (set_utils_CIPHER_SUITE None
            (set_utils_ENCRYPTION_KEY_BYTES (Some content) s))).
Proof.
  intros Hfile Hread.
  unfold utils.initialize_encryption, utils.load_key_from_file.
  rewrite bind_bind, bind_os_path_exists.
  rewrite bool_decide_eq_true_2 by (rewrite Hfile; now eexists).
  cbn [negb]. cbv iota. rewrite bind_bind.
  rewrite (bind_Ok _ _ _ _ _ _ (read_file_existing _ _ _ _ _ Hfile Hread)).
  msimp. unfold try_except. unfold bind at 1. rewrite Fernet_new_run.
  now destruct (lib_key_ok (fernet_lib env) content).
Qed.

(** X1.  First run of [utils.initialize_encryption] on a POSIX system:
    when no key file exists and the call succeeds, the key file holds
    the key of the cipher now in use, a key the library accepts, and,
    unless [chmod] is refused, its mode is [0o600]: only the owner can
    read the key. *)
Theorem utils_first_run_stores_owner_only_key env s key_path s1 :
  fs s !! key_path = None ->
  os_name_posix (sys_platform env) = true ->
  faults env (OpChmod key_path) = None ->
  utils.initialize_encryption key_path env s = (Ok tt, s1) ->
  exists key,
    fs s1 !! key_path = Some (File key 384)
    /\ lib_key_ok (fernet_lib env) key = true
    /\ utils_CIPHER_SUITE s1 = Some {| fernet_key := key |}
    /\ utils_ENCRYPTION_KEY_BYTES s1 = Some key.
Proof.
  intros Hnone Hposix Hchmod Hrun.
  destruct (initialize_encryption_outcome _ _ _ _ Hrun)
    as (key & mode & Hfile & Hk & Hc & Hb & _ & Hmode).
  rewrite (Hmode Hnone Hposix Hchmod) in Hfile.
  now exists key.
Qed.

Lemma utils_first_run_stores_owner_only_key_witness :
  let key_path := "/etc/monitor/encryption.key" in
  let s := Ref.boot Ref.installed in
  let s1 := snd (utils.initialize_encryption key_path Ref.env s) in
  fs s !! key_path = None
  /\ os_name_posix (sys_platform Ref.env) = true
  /\ faults Ref.env (OpChmod key_path) = None
  /\ utils.initialize_encryption key_path Ref.env s = (Ok tt, s1)
  /\ exists key,
       fs s1 !! key_path = Some (File key 384)
       /\ lib_key_ok (fernet_lib Ref.env) key = true
       /\ utils_CIPHER_SUITE s1 = Some {| fernet_key := key |}
       /\ utils_ENCRYPTION_KEY_BYTES s1 = Some key.
Proof.
  cbv zeta.
  assert (Hnone : fs (Ref.boot Ref.installed) !! "/etc/monitor/encryption.key"
                  = None) by (vm_compute; reflexivity).
  assert (Hrun : utils.initialize_encryption "/etc/monitor/encryption.key"
                   Ref.env (Ref.boot Ref.installed)
                 = (Ok tt,
                    snd (utils.initialize_encryption
                           "/etc/monitor/encryption.key" Ref.env
                           (Ref.boot Ref.installed))))
    by (vm_compute; reflexivity).
  split; [exact Hnone|]. split; [reflexivity|]. split; [reflexivity|].
  split; [exact Hrun|].
  exact (utils_first_run_stores_owner_only_key Ref.env
           (Ref.boot Ref.installed) "/etc/monitor/encryption.key" _
           Hnone eq_refl eq_refl Hrun).
Defined.

(** X2.  The key survives a restart.  Once [initialize_encryption] has
    succeeded, a fresh interpreter started on the file system it left
    (the key file being readable) initialises again without error, ends
    with the same cipher, and writes nothing: no second key is ever
    generated over the first. *)
Theorem utils_restart_reuses_key env s key_path s1 s2 :
  utils.initialize_encryption key_path env s = (Ok tt, s1) ->
  fs s2 = fs s1 ->
  faults env (OpRead key_path) = None ->
  exists s3,
    utils.initialize_encryption key_path env s2 = (Ok tt, s3)
    /\ utils_CIPHER_SUITE s3 = utils_CIPHER_SUITE s1
    /\ fs s3 = fs s2.
Proof.
  intros Hrun Hfs Hread.
  destruct (initialize_encryption_outcome _ _ _ _ Hrun)
    as (key & mode & Hfile & Hk & Hc & _).
  rewrite <- Hfs in Hfile.
  rewrite (initialize_encryption_existing _ _ _ _ _ Hfile Hread), Hk.
  eexists. split; [reflexivity|]. split; [|reflexivity].
  now rewrite Hc.
Qed.

Lemma utils_restart_reuses_key_witness :
  let key_path := "/etc/monitor/encryption.key" in
  let s1 := snd (utils.initialize_encryption key_path Ref.env
                   (Ref.boot Ref.installed)) in
  let s2 := Ref.boot (fs s1) in
  utils.initialize_encryption key_path Ref.env (Ref.boot Ref.installed)
  = (Ok tt, s1)
  /\ fs s2 = fs s1
  /\ faults Ref.env (OpRead key_path) = None
  /\ exists s3,
       utils.initialize_encryption key_path Ref.env s2 = (Ok tt, s3)
       /\ utils_CIPHER_SUITE s3 = utils_CIPHER_SUITE s1
       /\ fs s3 = fs s2.
Proof.
  cbv zeta.
  assert (Hrun : utils.initialize_encryption "/etc/monitor/encryption.key"
                   Ref.env (Ref.boot Ref.installed)
                 = (Ok tt,
                    snd (utils.initialize_encryption
                           "/etc/monitor/encryption.key" Ref.env
                           (Ref.boot Ref.installed))))
    by (vm_compute; reflexivity).
  split; [exact Hrun|]. split; [apply fs_boot|]. split; [reflexivity|].
  exact (utils_restart_reuses_key Ref.env (Ref.boot Ref.installed)
           "/etc/monitor/encryption.key" _ _ Hrun (fs_boot _) eq_refl).
Defined.

(** X3.  A key file the library does not accept (corrupted, truncated)
    is fatal and is left alone: [initialize_encryption] raises
    [ValueError], writes nothing to the file system, and leaves the
    module without a cipher, also when one was in use before, so that
    [encrypt] and [decrypt] afterwards fail with [RuntimeError]. *)
Theorem utils_rejects_corrupt_key env s key_path content mode :
  fs s !! key_path = Some (File content mode) ->
  faults env (OpRead key_path) = None ->
  lib_key_ok (fernet_lib env) content = false ->
  exists s',
    utils.initialize_encryption key_path env s
    = (Raise (ValueError ("Invalid or corrupted encryption key at "
                          ++ key_path ++ ". Cannot proceed.")), s')
    /\ fs s' = fs s
    /\ utils_CIPHER_SUITE s' = None
    /\ forall data,
         utils.encrypt data env s'
         = (Raise (RuntimeError
                     "Encryption has not been initialized. Call utils.initialize_encryption(key_path) first."),
            s')
         /\ utils.decrypt data env s'
            = (Raise (RuntimeError
                        "Encryption has not been initialized. Call utils.initialize_encryption(key_path) first."),
               s').
Proof.
  intros Hfile Hread Hk.
  rewrite (initialize_encryption_existing _ _ _ _ _ Hfile Hread), Hk.
  eexists. split; [reflexivity|]. split; [reflexivity|].
  split; [reflexivity|]. intros data. split; reflexivity.
Qed.

Lemma utils_rejects_corrupt_key_witness :
  let key_path := "/etc/monitor/encryption.key" in
  let s := Ref.boot (<[key_path := File "not a key" 384]> Ref.installed) in
  fs s !! key_path = Some (File "not a key" 384)
  /\ faults Ref.env (OpRead key_path) = None
  /\ lib_key_ok (fernet_lib Ref.env) "not a key" = false
  /\ exists s',
       utils.initialize_encryption key_path Ref.env s
       = (Raise (ValueError ("Invalid or corrupted encryption key at "
                             ++ key_path ++ ". Cannot proceed.")), s')
       /\ fs s' = fs s
       /\ utils_CIPHER_SUITE s' = None
       /\ forall data,
            utils.encrypt data Ref.env s'
            = (Raise (RuntimeError
                        "Encryption has not been initialized. Call utils.initialize_encryption(key_path) first."),
               s')
            /\ utils.decrypt data Ref.env s'
               = (Raise (RuntimeError
                           "Encryption has not been initialized. Call utils.initialize_encryption(key_path) first."),
                  s').
Proof.
  cbv zeta.
  assert (Hfile : fs (Ref.boot (<["/etc/monitor/encryption.key"
                                   := File "not a key" 384]> Ref.installed))
                  !! "/etc/monitor/encryption.key"
                  = Some (File "not a key" 384)) by (vm_compute; reflexivity).
  split; [exact Hfile|]. split; [reflexivity|]. split; [reflexivity|].
  exact (utils_rejects_corrupt_key Ref.env _ "/etc/monitor/encryption.key"
           "not a key" 384 Hfile eq_refl eq_refl).
Defined.

(** X4.  Round trip through the module's own cipher: once
    [initialize_encryption] has succeeded, [encrypt] returns a token for
    any data, and [decrypt] of that token returns the data (the library
    taken at its contract [FernetCorrect]). *)
Theorem utils_round_trip_after_initialization env s key_path s1 data :
  FernetCorrect (fernet_lib env) ->
  utils.initialize_encryption key_path env s = (Ok tt, s1) ->
  exists token s2,
    utils.encrypt data env s1 = (Ok token, s2)
    /\ utils.decrypt token env s2 = (Ok data, s2).
Proof.
  intros HL Hrun.
  destruct (initialize_encryption_outcome _ _ _ _ Hrun)
    as (key & mode & _ & Hk & Hc & _).
  exact (utils_encrypt_decrypt_round_trip env s1 key data HL Hk Hc).
Qed.

Lemma utils_round_trip_after_initialization_witness :
  let key_path := "/etc/monitor/encryption.key" in
  let s1 := snd (utils.initialize_encryption key_path Ref.env
                   (Ref.boot Ref.installed)) in
  FernetCorrect (fernet_lib Ref.env)
  /\ utils.initialize_encryption key_path Ref.env (Ref.boot Ref.installed)
     = (Ok tt, s1)
  /\ exists token s2,
       utils.encrypt "secret" Ref.env s1 = (Ok token, s2)
       /\ utils.decrypt token Ref.env s2 = (Ok "secret", s2).
Proof.
  cbv zeta.
  assert (Hrun : utils.initialize_encryption "/etc/monitor/encryption.key"
                   Ref.env (Ref.boot Ref.installed)
                 = (Ok tt,
                    snd (utils.initialize_encryption
                           "/etc/monitor/encryption.key" Ref.env
                           (Ref.boot Ref.installed))))
    by (vm_compute; reflexivity).
  split; [exact ref_fernet_correct|]. split; [exact Hrun|].
  exact (utils_round_trip_after_initialization Ref.env
           (Ref.boot Ref.installed) "/etc/monitor/encryption.key" _ "secret"
           ref_fernet_correct Hrun).
Defined.

(** ** logger.py: the key across restarts *)

(** [load_or_generate_key] on a key file that is there and readable. *)
Lemma load_or_generate_key_existing key_path env s content mode :
  fs s !! key_path = Some (File content mode) ->
  faults env (OpRead key_path) = None ->
  logger.load_or_generate_key key_path env s
  = (if lib_key_ok (fernet_lib env) content
     then Ok {| fernet_key := content |}
     else Raise (ValueError
                   "Fernet key must be 32 url-safe base64-encoded bytes."),
     set_logger_ENCRYPTION_KEY (Some content) s).
Proof.
  intros Hf Hr. unfold logger.load_or_generate_key. msimp.
  rewrite bind_os_path_exists.
  rewrite bool_decide_eq_true_2 by (rewrite Hf; now eexists). cbv iota.
  rewrite (bind_Ok _ _ _ _ _ _ (read_file_existing _ _ _ _ _ Hf Hr)).
  msimp. apply Fernet_new_run.
Qed.

(** What a successful [load_or_generate_key] leaves behind. *)
Lemma load_or_generate_key_outcome key_path env s c s1 :
  logger.load_or_generate_key key_path env s = (Ok c, s1) ->
  lib_key_ok (fernet_lib env) (fernet_key c) = true
  /\ logger_ENCRYPTION_KEY s1 = Some (fernet_key c)
  /\ exists mode, fs s1 !! key_path = Some (File (fernet_key c) mode).
Proof.
  unfold logger.load_or_generate_key. msimp. rewrite bind_os_path_exists.
  destruct (fs s !! key_path) as [node|] eqn:Hnode.
  - rewrite bool_decide_eq_true_2 by (now eexists). cbv iota.
    destruct (read_file key_path env s) as [[key|e] s0] eqn:Er.
    2: { rewrite (bind_Raise _ _ _ _ _ _ Er). discriminate. }
    destruct (read_file_Ok_inv _ _ _ _ _ Er) as (-> & _ & mode & Hfile).
    rewrite (bind_Ok _ _ _ _ _ _ Er). msimp. rewrite Fernet_new_run.
    destruct (lib_key_ok (fernet_lib env) key) eqn:Hk; [|discriminate].
    intros [= <- <-]. simpl. repeat split; [exact Hk|]. now exists mode.
  - rewrite bool_decide_eq_false_2 by (intros [? ?]; discriminate).
    cbv iota. unfold Fernet_generate_key, os_urandom. msimp.
    set (key := lib_generate_key _ _).
    set (s0 := set_entropy_pos _ s).
    unfold bind at 1.
    destruct (os_makedirs (path_dirname env key_path) env s0)
      as [[[]|e] s2]; [|discriminate].
    rewrite bind_bind.
    destruct (write_file_result key_path key env s2) as [[e Ew]|[mode Ew]].
    { rewrite (bind_Raise _ _ _ _ _ _ Ew). discriminate. }
    rewrite (bind_Ok _ _ _ _ _ _ Ew). msimp. rewrite Fernet_new_run.
    destruct (lib_key_ok (fernet_lib env) key) eqn:Hk; [|discriminate].
    intros [= <- <-]. simpl. repeat split; [exact Hk|].
    exists mode. apply lookup_insert_eq.
Qed.

(** X5.  The logger's key survives a restart.  Once
    [load_or_generate_key] has returned a cipher, a fresh interpreter
    started on the file system it left (the key file being readable)
    gets the cipher of the same key from the same path and changes
    nothing but its own global [ENCRYPTION_KEY]: records written before
    the restart stay readable with the key in use after it. *)
Theorem logger_restart_reuses_key env s key_path c s1 s2 :
  logger.load_or_generate_key key_path env s = (Ok c, s1) ->
  fs s2 = fs s1 ->
  faults env (OpRead key_path) = None ->
  logger.load_or_generate_key key_path env s2
  = (Ok c, set_logger_ENCRYPTION_KEY (Some (fernet_key c)) s2).
Proof.
  intros Hrun Hfs Hread.
  destruct (load_or_generate_key_outcome _ _ _ _ _ Hrun)
    as (Hk & _ & mode & Hfile).
  rewrite <- Hfs in Hfile.
  rewrite (load_or_generate_key_existing _ _ _ _ _ Hfile Hread), Hk.
  now destruct c.
Qed.

Lemma logger_restart_reuses_key_witness :
  let key_path := "/etc/monitor/encryption.key" in
  let s1 := snd (logger.load_or_generate_key key_path Ref.env
                   (Ref.boot Ref.installed)) in
  let s2 := Ref.boot (fs s1) in
  logger.load_or_generate_key key_path Ref.env (Ref.boot Ref.installed)
  = (Ok Ref.ready_cipher, s1)
  /\ fs s2 = fs s1
  /\ faults Ref.env (OpRead key_path) = None
  /\ logger.load_or_generate_key key_path Ref.env s2
     = (Ok Ref.ready_cipher,
        set_logger_ENCRYPTION_KEY (Some (fernet_key Ref.ready_cipher)) s2).
Proof.
  cbv zeta.
  assert (Hrun : logger.load_or_generate_key "/etc/monitor/encryption.key"
                   Ref.env (Ref.boot Ref.installed)
                 = (Ok Ref.ready_cipher,
                    snd (logger.load_or_generate_key
                           "/etc/monitor/encryption.key" Ref.env
                           (Ref.boot Ref.installed))))
    by (vm_compute; reflexivity).
  split; [exact Hrun|]. split; [apply fs_boot|]. split; [reflexivity|].
  exact (logger_restart_reuses_key Ref.env (Ref.boot Ref.installed)
           "/etc/monitor/encryption.key" Ref.ready_cipher _ _ Hrun
           (fs_boot _) eq_refl).
Defined.

(** ** logger.py: the daily partition *)

Lemma os_chmod_Ok_inv p mode env s s' :
  os_chmod p mode env s = (Ok tt, s') ->
  faults env (OpChmod p) = None
  /\ exists n, fs s !! p = Some n
               /\ s' = set_fs (insert p (chmod_node mode n)) s.
Proof.
  unfold os_chmod. msimp.
  destruct (faults env (OpChmod p)); [discriminate|].
  destruct (fs s !! p) as [[c m|m]|]; msimp; try discriminate;
    intros [= <-]; (split; [reflexivity|]); eexists; split; reflexivity.
Qed.

Lemma os_chmod_run p mode env s n :
  faults env (OpChmod p) = None -> fs s !! p = Some n ->
  os_chmod p mode env s = (Ok tt, set_fs (insert p (chmod_node mode n)) s).
Proof.
  intros F H. unfold os_chmod. msimp. rewrite F, H. now destruct n.
Qed.

Lemma set_fs_insert_id p n s : fs s !! p = Some n -> set_fs (insert p n) s = s.
Proof.
  intros H. destruct s. unfold set_fs. simpl in *. f_equal.
  now apply insert_id.
Qed.

(** [chmod] keeps every node in place and of its kind, and leaves alone
    a node that has the requested mode already. *)
Lemma os_chmod_keeps q mode env s s' p n :
  os_chmod q mode env s = (Ok tt, s') ->
  fs s !! p = Some n ->
  exists n', fs s' !! p = Some n'
             /\ is_dir n' = is_dir n
             /\ (node_mode n = mode -> n' = n).
Proof.
  intros E Hp. destruct (os_chmod_Ok_inv _ _ _ _ _ E) as (_ & nq & Hq & ->).
  rewrite fs_set_fs. destruct (decide (q = p)) as [->|Hne].
  - rewrite lookup_insert_eq. rewrite Hp in Hq. injection Hq as <-.
    eexists. split; [reflexivity|]. split; [now destruct n|].
    intros <-. now destruct n.
  - rewrite lookup_insert_ne by exact Hne. now exists n.
Qed.

Lemma os_chmod_sets q mode env s s' :
  os_chmod q mode env s = (Ok tt, s') -> has_mode mode q s'.
Proof.
  intros E. destruct (os_chmod_Ok_inv _ _ _ _ _ E) as (_ & nq & Hq & ->).
  exists (chmod_node mode nq). rewrite fs_set_fs, lookup_insert_eq.
  split; [reflexivity | now destruct nq].
Qed.

(** Running [chmod] on a node that has the mode already changes nothing. *)
Lemma os_chmod_again q mode env s :
  faults env (OpChmod q) = None -> has_mode mode q s ->
  os_chmod q mode env s = (Ok tt, s).
Proof.
  intros F (n & Hn & Hm). rewrite (os_chmod_run _ _ _ _ _ F Hn).
  f_equal. apply set_fs_insert_id. rewrite Hn. f_equal.
  subst mode. now destruct n.
Qed.

Lemma has_mode_kept q mode env s s' p :
  os_chmod q mode env s = (Ok tt, s') -> has_mode mode p s -> has_mode mode p s'.
Proof.
  intros E (n & Hn & Hm).
  destruct (os_chmod_keeps _ _ _ _ _ _ _ E Hn) as (n' & Hn' & _ & Hsame).
  exists n'. split; [exact Hn'|]. now rewrite (Hsame Hm).
Qed.

Lemma mkdir_exist_ok_Ok_inv d env s s' :
  mkdir_exist_ok d env s = (Ok tt, s') ->
  (exists m, fs s' !! d = Some (Dir m))
  /\ forall p n, fs s !! p = Some n -> fs s' !! p = Some n.
Proof.
  unfold mkdir_exist_ok. msimp.
  destruct (fs s !! d) as [[c m|m]|] eqn:Hd; msimp; try discriminate;
    intros [= <-].
  - split; [now exists m | auto].
  - split; [rewrite fs_set_fs, lookup_insert_eq; now eexists|].
    intros p n Hp. rewrite fs_set_fs, lookup_insert_ne; [exact Hp|].
    intros ->. rewrite Hd in Hp. discriminate.
Qed.

Lemma for_each_mkdir_Ok_inv l env s s' :
  for_each mkdir_exist_ok l env s = (Ok tt, s') ->
  (forall d, In d l -> exists m, fs s' !! d = Some (Dir m))
  /\ forall p n, fs s !! p = Some n -> fs s' !! p = Some n.
Proof.
  revert s. induction l as [|d l IH]; intros s E.
  - injection E as <-. split; [intros d [] | auto].
  - simpl in E. unfold bind in E.
    destruct (mkdir_exist_ok d env s) as [[[]|e] s1] eqn:Ed; [|discriminate].
    destruct (mkdir_exist_ok_Ok_inv _ _ _ _ Ed) as ((m & Hd) & Hkeep1).
    destruct (IH s1 E) as (Hdirs & Hkeep). split.
    + intros d' [<-|Hin]; [|now apply Hdirs].
      exists m. now apply Hkeep.
    + intros p n Hp. now apply Hkeep, Hkeep1.
Qed.

(** Directories that are all there already: nothing to create. *)
Lemma for_each_mkdir_dirs l env s :
  (forall d, In d l -> exists m, fs s !! d = Some (Dir m)) ->
  for_each mkdir_exist_ok l env s = (Ok tt, s).
Proof.
  induction l as [|d l IH]; intros H; [reflexivity|].
  simpl. destruct (H d (or_introl eq_refl)) as (m & Hd).
  assert (Ed : mkdir_exist_ok d env s = (Ok tt, s))
    by (unfold mkdir_exist_ok; msimp; now rewrite Hd).
  rewrite (bind_Ok _ _ _ _ _ _ Ed). apply IH.
  intros d' Hin. apply H. now right.
Qed.

Lemma makedirs_chain_last dirname fuel d :
  d <> "" -> fuel <> O -> In d (makedirs_chain dirname fuel d).
Proof.
  intros Hd Hf. destruct fuel as [|fuel]; [contradiction|]. simpl.
  destruct (String.eqb_spec d ""); [contradiction|].
  destruct (String.eqb (dirname d) d); [now left|].
  apply in_or_app. right. now left.
Qed.

Lemma os_makedirs_Ok_inv d env s s' :
  os_makedirs d env s = (Ok tt, s') ->
  faults env (OpMakedirs d) = None
  /\ d <> ""
  /\ for_each mkdir_exist_ok
       (makedirs_chain (path_dirname env) (String.length d) d) env s
     = (Ok tt, s').
Proof.
  unfold os_makedirs. msimp.
  destruct (faults env (OpMakedirs d)); [discriminate|].
  destruct (String.eqb_spec d ""); [discriminate|]. auto.
Qed.

Lemma os_makedirs_run d env s :
  faults env (OpMakedirs d) = None -> d <> "" ->
  os_makedirs d env s
  = for_each mkdir_exist_ok
      (makedirs_chain (path_dirname env) (String.length d) d) env s.
Proof.
  intros F Hd. unfold os_makedirs. msimp. rewrite F.
  now destruct (String.eqb_spec d "").
Qed.

Lemma is_dir_Dir n : is_dir n = true -> n = Dir (node_mode n).
Proof. now destruct n. Qed.

(** The body of the [try] in [ensure_daily_log_dir], for any three
    paths: once it has succeeded, running it again changes nothing; the
    innermost directory is a directory, and on a POSIX system all three
    paths have mode [0o700]. *)
Lemma partition_setup_outcome base daily shots env s s1 :
  (os_makedirs shots ;;;
   if os_name_posix (sys_platform env) then
     os_chmod base 448 ;;; os_chmod daily 448 ;;; os_chmod shots 448
   else ret tt) env s = (Ok tt, s1) ->
  (os_makedirs shots ;;;
   if os_name_posix (sys_platform env) then
     os_chmod base 448 ;;; os_chmod daily 448 ;;; os_chmod shots 448
   else ret tt) env s1 = (Ok tt, s1)
  /\ (exists n, fs s1 !! shots = Some n /\ is_dir n = true)
  /\ (os_name_posix (sys_platform env) = true ->
      has_mode 448 base s1 /\ has_mode 448 daily s1 /\ has_mode 448 shots s1).
Proof.
  unfold bind at 1.
  destruct (os_makedirs shots env s) as [[[]|e] sm] eqn:Em; [|discriminate].
  destruct (os_makedirs_Ok_inv _ _ _ _ Em) as (Hfault & Hne & Efor).
  destruct (for_each_mkdir_Ok_inv _ _ _ _ Efor) as (Hdirs & _).
  set (chain := makedirs_chain (path_dirname env) (String.length shots) shots)
    in *.
  assert (Hin : In shots chain).
  { apply makedirs_chain_last; [exact Hne|]. now destruct shots. }
  assert (Hrun : forall s',
             (forall d, In d chain -> exists n, fs s' !! d = Some n
                                                /\ is_dir n = true) ->
             os_makedirs shots env s' = (Ok tt, s')).
  { intros s' H. rewrite (os_makedirs_run _ _ _ Hfault Hne).
    apply for_each_mkdir_dirs. intros d Hd.
    destruct (H d Hd) as (n & Hn & Hdir). exists (node_mode n).
    now rewrite Hn, (is_dir_Dir _ Hdir) at 1. }
  assert (Hsm : forall d, In d chain -> exists n, fs sm !! d = Some n
                                                  /\ is_dir n = true).
  { intros d Hd. destruct (Hdirs d Hd) as (m & Hm). now exists (Dir m). }
  destruct (os_name_posix (sys_platform env)).
  - unfold bind at 1.
    destruct (os_chmod base 448 env sm) as [[[]|e] s2] eqn:E1; [|discriminate].
    unfold bind at 1.
    destruct (os_chmod daily 448 env s2) as [[[]|e] s3] eqn:E2; [|discriminate].
    intros E3.
    assert (Hkeep : forall d, In d chain -> exists n, fs s1 !! d = Some n
                                                      /\ is_dir n = true).
    { intros d Hd. destruct (Hsm d Hd) as (n0 & Hn0 & Hd0).
      destruct (os_chmod_keeps _ _ _ _ _ _ _ E1 Hn0) as (n2 & Hn2 & Hd2 & _).
      destruct (os_chmod_keeps _ _ _ _ _ _ _ E2 Hn2) as (n3 & Hn3 & Hd3 & _).
      destruct (os_chmod_keeps _ _ _ _ _ _ _ E3 Hn3) as (n4 & Hn4 & Hd4 & _).
      exists n4. split; [exact Hn4 | congruence]. }
    assert (Hb : has_mode 448 base s1).
    { eapply has_mode_kept; [exact E3|]. eapply has_mode_kept; [exact E2|].
      eapply os_chmod_sets; exact E1. }
    assert (Hd : has_mode 448 daily s1).
    { eapply has_mode_kept; [exact E3|]. eapply os_chmod_sets; exact E2. }
    assert (Hs : has_mode 448 shots s1) by (eapply os_chmod_sets; exact E3).
    destruct (os_chmod_Ok_inv _ _ _ _ _ E1) as (F1 & _).
    destruct (os_chmod_Ok_inv _ _ _ _ _ E2) as (F2 & _).
    destruct (os_chmod_Ok_inv _ _ _ _ _ E3) as (F3 & _).
    split; [|split; [apply Hkeep, Hin | auto]].
    rewrite (bind_Ok _ _ _ _ _ _ (Hrun s1 Hkeep)).
    rewrite (bind_Ok _ _ _ _ _ _ (os_chmod_again _ _ _ _ F1 Hb)).
    rewrite (bind_Ok _ _ _ _ _ _ (os_chmod_again _ _ _ _ F2 Hd)).
    apply os_chmod_again; assumption.
  - intros [= <-]. split; [|split; [apply Hsm, Hin | intros; discriminate]].
    now rewrite (bind_Ok _ _ _ _ _ _ (Hrun sm Hsm)).
Qed.

(** [ensure_daily_log_dir] with the base directory it resolves from the
    configuration: the base depends on the configuration and on the
    platform's [os.path] only, the daily directory on the date as well. *)
Lemma ensure_daily_log_dir_unfold config env :
  exists base, forall s,
    logger.ensure_daily_log_dir config env s
    = (let daily :=
         path_join env base (strftime_Ymd (localtime env (clock s))) in
       let shots := path_join env daily "Screenshots" in
       try_except
         (os_makedirs shots ;;;
          if os_name_posix (sys_platform env) then
            os_chmod base 448 ;;; os_chmod daily 448 ;;; os_chmod shots 448
          else ret tt)
         (fun e =>
            logger.log_error
              ("Failed to create/set permissions for directory "
               ++ shots ++ ": " ++ exn_str e) config true ;;;
            raise e) ;;;
       ret (daily, shots)) env s.
Proof.
  exists (let base_log_dir :=
            dict_get (cfg_log_directory config) "ParentalMonitorData" in
          if negb (path_isabs env base_log_dir) then
            match cfg_config_file_path config with
            | Some config_file_location =>
                if str_truthy config_file_location then
                  path_join env (path_dirname env config_file_location)
                    base_log_dir
                else path_abspath env base_log_dir
            | None => path_abspath env base_log_dir
            end
          else base_log_dir).
  intros s. reflexivity.
Qed.

Lemma ensure_daily_log_dir_Ok_inv config env s dirs s1 :
  logger.ensure_daily_log_dir config env s = (Ok dirs, s1) ->
  exists base,
    fst dirs = path_join env base (strftime_Ymd (localtime env (clock s)))
    /\ snd dirs = path_join env (fst dirs) "Screenshots"
    /\ (os_makedirs (snd dirs) ;;;
        if os_name_posix (sys_platform env) then
          os_chmod base 448 ;;; os_chmod (fst dirs) 448 ;;;
          os_chmod (snd dirs) 448
        else ret tt) env s = (Ok tt, s1)
    /\ forall s',
         clock s' = clock s ->
         (os_makedirs (snd dirs) ;;;
          if os_name_posix (sys_platform env) then
            os_chmod base 448 ;;; os_chmod (fst dirs) 448 ;;;
            os_chmod (snd dirs) 448
          else ret tt) env s' = (Ok tt, s') ->
         logger.ensure_daily_log_dir config env s' = (Ok dirs, s').
Proof.
  destruct (ensure_daily_log_dir_unfold config env) as (base & U).
  rewrite U. cbv zeta.
  set (daily := path_join env base _).
  set (shots := path_join env daily _).
  unfold bind at 1. unfold try_except at 1.
  match goal with
  | |- context [match ?body env s with _ => _ end] =>
      destruct (body env s) as [[[]|e] s0] eqn:Eb
  end.
  - intros [= <- <-]. exists base. simpl fst. simpl snd.
    split; [reflexivity|]. split; [reflexivity|]. split; [exact Eb|].
    intros s' Hc E. rewrite U. cbv zeta. rewrite Hc. fold daily. fold shots.
    now rewrite (bind_Ok _ _ _ _ _ _ (try_except_Ok _ _ _ _ _ _ E)).
  - match goal with
    | |- context [logger.log_error ?msg config true] =>
        destruct (log_error_reports msg config true env s0) as (s' & E & _)
    end.
    rewrite (bind_Ok _ _ _ _ _ _ E). discriminate.
Qed.

(** X6.  [ensure_daily_log_dir] is idempotent: once it has returned the
    directories of the day, calling it again in the state it left
    returns the same directories and changes nothing, neither on the
    file system nor anywhere else (so it is safe to call it before every
    write, as [log_keyword] and [save_screenshot] do). *)
Theorem ensure_daily_log_dir_idempotent env s config dirs s1 :
  logger.ensure_daily_log_dir config env s = (Ok dirs, s1) ->
  logger.ensure_daily_log_dir config env s1 = (Ok dirs, s1).
Proof.
  intros H.
  pose proof (io_only_ensure_daily_log_dir config env s) as G.
  rewrite H in G. destruct G as (Hclock & _).
  destruct (ensure_daily_log_dir_Ok_inv _ _ _ _ _ H)
    as (base & _ & _ & Eb & Hrerun).
  apply Hrerun; [exact Hclock|].
  exact (proj1 (partition_setup_outcome _ _ _ _ _ _ Eb)).
Qed.

Lemma ensure_daily_log_dir_idempotent_witness :
  let dirs := ("/var/lib/monitor/data/20260314",
               "/var/lib/monitor/data/20260314/Screenshots") in
  let s1 := snd (logger.ensure_daily_log_dir Ref.config Ref.env Ref.ready) in
  logger.ensure_daily_log_dir Ref.config Ref.env Ref.ready = (Ok dirs, s1)
  /\ logger.ensure_daily_log_dir Ref.config Ref.env s1 = (Ok dirs, s1).
Proof.
  cbv zeta.
  assert (Hrun : logger.ensure_daily_log_dir Ref.config Ref.env Ref.ready
                 = (Ok ("/var/lib/monitor/data/20260314",
                        "/var/lib/monitor/data/20260314/Screenshots"),
                    snd (logger.ensure_daily_log_dir Ref.config Ref.env
                           Ref.ready)))
    by (vm_compute; reflexivity).
  split; [exact Hrun|].
  exact (ensure_daily_log_dir_idempotent Ref.env Ref.ready Ref.config _ _ Hrun).
Defined.

(** X7.  On a POSIX system the partition of the day is private: when
    [ensure_daily_log_dir] returns, the [Screenshots] directory is a
    directory with mode [0o700], and the daily directory has mode
    [0o700] as well. *)
Theorem daily_partition_is_owner_only env s config daily_dir screenshots_dir s1 :
  os_name_posix (sys_platform env) = true ->
  logger.ensure_daily_log_dir config env s
  = (Ok (daily_dir, screenshots_dir), s1) ->
  fs s1 !! screenshots_dir = Some (Dir 448) /\ has_mode 448 daily_dir s1.
Proof.
  intros Hposix H.
  destruct (ensure_daily_log_dir_Ok_inv _ _ _ _ _ H)
    as (base & _ & _ & Eb & _).
  simpl fst in Eb. simpl snd in Eb.
  destruct (partition_setup_outcome _ _ _ _ _ _ Eb)
    as (_ & (n & Hn & Hdir) & Hmodes).
  destruct (Hmodes Hposix) as (_ & Hd & (n' & Hn' & Hm)).
  split; [|exact Hd].
  rewrite Hn in Hn'. injection Hn' as <-.
  now rewrite Hn, (is_dir_Dir _ Hdir), Hm.
Qed.

Lemma daily_partition_is_owner_only_witness :
  let daily_dir := "/var/lib/monitor/data/20260314" in
  let screenshots_dir := "/var/lib/monitor/data/20260314/Screenshots" in
  let s1 := snd (logger.ensure_daily_log_dir Ref.config Ref.env Ref.ready) in
  os_name_posix (sys_platform Ref.env) = true
  /\ logger.ensure_daily_log_dir Ref.config Ref.env Ref.ready
     = (Ok (daily_dir, screenshots_dir), s1)
  /\ fs s1 !! screenshots_dir = Some (Dir 448)
  /\ has_mode 448 daily_dir s1.
Proof.
  cbv zeta.
  assert (Hrun : logger.ensure_daily_log_dir Ref.config Ref.env Ref.ready
                 = (Ok ("/var/lib/monitor/data/20260314",
                        "/var/lib/monitor/data/20260314/Screenshots"),
                    snd (logger.ensure_daily_log_dir Ref.config Ref.env
                           Ref.ready)))
    by (vm_compute; reflexivity).
  split; [reflexivity|]. split; [exact Hrun|].
  exact (daily_partition_is_owner_only Ref.env Ref.ready Ref.config _ _ _
           eq_refl Hrun).
Defined.

(** ** logger.py: screenshots, saved and decrypted again *)

(** What [save_screenshot] has done when it returns a path. *)
Lemma save_screenshot_Ok_inv image config env s path s' :
  logger.save_screenshot image config env s = (Ok (Some path), s') ->
  exists c dirs s1 mode,
    logger_cipher_suite s = Some c
    /\ logger.ensure_daily_log_dir config env s = (Ok dirs, s1)
    /\ path = path_join env (snd dirs)
                (strftime_file (localtime env (clock s)) ++ ".png.enc")
    /\ fs s' !! path
       = Some (File (lib_encrypt (fernet_lib env) (fernet_key c)
                       (Qfloor (clock s))
                       (entropy_bytes env (entropy_pos s) 16) image) mode)
    /\ (os_name_posix (sys_platform env) = true -> mode = 384)
    /\ same_globals (set_entropy_pos (fun p => (p + 16)%nat) s) s'.
Proof.
  intros H. destruct (logger_cipher_suite s) as [c|] eqn:Hcs.
  2: { destruct (save_screenshot_uninitialized image config env s Hcs)
         as (s0 & E & _).
       rewrite E in H. discriminate. }
  pose proof (io_only_ensure_daily_log_dir config env s) as G.
  revert H. unfold logger.save_screenshot. msimp. rewrite Hcs. cbv beta iota.
  destruct (logger.ensure_daily_log_dir config env s) as [[dirs|e] s1] eqn:Ed.
  2: { now rewrite (bind_Raise _ _ _ _ _ _ Ed). }
  rewrite (bind_Ok _ _ _ _ _ _ Ed). msimp.
  simpl in G. destruct G as (Hclock & Hpos & Hg1 & Hc & Hg2 & Hg3 & Hg4).
  rewrite Hcs in Hc.
  rewrite (bind_Ok _ _ _ _ _ _ (encrypt_data_initialized _ _ _ _ Hc)).
  rewrite Hclock, Hpos.
  set (token := lib_encrypt _ _ _ _ _).
  set (file_path := path_join env _ _).
  set (s2 := set_entropy_pos _ s1).
  assert (Hs2 : same_globals (set_entropy_pos (fun p => (p + 16)%nat) s) s2).
  { subst s2. unfold same_globals. simpl.
    repeat split; try assumption; congruence. }
  assert (Hfail : forall e0 s0,
             (logger.log_error
                ("Failed to save screenshot to " ++ file_path ++ ": "
                 ++ exn_str e0) config true ;;; ret None) env s0
             <> (Ok (Some path), s')).
  { intros e0 s0.
    match goal with
    | |- context [logger.log_error ?msg config true] =>
        destruct (log_error_reports msg config true env s0) as (s3 & E & _)
    end.
    rewrite (bind_Ok _ _ _ _ _ _ E). discriminate. }
  destruct (write_file_result file_path token env s2) as [[e0 Ew]|[mode0 Ew]].
  { erewrite try_except_Raise
      by (rewrite (bind_Raise _ _ _ _ _ _ Ew); reflexivity).
    intros H. now apply Hfail in H. }
  set (s3 := set_fs _ s2) in Ew.
  assert (Hlook : fs s3 !! file_path = Some (File token mode0))
    by (subst s3; rewrite fs_set_fs; apply lookup_insert_eq).
  assert (Hs3 : same_globals (set_entropy_pos (fun p => (p + 16)%nat) s) s3)
    by (eapply same_globals_trans; [exact Hs2 | apply same_globals_set_fs]).
  destruct (os_name_posix (sys_platform env)).
  - destruct (os_chmod_file_result file_path 384 env s3 _ _ Hlook)
      as [[e0 Ec]|Ec].
    + erewrite try_except_Raise
        by (rewrite (bind_Ok _ _ _ _ _ _ Ew), (bind_Raise _ _ _ _ _ _ Ec);
            reflexivity).
      intros H. now apply Hfail in H.
    + erewrite try_except_Ok
        by (rewrite (bind_Ok _ _ _ _ _ _ Ew), (bind_Ok _ _ _ _ _ _ Ec);
            msimp; reflexivity).
      intros [= <- <-]. exists c, dirs, s1, 384.
      do 3 (split; [reflexivity|]).
      split; [simpl; now rewrite lookup_insert_eq|].
      split; [reflexivity|].
      eapply same_globals_trans; [exact Hs3|].
      eapply same_globals_trans;
        [apply same_globals_set_fs | apply same_globals_set_stdout].
  - erewrite try_except_Ok
      by (rewrite (bind_Ok _ _ _ _ _ _ Ew); msimp; reflexivity).
    intros [= <- <-]. exists c, dirs, s1, mode0.
    do 3 (split; [reflexivity|]).
    split; [exact Hlook|].
    split; [intros; discriminate|].
    eapply same_globals_trans; [exact Hs3 | apply same_globals_set_stdout].
Qed.

(** X8.  Where and how a screenshot is stored.  When [save_screenshot]
    returns a path on a POSIX system, the path is
    [<screenshots dir of the day>/<YYYYMMDD_HHMMSS>.png.enc] for the
    time of the call, and the file there holds the image encrypted by
    the logger's cipher, with mode [0o600]: no plain image is written
    and only the owner can read the file. *)
Theorem saved_screenshot_is_private env s config image path s' :
  os_name_posix (sys_platform env) = true ->
  logger.save_screenshot image config env s = (Ok (Some path), s') ->
  exists c dirs s1,
    logger_cipher_suite s = Some c
    /\ logger.ensure_daily_log_dir config env s = (Ok dirs, s1)
    /\ path = path_join env (snd dirs)
                (strftime_file (localtime env (clock s)) ++ ".png.enc")
    /\ fs s' !! path
       = Some (File (lib_encrypt (fernet_lib env) (fernet_key c)
                       (Qfloor (clock s))
                       (entropy_bytes env (entropy_pos s) 16) image) 384).
Proof.
  intros Hposix H.
  destruct (save_screenshot_Ok_inv _ _ _ _ _ _ H)
    as (c & dirs & s1 & mode & Hc & Ed & Hp & Hf & Hm & _).
  rewrite (Hm Hposix) in Hf. now exists c, dirs, s1.
Qed.

Lemma saved_screenshot_is_private_witness :
  let path :=
    "/var/lib/monitor/data/20260314/Screenshots/20260314_000000.png.enc" in
  let s' := snd (logger.save_screenshot "PNG" Ref.config Ref.env Ref.ready) in
  os_name_posix (sys_platform Ref.env) = true
  /\ logger.save_screenshot "PNG" Ref.config Ref.env Ref.ready
     = (Ok (Some path), s')
  /\ exists c dirs s1,
       logger_cipher_suite Ref.ready = Some c
       /\ logger.ensure_daily_log_dir Ref.config Ref.env Ref.ready
          = (Ok dirs, s1)
       /\ path = path_join Ref.env (snd dirs)
                   (strftime_file (localtime Ref.env (clock Ref.ready))
                    ++ ".png.enc")
       /\ fs s' !! path
          = Some (File (lib_encrypt (fernet_lib Ref.env) (fernet_key c)
                          (Qfloor (clock Ref.ready))
                          (entropy_bytes Ref.env (entropy_pos Ref.ready) 16)
                          "PNG") 384).
Proof.
  cbv zeta.
  assert (Hrun : logger.save_screenshot "PNG" Ref.config Ref.env Ref.ready
                 = (Ok (Some "/var/lib/monitor/data/20260314/Screenshots/20260314_000000.png.enc"),
                    snd (logger.save_screenshot "PNG" Ref.config Ref.env
                           Ref.ready)))
    by (vm_compute; reflexivity).
  split; [reflexivity|]. split; [exact Hrun|].
  exact (saved_screenshot_is_private Ref.env Ref.ready Ref.config "PNG" _ _
           eq_refl Hrun).
Defined.

Lemma write_file_run p data env s :
  faults env (OpWrite p) = None ->
  (forall mode, fs s !! p <> Some (Dir mode)) ->
  exists mode,
    write_file p data env s = (Ok tt, set_fs (insert p (File data mode)) s).
Proof.
  intros F Hd. unfold write_file. msimp. rewrite F.
  destruct (fs s !! p) as [[c m|m]|] eqn:Hp; msimp.
  - now exists m.
  - now destruct (Hd m).
  - now eexists.
Qed.

Lemma Fernet_decrypt_run c token env s :
  Fernet_decrypt c token env s
  = (match lib_decrypt (fernet_lib env) (fernet_key c) token with
     | Some data => Ok data
     | None => Raise InvalidToken
     end, s).
Proof.
  unfold Fernet_decrypt. msimp.
  now destruct (lib_decrypt (fernet_lib env) (fernet_key c) token).
Qed.

(** X9.  What [save_screenshot] stored, [decrypt_screenshot] gives
    back.  If a file holds an image encrypted under the logger's key,
    the key file holds that key, both can be read and the output path
    can be written, then [decrypt_screenshot] writes exactly the image
    to the output path, says so on the console, and changes nothing
    else (the library taken at its contract [FernetCorrect]). *)
Theorem decrypt_screenshot_recovers_image env s c image path key_file out :
  FernetCorrect (fernet_lib env) ->
  lib_key_ok (fernet_lib env) (fernet_key c) = true ->
  holds_encrypted env c image path s ->
  (exists mode, fs s !! key_file = Some (File (fernet_key c) mode)) ->
  faults env (OpRead key_file) = None ->
  faults env (OpRead path) = None ->
  faults env (OpWrite out) = None ->
  (forall mode, fs s !! out <> Some (Dir mode)) ->
  exists mode,
    logger.decrypt_screenshot path key_file out env s
    = (Ok tt,
       set_stdout
         (fun o => (o ++ [("Screenshot decrypted and saved to " ++ out)%string
                         ])%list)
         (set_fs (insert out (File image mode)) s)).
Proof.
  intros HL Hk (t & iv & m & Hiv & Henc) (mk & Hkey) Frk Frp Fw Hout.
  destruct (write_file_run out image env s Fw Hout) as (mode & Ew).
  exists mode. unfold logger.decrypt_screenshot. apply try_except_Ok.
  rewrite (bind_Ok _ _ _ _ _ _ (read_file_existing _ _ _ _ _ Hkey Frk)).
  pose proof (Fernet_new_run (fernet_key c) env s) as En. rewrite Hk in En.
  rewrite (bind_Ok _ _ _ _ _ _ En).
  rewrite (bind_Ok _ _ _ _ _ _ (read_file_existing _ _ _ _ _ Henc Frp)).
  pose proof (Fernet_decrypt_run {| fernet_key := fernet_key c |}
                (lib_encrypt (fernet_lib env) (fernet_key c) t iv image)
                env s) as Ed.
  simpl fernet_key in Ed. rewrite (lib_round_trip _ HL _ _ _ _ Hk Hiv) in Ed.
  rewrite (bind_Ok _ _ _ _ _ _ Ed), (bind_Ok _ _ _ _ _ _ Ew).
  reflexivity.
Qed.

(** End to end on the reference system: a screenshot is saved, then
    decrypted with the key file that [initialize_logger] wrote. *)
Lemma decrypt_screenshot_recovers_image_witness :
  let path :=
    "/var/lib/monitor/data/20260314/Screenshots/20260314_000000.png.enc" in
  let key_file := "/etc/monitor/encryption.key" in
  let out := "/tmp/shot.png" in
  let s := snd (logger.save_screenshot "PNG" Ref.config Ref.env Ref.ready) in
  FernetCorrect (fernet_lib Ref.env)
  /\ lib_key_ok (fernet_lib Ref.env) (fernet_key Ref.ready_cipher) = true
  /\ holds_encrypted Ref.env Ref.ready_cipher "PNG" path s
  /\ (exists mode,
        fs s !! key_file = Some (File (fernet_key Ref.ready_cipher) mode))
  /\ faults Ref.env (OpRead key_file) = None
  /\ faults Ref.env (OpRead path) = None
  /\ faults Ref.env (OpWrite out) = None
  /\ (forall mode, fs s !! out <> Some (Dir mode))
  /\ exists mode,
       logger.decrypt_screenshot path key_file out Ref.env s
       = (Ok tt,
          set_stdout
            (fun o => (o ++ [("Screenshot decrypted and saved to " ++ out)%string
                            ])%list)
            (set_fs (insert out (File "PNG" mode)) s)).
Proof.
  cbv zeta.
  set (s := snd (logger.save_screenshot "PNG" Ref.config Ref.env Ref.ready)).
  assert (Hk : lib_key_ok (fernet_lib Ref.env) (fernet_key Ref.ready_cipher)
               = true) by (vm_compute; reflexivity).
  assert (Henc : holds_encrypted Ref.env Ref.ready_cipher "PNG"
                   "/var/lib/monitor/data/20260314/Screenshots/20260314_000000.png.enc"
                   s).
  { exists 0, (entropy_bytes Ref.env 32 16), 384.
    split; vm_compute; reflexivity. }
  assert (Hkey : exists mode,
             fs s !! "/etc/monitor/encryption.key"
             = Some (File (fernet_key Ref.ready_cipher) mode))
    by (exists 420; vm_compute; reflexivity).
  assert (Hout : forall mode, fs s !! "/tmp/shot.png" <> Some (Dir mode)).
  { intros mode H. vm_compute in H. discriminate H. }
  split; [exact ref_fernet_correct|]. split; [exact Hk|].
  split; [exact Henc|]. split; [exact Hkey|].
  split; [reflexivity|]. split; [reflexivity|]. split; [reflexivity|].
  split; [exact Hout|].
  exact (decrypt_screenshot_recovers_image Ref.env s Ref.ready_cipher "PNG"
           _ _ _ ref_fernet_correct Hk Henc Hkey eq_refl eq_refl eq_refl Hout).
Defined.


(** X11.  [log_error] can be called from anywhere: whatever the state
    of the file system, it returns normally, touches nothing but files
    and the console, and the message has been reported: as the last
    line of an [error.log], after what the file held before, or, when
    that cannot be written, in a last-resort line on the console. *)
Theorem log_error_always_returns message config is_critical env s :
  exists s',
    logger.log_error message config is_critical env s = (Ok tt, s')
    /\ same_globals s s'
    /\ error_reported env message is_critical s'.
Proof.
  destruct (log_error_reports message config is_critical env s)
    as (s' & E & R).
  exists s'. split; [exact E|]. split; [|exact R].
  pose proof (io_only_log_error message config is_critical env s) as G.
  now rewrite E in G.
Qed.

(** X12.  The two entry points that the capture threads call never let
    an exception escape, whatever the store, the capturer or the file
    system do: the keyword callback [handle_keyword_log] and the
    screenshot action [take_screenshot_and_log] always return. *)
Theorem capture_entry_points_never_raise config :
  (forall keyword_data,
     never_raises (main.handle_keyword_log config keyword_data))
  /\ never_raises (screenshot_capture.take_screenshot_and_log config).
Proof.
  split.
  - intros keyword_data. unfold main.handle_keyword_log. monad_auto.
  - unfold screenshot_capture.take_screenshot_and_log. monad_auto.
Qed.

(** ** The scheduler: period and reaction to the stop event *)

Lemma keeps_clock_io_only {A} (m : M A) : io_only m -> keeps_clock m.
Proof. intros H env s. now destruct (H env s) as (Hc & _). Qed.

Lemma keeps_clock_ret {A} (a : A) : keeps_clock (ret a).
Proof. now intros env s. Qed.

Lemma keeps_clock_raise {A} e : keeps_clock (@raise A e).
Proof. now intros env s. Qed.

Lemma keeps_clock_bind {A B} (m : M A) (k : A -> M B) :
  keeps_clock m -> (forall a, keeps_clock (k a)) -> keeps_clock (bind m k).
Proof.
  intros Hm Hk env s. unfold bind. specialize (Hm env s).
  destruct (m env s) as [[a|e] s']; simpl in *; [|assumption].
  now rewrite Hk.
Qed.

Lemma keeps_clock_try_except {A} (m : M A) h :
  keeps_clock m -> (forall e, keeps_clock (h e)) ->
  keeps_clock (try_except m h).
Proof.
  intros Hm Hh env s. unfold try_except. specialize (Hm env s).
  destruct (m env s) as [[a|e] s']; simpl in *; [assumption|].
  now rewrite Hh.
Qed.

Lemma keeps_clock_set_entropy_pos f : keeps_clock (modify (set_entropy_pos f)).
Proof. now intros env s. Qed.

Lemma keeps_clock_set_screenshot_capturer_instance v :
  keeps_clock (modify (set_screenshot_capturer_instance v)).
Proof. now intros env s. Qed.

Ltac keeps_clock_auto :=
  repeat first
    [ apply keeps_clock_ret
    | apply keeps_clock_raise
    | apply keeps_clock_set_entropy_pos
    | apply keeps_clock_set_screenshot_capturer_instance
    | apply keeps_clock_io_only; solve [monad_auto]
    | apply keeps_clock_bind; [|intros ?]
    | apply keeps_clock_try_except; [|intros ?]
    | match goal with
      | |- keeps_clock (if ?b then _ else _) => destruct b
      | |- keeps_clock (match ?x with _ => _ end) => destruct x
      end ].

(** Taking and storing a screenshot takes no time on the model's clock. *)
Lemma keeps_clock_take_screenshot_and_log config :
  keeps_clock (screenshot_capture.take_screenshot_and_log config).
Proof.
  unfold screenshot_capture.take_screenshot_and_log,
    screenshot_capture._get_capturer_instance,
    screenshot_capture.capturer_new, screenshot_capture.capturer_capture,
    logger.save_screenshot, logger.encrypt_data, Fernet_encrypt, os_urandom.
  keeps_clock_auto.
Qed.

Lemma stop_after_le env c c' :
  (c <= c')%Q -> stop_after env c' -> stop_after env c.
Proof.
  unfold stop_after. destruct (stop_at env) as [t|]; [|auto].
  intros H1 H2. lra.
Qed.

(** The two answers of [stop_event.is_set()]. *)
Lemma stop_event_cases env s :
  (stop_after env (clock s) /\ stop_event_is_set env s = (Ok false, s))
  \/ (exists t, stop_at env = Some t /\ (t <= clock s)%Q
                /\ stop_event_is_set env s = (Ok true, s)).
Proof.
  unfold stop_after, stop_event_is_set. msimp.
  destruct (stop_at env) as [t|]; [|now left].
  destruct (Qle_bool t (clock s)) eqn:E.
  - right. exists t. apply Qle_bool_iff in E. auto.
  - left. split; [|reflexivity].
    apply Qnot_le_lt. intros H. apply Qle_bool_iff in H. congruence.
Qed.

Lemma inject_Z_chunks k :
  (inject_Z (5 * Z.of_nat (S k)) == 5 + inject_Z (5 * Z.of_nat k))%Q.
Proof.
  replace (5 * Z.of_nat (S k)) with (5 + 5 * Z.of_nat k) by lia.
  now rewrite inject_Z_plus.
Qed.

Lemma inject_Z_chunks_nonneg k : (0 <= inject_Z (5 * Z.of_nat k))%Q.
Proof.
  change 0%Q with (inject_Z 0). rewrite <- Zle_Qle. lia.
Qed.

(** The wait, whatever the stop event does: [k] chunks of five seconds
    at most; all of them when the stop event stays unset; none when it
    is set already; and when it is set on the way, the wait ends less
    than five seconds after it. *)
Lemma wait_in_chunks_outcome k env s :
  exists c,
    screenshot_capture.wait_in_chunks k env s
    = (Ok tt, set_clock (fun _ => c) s)
    /\ (clock s <= c)%Q
    /\ (c <= clock s + inject_Z (5 * Z.of_nat k))%Q
    /\ (stop_after env c -> (c == clock s + inject_Z (5 * Z.of_nat k))%Q)
    /\ (forall t, stop_at env = Some t ->
          ((t <= clock s)%Q -> (c == clock s)%Q)
          /\ ((clock s < t)%Q -> (c < t + 5)%Q)).
Proof.
  revert s. induction k as [|k IH]; intros s.
  - exists (clock s). change (inject_Z (5 * Z.of_nat 0)) with 0%Q.
    split; [now destruct s|]. repeat split; intros; lra.
  - cbn [screenshot_capture.wait_in_chunks].
    pose proof (inject_Z_chunks k) as Hk.
    pose proof (inject_Z_chunks_nonneg k) as Hk0.
    destruct (stop_event_cases env s) as [[Hq E]|(t & Ht & Hle & E)];
      rewrite (bind_Ok _ _ _ _ _ _ E); cbv iota.
    + unfold time_sleep, screenshot_capture.wait_chunk.
      change (Qle_bool 0 (py_to_Q (PyInt 5))) with true. cbv iota.
      rewrite bind_modify.
      set (s1 := set_clock _ s).
      assert (H1 : (clock s1 == clock s + 5)%Q).
      { subst s1. simpl clock. rewrite Qred_correct. reflexivity. }
      destruct (IH s1) as (c & Ew & Hlo & Hhi & Hfull & Hstop).
      exists c. split; [exact Ew|].
      split; [lra|]. split; [lra|]. split.
      * intros Hc. specialize (Hfull Hc). lra.
      * intros t Ht. destruct (Hstop t Ht) as [Hseen Hlate].
        unfold stop_after in Hq. rewrite Ht in Hq.
        split; [intros; lra|]. intros _.
        destruct (Qlt_le_dec (clock s1) t) as [Hlt|Hge].
        -- now apply Hlate.
        -- specialize (Hseen Hge). lra.
    + exists (clock s). split; [now destruct s|].
      split; [lra|]. split; [lra|]. split.
      * unfold stop_after. rewrite Ht. intros; lra.
      * intros t' Ht'. rewrite Ht in Ht'. injection Ht' as <-.
        split; intros; lra.
Qed.

Lemma stop_event_quiet env s :
  stop_after env (clock s) -> stop_event_is_set env s = (Ok false, s).
Proof.
  intros H. destruct (stop_event_cases env s) as [[_ E]|(t & Ht & Hle & _)];
    [exact E|].
  unfold stop_after in H. rewrite Ht in H. lra.
Qed.

Lemma stop_event_seen env s t :
  stop_at env = Some t -> (t <= clock s)%Q ->
  stop_event_is_set env s = (Ok true, s).
Proof.
  intros Ht Hle.
  destruct (stop_event_cases env s) as [[H _]|(t' & Ht' & _ & E)]; [|exact E].
  unfold stop_after in H. rewrite Ht in H. lra.
Qed.

Lemma minutes_in_chunks n :
  0 < n -> 5 * Z.of_nat (Z.to_nat (n * 60 / 5)) = 60 * n.
Proof.
  intros Hn. rewrite Z2Nat.id by (apply Z.div_pos; lia).
  replace (n * 60) with (n * 12 * 5) by lia. rewrite Z_div_mult; lia.
Qed.

(** A pass during which the stop event stays unset, for an interval of
    [n] minutes ([n] a positive int): the wait lasts [60 * n] seconds,
    then one tick is fired and the capture action runs, which takes no
    time; the pass stays in the loop. *)
Lemma scheduler_pass_quiet config n env s :
  0 < n -> stop_after env (clock s + inject_Z (60 * n)) ->
  exists s',
    screenshot_capture.scheduler_loop_body config (PyInt (n * 60)) env s
    = (Ok false, s')
    /\ ticks s' = S (ticks s)
    /\ (clock s' == clock s + inject_Z (60 * n))%Q.
Proof.
  intros Hn Hq.
  destruct (wait_in_chunks_outcome (Z.to_nat (n * 60 / 5)) env s)
    as (c & Ew & Hlo & Hhi & Hfull & _).
  rewrite (minutes_in_chunks n Hn) in Hhi, Hfull.
  assert (Hqc : stop_after env c) by (eapply stop_after_le; eassumption).
  specialize (Hfull Hqc).
  set (s1 := set_clock (fun _ => c) s) in *.
  assert (Hquiet : stop_event_is_set env s1 = (Ok false, s1))
    by (apply stop_event_quiet; exact Hqc).
  set (s2 := set_stdout (fun out => (out ++ [tick_line])%list) s1).
  destruct (take_screenshot_and_log_never_raises config env s2)
    as ([] & s' & Et).
  exists s'. split; [|split].
  - unfold screenshot_capture.scheduler_loop_body.
    apply try_except_Ok.
    unfold py_floordiv, py_mod.
    change (py_is_zero screenshot_capture.wait_chunk) with false. cbv iota.
    unfold screenshot_capture.wait_chunk. cbv iota. msimp.
    unfold py_range. msimp.
    rewrite (bind_Ok _ _ _ _ _ _ Ew).
    rewrite (bind_Ok _ _ _ _ _ _ Hquiet).
    cbn [negb]. cbv iota. msimp.
    replace (n * 60 mod 5) with 0
      by (symmetry; replace (n * 60) with (n * 12 * 5) by lia;
          apply Z_mod_mult).
    change (py_gt (PyInt 0) (PyInt 0)) with false. cbv iota. msimp.
    rewrite (bind_Ok _ _ _ _ _ _ Hquiet).
    cbv iota. msimp.
    fold tick_line. fold s2. rewrite (bind_Ok _ _ _ _ _ _ Et). reflexivity.
  - pose proof (no_tick_take_screenshot_and_log config env s2) as Hnt.
    rewrite Et in Hnt. simpl in Hnt. rewrite Hnt.
    unfold ticks. simpl. rewrite count_occ_app. simpl.
    destruct (string_dec tick_line tick_line); [lia | contradiction].
  - pose proof (keeps_clock_take_screenshot_and_log config env s2) as Hkc.
    rewrite Et in Hkc. simpl in Hkc. rewrite Hkc. exact Hfull.
Qed.

(** A pass during which the stop event is set: the pass leaves the loop
    less than five seconds after the event, and nothing but time has
    passed: no tick, no screenshot. *)
Lemma scheduler_pass_stopped config n t env s :
  0 < n -> stop_at env = Some t ->
  (clock s < t)%Q -> (t <= clock s + inject_Z (60 * n))%Q ->
  exists c,
    screenshot_capture.scheduler_loop_body config (PyInt (n * 60)) env s
    = (Ok true, set_clock (fun _ => c) s)
    /\ (t <= c)%Q /\ (c < t + 5)%Q.
Proof.
  intros Hn Ht Hlt Hle.
  destruct (wait_in_chunks_outcome (Z.to_nat (n * 60 / 5)) env s)
    as (c & Ew & Hlo & Hhi & Hfull & Hstop).
  rewrite (minutes_in_chunks n Hn) in Hhi, Hfull.
  destruct (Hstop t Ht) as [_ Hlate]. specialize (Hlate Hlt).
  assert (Htc : (t <= c)%Q).
  { destruct (Qlt_le_dec c t) as [Hct|Hct]; [|exact Hct].
    assert (Hqc : stop_after env c) by (unfold stop_after; now rewrite Ht).
    specialize (Hfull Hqc). lra. }
  set (s1 := set_clock (fun _ => c) s) in *.
  assert (Hseen : stop_event_is_set env s1 = (Ok true, s1))
    by (apply (stop_event_seen env s1 t Ht); exact Htc).
  exists c. split; [|split; assumption].
  unfold screenshot_capture.scheduler_loop_body.
  apply try_except_Ok.
  unfold py_floordiv, py_mod.
  change (py_is_zero screenshot_capture.wait_chunk) with false. cbv iota.
  unfold screenshot_capture.wait_chunk. cbv iota. msimp.
  unfold py_range. msimp.
  rewrite (bind_Ok _ _ _ _ _ _ Ew).
  rewrite (bind_Ok _ _ _ _ _ _ Hseen).
  cbn [negb]. cbv iota. msimp.
  rewrite (bind_Ok _ _ _ _ _ _ Hseen). reflexivity.
Qed.

Lemma inject_Z_intervals n j :
  (inject_Z (60 * n * Z.of_nat (S j))
   == inject_Z (60 * n) + inject_Z (60 * n * Z.of_nat j))%Q.
Proof.
  replace (60 * n * Z.of_nat (S j)) with (60 * n + 60 * n * Z.of_nat j)
    by lia.
  now rewrite inject_Z_plus.
Qed.

Lemma inject_Z_intervals_nonneg n j :
  0 < n -> (0 <= inject_Z (60 * n * Z.of_nat j))%Q.
Proof.
  intros Hn. change 0%Q with (inject_Z 0). rewrite <- Zle_Qle. lia.
Qed.

(** As long as the stop event stays unset, every pass of the loop lasts
    one interval and fires one tick. *)
Lemma scheduler_while_quiet config n env fuel :
  0 < n ->
  forall s,
    stop_after env (clock s + inject_Z (60 * n * Z.of_nat fuel)) ->
    exists s',
      screenshot_capture.scheduler_while fuel config (PyInt (n * 60)) env s
      = (Ok false, s')
      /\ ticks s' = (ticks s + fuel)%nat
      /\ (clock s' == clock s + inject_Z (60 * n * Z.of_nat fuel))%Q.
Proof.
  intros Hn. induction fuel as [|fuel IH]; intros s Hq.
  - exists s. split; [reflexivity|]. split; [lia|].
    replace (60 * n * Z.of_nat 0) with 0 by lia.
    change (inject_Z 0) with 0%Q. lra.
  - pose proof (inject_Z_intervals n fuel) as Hj.
    pose proof (inject_Z_intervals_nonneg n fuel Hn) as Hj0.
    assert (H60 : (0 <= inject_Z (60 * n))%Q)
      by (change 0%Q with (inject_Z 0); rewrite <- Zle_Qle; lia).
    cbn [screenshot_capture.scheduler_while].
    assert (Hq0 : stop_after env (clock s))
      by (eapply stop_after_le; [|exact Hq]; lra).
    rewrite (bind_Ok _ _ _ _ _ _ (stop_event_quiet env s Hq0)). cbv iota.
    assert (Hq1 : stop_after env (clock s + inject_Z (60 * n)))
      by (eapply stop_after_le; [|exact Hq]; lra).
    destruct (scheduler_pass_quiet config n env s Hn Hq1)
      as (s1 & Eb & Ht1 & Hc1).
    rewrite (bind_Ok _ _ _ _ _ _ Eb). cbv iota.
    assert (Hq2 : stop_after env
                    (clock s1 + inject_Z (60 * n * Z.of_nat fuel)))
      by (eapply stop_after_le; [|exact Hq]; lra).
    destruct (IH s1 Hq2) as (s' & E & Ht & Hc).
    exists s'. split; [exact E|]. split; [lia | lra].
Qed.

(** The loop up to the stop event: [j] whole intervals go by, each with
    its tick; the stop event is set during the next one, and the loop
    ends less than five seconds later. *)
Lemma scheduler_while_until_stopped config n t env :
  0 < n -> stop_at env = Some t ->
  forall j fuel s,
    (j < fuel)%nat ->
    (clock s + inject_Z (60 * n * Z.of_nat j) < t)%Q ->
    (t <= clock s + inject_Z (60 * n * Z.of_nat (S j)))%Q ->
    exists s',
      screenshot_capture.scheduler_while fuel config (PyInt (n * 60)) env s
      = (Ok true, s')
      /\ ticks s' = (ticks s + j)%nat
      /\ (t <= clock s')%Q /\ (clock s' < t + 5)%Q.
Proof.
  intros Hn Ht.
  assert (H60 : (0 <= inject_Z (60 * n))%Q)
    by (change 0%Q with (inject_Z 0); rewrite <- Zle_Qle; lia).
  induction j as [|j IH]; intros fuel s Hfuel Hlo Hhi;
    (destruct fuel as [|fuel]; [lia|]);
    cbn [screenshot_capture.scheduler_while].
  - replace (60 * n * Z.of_nat 0) with 0 in Hlo by lia.
    change (inject_Z 0) with 0%Q in Hlo.
    replace (60 * n * Z.of_nat 1) with (60 * n) in Hhi by lia.
    assert (Hq0 : stop_after env (clock s))
      by (unfold stop_after; rewrite Ht; lra).
    rewrite (bind_Ok _ _ _ _ _ _ (stop_event_quiet env s Hq0)). cbv iota.
    destruct (scheduler_pass_stopped config n t env s Hn Ht)
      as (c & Eb & Hc1 & Hc2); [lra | lra |].
    rewrite (bind_Ok _ _ _ _ _ _ Eb). cbv iota.
    eexists. split; [reflexivity|]. simpl clock.
    split; [unfold ticks; simpl; lia|]. split; assumption.
  - pose proof (inject_Z_intervals n j) as Hj.
    pose proof (inject_Z_intervals n (S j)) as Hj'.
    pose proof (inject_Z_intervals_nonneg n j Hn) as Hj0.
    assert (Hq0 : stop_after env (clock s))
      by (unfold stop_after; rewrite Ht; lra).
    rewrite (bind_Ok _ _ _ _ _ _ (stop_event_quiet env s Hq0)). cbv iota.
    assert (Hq1 : stop_after env (clock s + inject_Z (60 * n)))
      by (unfold stop_after; rewrite Ht; lra).
    destruct (scheduler_pass_quiet config n env s Hn Hq1)
      as (s1 & Eb & Ht1 & Hc1).
    rewrite (bind_Ok _ _ _ _ _ _ Eb). cbv iota.
    destruct (IH fuel s1) as (s' & E & Hts & Hc); [lia | lra | lra |].
    exists s'. split; [exact E|]. split; [lia|]. exact Hc.
Qed.

Lemma screenshot_scheduler_loop_int fuel n config env s :
  0 < n ->
  screenshot_capture._screenshot_scheduler_loop fuel
    (with_interval (PyInt n) config) env s
  = (finished <- screenshot_capture.scheduler_while fuel
                   (with_interval (PyInt n) config) (PyInt (n * 60)) ;;
     if finished then print "Screenshot scheduler stopped." ;;; ret true
     else ret false) env
      (set_stdout
         (fun out =>
            (out ++ [("Screenshot scheduler started. Interval: "
                      ++ py_str env (PyInt n) ++ " minutes.")%string])%list)
         s).
Proof.
  intros Hn. unfold screenshot_capture._screenshot_scheduler_loop.
  rewrite bind_ask. cbn [dict_get with_interval
                           cfg_screenshot_interval_minutes py_mul].
  replace (py_le (PyInt (n * 60)) (PyInt 0)) with false; [reflexivity|].
  symmetry. unfold py_le, Qle_bool. simpl. apply Z.leb_gt. lia.
Qed.

Lemma ticks_started_line env n s :
  ticks (set_stdout
           (fun out =>
              (out ++ [("Screenshot scheduler started. Interval: "
                        ++ py_str env (PyInt n) ++ " minutes.")%string])%list)
           s) = ticks s.
Proof.
  assert (Hne : ("Screenshot scheduler started. Interval: "
                 ++ py_str env (PyInt n) ++ " minutes.")%string <> tick_line).
  { unfold tick_line. intros H. cbn in H. discriminate H. }
  exact (no_tick_print _ Hne env s).
Qed.

(** X13.  One screenshot per interval.  With an interval of [n]
    minutes, [n] a positive int, and as long as the stop event is not
    set, every pass of the scheduler loop waits exactly [60 * n]
    seconds and then fires exactly one capture tick: after [fuel]
    passes the loop is still running, has fired [fuel] ticks, and
    [60 * n * fuel] seconds have gone by. *)
Theorem scheduler_takes_one_screenshot_per_interval fuel n config env s :
  0 < n ->
  stop_after env (clock s + inject_Z (60 * n * Z.of_nat fuel)) ->
  exists s',
    screenshot_capture._screenshot_scheduler_loop fuel
      (with_interval (PyInt n) config) env s
    = (Ok false, s')
    /\ ticks s' = (ticks s + fuel)%nat
    /\ (clock s' == clock s + inject_Z (60 * n * Z.of_nat fuel))%Q.
Proof.
  intros Hn Hq. rewrite (screenshot_scheduler_loop_int fuel n config env s Hn).
  match goal with
  | |- context [bind _ _ env ?s0] =>
      destruct (scheduler_while_quiet (with_interval (PyInt n) config)
                  n env fuel Hn s0 Hq) as (s' & E & Ht & Hc)
  end.
  rewrite (bind_Ok _ _ _ _ _ _ E). cbv iota.
  exists s'. split; [reflexivity|].
  rewrite ticks_started_line in Ht. split; [exact Ht | exact Hc].
Qed.

Lemma scheduler_takes_one_screenshot_per_interval_witness :
  0 < 1
  /\ stop_after Ref.env (clock Ref.ready + inject_Z (60 * 1 * Z.of_nat 2))
  /\ exists s',
       screenshot_capture._screenshot_scheduler_loop 2
         (with_interval (PyInt 1) Ref.config) Ref.env Ref.ready
       = (Ok false, s')
       /\ ticks s' = (ticks Ref.ready + 2)%nat
       /\ (clock s' == clock Ref.ready + inject_Z (60 * 1 * Z.of_nat 2))%Q.
Proof.
  split; [lia|]. split; [exact I|].
  apply (scheduler_takes_one_screenshot_per_interval 2 1 Ref.config Ref.env
           Ref.ready); [lia | exact I].
Defined.

(** X14.  The stop event is honoured within five seconds, and no
    screenshot is taken after it.  With an interval of [n] minutes,
    [n] a positive int, let the stop event be set at time [t] during
    the pass that follows [j] whole intervals.  Then the scheduler loop
    ends (it needs no more than [j + 1] passes), it has fired exactly
    [j] ticks, one per whole interval, and it ends at a time in
    [[t, t + 5)]: the wait is cut short at the next five-second
    check. *)
Theorem scheduler_stops_within_five_seconds fuel n t j config env s :
  0 < n -> stop_at env = Some t -> (j < fuel)%nat ->
  (clock s + inject_Z (60 * n * Z.of_nat j) < t)%Q ->
  (t <= clock s + inject_Z (60 * n * Z.of_nat (S j)))%Q ->
  exists s',
    screenshot_capture._screenshot_scheduler_loop fuel
      (with_interval (PyInt n) config) env s
    = (Ok true, s')
    /\ ticks s' = (ticks s + j)%nat
    /\ (t <= clock s')%Q /\ (clock s' < t + 5)%Q.
Proof.
  intros Hn Ht Hfuel Hlo Hhi.
  rewrite (screenshot_scheduler_loop_int fuel n config env s Hn).
  match goal with
  | |- context [bind _ _ env ?s0] =>
      destruct (scheduler_while_until_stopped
                  (with_interval (PyInt n) config) n t env Hn Ht
                  j fuel s0 Hfuel Hlo Hhi) as (s' & E & Hts & Hc1 & Hc2)
  end.
  rewrite (bind_Ok _ _ _ _ _ _ E). cbv iota.
  eexists. split; [reflexivity|]. simpl clock.
  split; [|split; assumption].
  rewrite ticks_started_line in Hts. rewrite <- Hts.
  assert (Hne : "Screenshot scheduler stopped." <> tick_line).
  { unfold tick_line. intros H. cbn in H. discriminate H. }
  exact (no_tick_print _ Hne env s').
Qed.

Lemma scheduler_stops_within_five_seconds_witness :
  let env := Ref.with_stop_at (Some 92%Q) Ref.env in
  0 < 1
  /\ stop_at env = Some 92%Q
  /\ (1 < 3)%nat
  /\ (clock Ref.ready + inject_Z (60 * 1 * Z.of_nat 1) < 92)%Q
  /\ (92 <= clock Ref.ready + inject_Z (60 * 1 * Z.of_nat 2))%Q
  /\ exists s',
       screenshot_capture._screenshot_scheduler_loop 3
         (with_interval (PyInt 1) Ref.config) env Ref.ready
       = (Ok true, s')
       /\ ticks s' = (ticks Ref.ready + 1)%nat
       /\ (92 <= clock s')%Q /\ (clock s' < 92 + 5)%Q.
Proof.
  cbv zeta.
  assert (Hlo : (clock Ref.ready + inject_Z (60 * 1 * Z.of_nat 1) < 92)%Q)
    by (vm_compute; reflexivity).
  assert (Hhi : (92 <= clock Ref.ready + inject_Z (60 * 1 * Z.of_nat 2))%Q)
    by (vm_compute; discriminate).
  split; [lia|]. split; [reflexivity|]. split; [lia|].
  split; [exact Hlo|]. split; [exact Hhi|].
  apply (scheduler_stops_within_five_seconds 3 1 92%Q 1 Ref.config
           (Ref.with_stop_at (Some 92%Q) Ref.env) Ref.ready);
    [lia | reflexivity | lia | exact Hlo | exact Hhi].
Defined.

(** ** Keystroke capture: from the buffer to words *)

Lemma string_app_cons c (a b : string) : String c a ++ b = String c (a ++ b).
Proof. reflexivity. Qed.

Lemma string_app_nil_l (b : string) : "" ++ b = b.
Proof. reflexivity. Qed.

Lemma string_app_nil_r (a : string) : a ++ "" = a.
Proof.
  induction a as [|c a IH]; [reflexivity|].
  now rewrite string_app_cons, IH.
Qed.

Lemma string_app_assoc (a b c : string) : (a ++ b) ++ c = a ++ (b ++ c).
Proof.
  induction a as [|x a IH]; [reflexivity|].
  now rewrite !string_app_cons, IH.
Qed.

Lemma re_split_spaces_cons isspace s :
  exists t rest, re_split_spaces isspace s = t :: rest.
Proof.
  induction s as [|c s (t & rest & IH)]; simpl; [now eexists _, _|].
  rewrite IH. destruct (isspace c); [|now eexists _, _].
  destruct t; [destruct rest|]; now eexists _, _.
Qed.

Lemma re_split_spaces_no_space isspace w :
  no_space isspace w = true -> re_split_spaces isspace w = [w].
Proof.
  unfold no_space. induction w as [|c w IH]; simpl; [reflexivity|].
  intros H. apply andb_prop in H as [Hc Hw]. rewrite (IH Hw).
  apply negb_true_iff in Hc. now rewrite Hc.
Qed.

Lemma re_split_spaces_word isspace w r t rest :
  no_space isspace w = true ->
  re_split_spaces isspace r = t :: rest ->
  re_split_spaces isspace (w ++ r) = (w ++ t) :: rest.
Proof.
  unfold no_space. intros Hw Hr. induction w as [|c w IH];
    [exact Hr|].
  simpl in Hw. apply andb_prop in Hw as [Hc Hw].
  rewrite !string_app_cons. cbn [re_split_spaces]. rewrite (IH Hw).
  apply negb_true_iff in Hc. now rewrite Hc.
Qed.

Lemma re_split_spaces_starts isspace r :
  starts_nonspace isspace r = true ->
  exists t rest,
    re_split_spaces isspace r = t :: rest /\ (t <> "" \/ rest = []).
Proof.
  destruct r as [|c r]; simpl; intros H.
  - exists "", []. auto.
  - destruct (re_split_spaces_cons isspace r) as (t & rest & E). rewrite E.
    apply negb_true_iff in H. rewrite H.
    exists (String c t), rest. split; [reflexivity|]. now left.
Qed.

Lemma re_split_spaces_run isspace sep r :
  str_isspace isspace sep = true ->
  starts_nonspace isspace r = true ->
  re_split_spaces isspace (sep ++ r) = "" :: sep :: re_split_spaces isspace r.
Proof.
  unfold str_isspace. intros Hsep Hr.
  destruct sep as [|c sep]; [discriminate|]. simpl in Hsep.
  revert c Hsep. induction sep as [|d sep IH]; intros c Hsep;
    apply andb_prop in Hsep as [Hc Hsep];
    rewrite string_app_cons; cbn [re_split_spaces].
  - rewrite string_app_nil_l.
    destruct (re_split_spaces_starts isspace r Hr)
      as (t & rest & E & Ht).
    rewrite E, Hc. destruct t; [|reflexivity].
    destruct Ht as [Ht| ->]; [contradiction | reflexivity].
  - rewrite (IH d Hsep). now rewrite Hc.
Qed.

Lemma is_word_inv isspace w :
  is_word isspace w = true ->
  no_space isspace w = true
  /\ str_truthy w = true
  /\ str_isspace isspace w = false
  /\ forall r, starts_nonspace isspace (w ++ r) = true.
Proof.
  unfold is_word, str_isspace, no_space. intros H.
  apply andb_prop in H as [Ht Hn]. destruct w as [|c w]; [discriminate|].
  simpl in Hn. pose proof Hn as Hn'. apply andb_prop in Hn' as [Hc _].
  split; [exact Hn|]. split; [reflexivity|].
  split; [|intros r; rewrite string_app_cons; exact Hc].
  simpl. apply negb_true_iff in Hc. now rewrite Hc.
Qed.

Lemma typed_text_starts isspace ws tail :
  typed_ok isspace ws = true -> no_space isspace tail = true ->
  starts_nonspace isspace (typed_text ws ++ tail) = true.
Proof.
  intros Hws Htail. destruct ws as [|[w sep] ws]; cbn [typed_text].
  - rewrite string_app_nil_l.
    unfold no_space in Htail. destruct tail as [|c tail]; [reflexivity|].
    simpl in Htail. now apply andb_prop in Htail as [Hc _].
  - simpl in Hws.
    apply andb_prop in Hws as [Hw _]. apply andb_prop in Hw as [Hw _].
    rewrite string_app_assoc.
    now destruct (is_word_inv _ _ Hw) as (_ & _ & _ & H).
Qed.

(** The loop of [process_buffer] on what was typed: one call of
    [submit_word] for each word that is followed by whitespace, in
    order; what follows the last whitespace is left as the current
    word. *)
Lemma process_parts_typed isspace submit ws tail :
  typed_ok isspace ws = true -> no_space isspace tail = true ->
  forall env s,
    process_parts isspace submit
      (re_split_spaces isspace (typed_text ws ++ tail)) "" env s
    = (for_each submit (map fst ws) ;;; ret tail) env s.
Proof.
  intros Hws Htail. induction ws as [|[w sep] ws IH]; intros env s.
  - cbn [typed_text]. rewrite string_app_nil_l.
    rewrite (re_split_spaces_no_space _ _ Htail).
    destruct tail as [|c tail]; [reflexivity|].
    unfold no_space in Htail. simpl in Htail.
    apply andb_prop in Htail as [Hc _]. apply negb_true_iff in Hc.
    cbn [process_parts str_truthy String.eqb negb].
    unfold str_isspace. simpl. rewrite Hc. reflexivity.
  - simpl in Hws. apply andb_prop in Hws as [Hw Hws].
    apply andb_prop in Hw as [Hw Hsep].
    destruct (is_word_inv _ _ Hw) as (Hwn & Hwt & Hwsp & _).
    pose proof Hsep as Hsept. unfold str_isspace in Hsept.
    apply andb_prop in Hsept as [Hsept _].
    cbn [typed_text]. rewrite !string_app_assoc.
    rewrite (re_split_spaces_word isspace w _ "" _ Hwn
               (re_split_spaces_run isspace sep _ Hsep
                  (typed_text_starts isspace ws tail Hws Htail))).
    rewrite string_app_nil_r.
    cbn [process_parts map fst for_each].
    rewrite Hwt, Hwsp, Hsept, Hsep. cbn [negb].
    rewrite string_app_nil_l, Hwt. rewrite !bind_bind.
    unfold bind at 1 3.
    destruct (submit w env s) as [[[]|e] s1]; [|reflexivity].
    rewrite bind_ret. apply (IH Hws).
Qed.

Lemma process_parts_lead isspace submit lead ws tail :
  (lead = "" \/ str_isspace isspace lead = true) ->
  typed_ok isspace ws = true -> no_space isspace tail = true ->
  forall env s,
    process_parts isspace submit
      (re_split_spaces isspace (lead ++ typed_text ws ++ tail)) "" env s
    = (for_each submit (map fst ws) ;;; ret tail) env s.
Proof.
  intros [->|Hlead] Hws Htail env s.
  - rewrite string_app_nil_l. now apply process_parts_typed.
  - rewrite (re_split_spaces_run isspace lead _ Hlead
               (typed_text_starts isspace ws tail Hws Htail)).
    pose proof Hlead as Ht. unfold str_isspace in Ht.
    apply andb_prop in Ht as [Ht _].
    cbn [process_parts str_truthy String.eqb negb].
    rewrite Ht, Hlead. cbn [negb]. rewrite bind_ret.
    now apply process_parts_typed.
Qed.

Lemma bind_ext {A B} (m m' : M A) (k : A -> M B) env s :
  m env s = m' env s -> bind m k env s = bind m' k env s.
Proof. intros H. unfold bind. now rewrite H. Qed.

Lemma bind_ret_r {A} (m : M A) env s : bind m (fun a => ret a) env s = m env s.
Proof. unfold bind. now destruct (m env s) as [[a|e] s']. Qed.

Lemma bind_ext_r {A B} (m : M A) (k k' : A -> M B) env s :
  (forall a s', k a env s' = k' a env s') ->
  bind m k env s = bind m k' env s.
Proof. intros H. unfold bind. destruct (m env s) as [[a|e] s']; auto. Qed.

Lemma windows_process_buffer_typed env self lead ws tail force_flush s :
  (lead = "" \/ str_isspace (chr_isspace env) lead = true) ->
  typed_ok (chr_isspace env) ws = true ->
  no_space (chr_isspace env) tail = true ->
  keystroke_windows.process_buffer self (lead ++ typed_text ws ++ tail)
    force_flush env s
  = (for_each (keystroke_windows.submit_word self) (map fst ws) ;;;
     if force_flush && str_truthy tail then
       keystroke_windows.submit_word self tail ;;; ret ""
     else ret tail) env s.
Proof.
  intros Hlead Hws Htail. unfold keystroke_windows.process_buffer.
  rewrite bind_ask. cbv zeta.
  erewrite bind_ext by (apply process_parts_lead; assumption).
  rewrite bind_bind. apply bind_ext_r. intros [] s1.
  rewrite bind_ret. now destruct tail, force_flush.
Qed.

Lemma linux_process_buffer_typed env self lead ws tail force_flush s :
  (lead = "" \/ str_isspace (chr_isspace env) lead = true) ->
  typed_ok (chr_isspace env) ws = true ->
  no_space (chr_isspace env) tail = true ->
  keystroke_linux.process_buffer self (lead ++ typed_text ws ++ tail)
    force_flush env s
  = (for_each (keystroke_linux.submit_word self) (map fst ws) ;;;
     if force_flush && str_truthy tail then
       keystroke_linux.submit_word self tail ;;; ret ""
     else ret tail) env s.
Proof.
  intros Hlead Hws Htail. unfold keystroke_linux.process_buffer.
  rewrite bind_ask. cbv zeta.
  erewrite bind_ext by (apply process_parts_lead; assumption).
  rewrite bind_bind. apply bind_ext_r. intros [] s1.
  rewrite bind_ret. now destruct tail, force_flush.
Qed.

(** X15.  Segmentation.  Let the buffer hold, after optional leading
    whitespace, words that are each followed by a run of whitespace,
    and then a last piece without whitespace (possibly empty).  On both
    platforms [process_buffer] hands each of the words to [submit_word]
    exactly once, in the order typed, and nothing else; the last piece
    is handed over too when the flush is forced (and the buffer ends
    empty), and stays in the buffer otherwise. *)
Theorem process_buffer_emits_each_word env self lead ws tail force_flush s :
  (lead = "" \/ str_isspace (chr_isspace env) lead = true) ->
  typed_ok (chr_isspace env) ws = true ->
  no_space (chr_isspace env) tail = true ->
  let buffer := lead ++ typed_text ws ++ tail in
  keystroke_windows.process_buffer self buffer force_flush env s
  = (for_each (keystroke_windows.submit_word self) (map fst ws) ;;;
     if force_flush && str_truthy tail then
       keystroke_windows.submit_word self tail ;;; ret ""
     else ret tail) env s
  /\ keystroke_linux.process_buffer self buffer force_flush env s
     = (for_each (keystroke_linux.submit_word self) (map fst ws) ;;;
        if force_flush && str_truthy tail then
          keystroke_linux.submit_word self tail ;;; ret ""
        else ret tail) env s.
Proof.
  intros Hlead Hws Htail. cbv zeta. split.
  - now apply windows_process_buffer_typed.
  - now apply linux_process_buffer_typed.
Qed.

Lemma process_buffer_emits_each_word_witness :
  let self := KeyCapture_new Ref.env (with_filters [] [] Ref.config)
                trace_callback in
  let ws := [("hello", " "); ("world", "  ")] in
  let s := Ref.boot ∅ in
  (" " = "" \/ str_isspace (chr_isspace Ref.env) " " = true)
  /\ typed_ok (chr_isspace Ref.env) ws = true
  /\ no_space (chr_isspace Ref.env) "par" = true
  /\ keystroke_windows.process_buffer self (" " ++ typed_text ws ++ "par")
       false Ref.env s
     = (for_each (keystroke_windows.submit_word self) (map fst ws) ;;;
        if false && str_truthy "par" then
          keystroke_windows.submit_word self "par" ;;; ret ""
        else ret "par") Ref.env s
  /\ stdout (snd (keystroke_windows.process_buffer self
                    (" " ++ typed_text ws ++ "par") false Ref.env s))
     = ["chrome: hello"; "chrome: world"].
Proof.
  cbv zeta.
  assert (H1 : " " = "" \/ str_isspace (chr_isspace Ref.env) " " = true)
    by (right; reflexivity).
  split; [exact H1|]. split; [reflexivity|]. split; [reflexivity|].
  split; [|vm_compute; reflexivity].
  exact (proj1 (process_buffer_emits_each_word Ref.env
                  (KeyCapture_new Ref.env (with_filters [] [] Ref.config)
                     trace_callback)
                  " " [("hello", " "); ("world", "  ")] "par" false
                  (Ref.boot ∅) H1 eq_refl eq_refl)).
Defined.

Lemma windows_press_chars self chars keys st env s :
  exists t,
    press_all (keystroke_windows.on_press self) (map KeyChar chars ++ keys)
      st env s
    = press_all (keystroke_windows.on_press self) keys
        {| cs_buffer := cs_buffer st ++ typed_chars chars;
           cs_last_activity_time := t |} env s.
Proof.
  revert st. induction chars as [|c chars IH]; intros st.
  - exists (cs_last_activity_time st). cbn [map app typed_chars fold_right].
    rewrite string_app_nil_r. now destruct st.
  - cbn [map app press_all].
    assert (E : keystroke_windows.on_press self st (KeyChar c) env s
                = (Ok {| cs_buffer := cs_buffer st ++ c;
                         cs_last_activity_time := clock s |}, s))
      by reflexivity.
    rewrite (bind_Ok _ _ _ _ _ _ E).
    destruct (IH {| cs_buffer := cs_buffer st ++ c;
                    cs_last_activity_time := clock s |}) as (t & Et).
    exists t. rewrite Et. cbn [cs_buffer typed_chars fold_right].
    now rewrite string_app_assoc.
Qed.

Lemma linux_press_chars self chars keys st env s :
  exists t,
    press_all (keystroke_linux.on_press self) (map KeyChar chars ++ keys)
      st env s
    = press_all (keystroke_linux.on_press self) keys
        {| cs_buffer := cs_buffer st ++ typed_chars chars;
           cs_last_activity_time := t |} env s.
Proof.
  revert st. induction chars as [|c chars IH]; intros st.
  - exists (cs_last_activity_time st). cbn [map app typed_chars fold_right].
    rewrite string_app_nil_r. now destruct st.
  - cbn [map app press_all].
    assert (E : keystroke_linux.on_press self st (KeyChar c) env s
                = (Ok {| cs_buffer := cs_buffer st ++ c;
                         cs_last_activity_time := clock s |}, s))
      by reflexivity.
    rewrite (bind_Ok _ _ _ _ _ _ E).
    destruct (IH {| cs_buffer := cs_buffer st ++ c;
                    cs_last_activity_time := clock s |}) as (t & Et).
    exists t. rewrite Et. cbn [cs_buffer typed_chars fold_right].
    now rewrite string_app_assoc.
Qed.

Lemma word_then_space_typed (word : string) :
  word ++ " " = "" ++ typed_text [(word, " ")] ++ "".
Proof.
  cbn [typed_text]. now rewrite string_app_nil_l, !string_app_nil_r.
Qed.

Lemma word_alone_typed (word : string) : word = "" ++ typed_text [] ++ word.
Proof. reflexivity. Qed.

Lemma typed_ok_word_space env word :
  is_word (chr_isspace env) word = true ->
  chr_isspace env " "%char = true ->
  typed_ok (chr_isspace env) [(word, " ")] = true.
Proof.
  intros Hw Hsp. cbn [typed_ok forallb fst snd]. rewrite Hw.
  unfold str_isspace. simpl. now rewrite Hsp.
Qed.

Lemma windows_press_delimiter env self word delimiter t s :
  is_word (chr_isspace env) word = true ->
  chr_isspace env " "%char = true ->
  is_delimiter delimiter = true ->
  keystroke_windows.on_press self
    {| cs_buffer := word; cs_last_activity_time := t |} delimiter env s
  = try_except
      (keystroke_windows.submit_word self word ;;;
       ret {| cs_buffer := ""; cs_last_activity_time := clock s |})
      (fun e =>
         print ("Error in on_press: " ++ exn_str e) ;;;
         ret {| cs_buffer := buffer_at delimiter word;
                cs_last_activity_time := clock s |}) env s.
Proof.
  intros Hw Hsp Hd.
  destruct (is_word_inv _ _ Hw) as (Hn & Ht & _).
  assert (Hspace :
            keystroke_windows.process_buffer self (word ++ " ") false env s
            = (keystroke_windows.submit_word self word ;;; ret "") env s).
  { rewrite (word_then_space_typed word).
    rewrite windows_process_buffer_typed;
      [| now left | now apply typed_ok_word_space | reflexivity].
    cbn [map fst for_each andb]. rewrite bind_bind.
    apply bind_ext_r. now intros [] s1. }
  assert (Hflush :
            keystroke_windows.process_buffer self word true env s
            = (keystroke_windows.submit_word self word ;;; ret "") env s).
  { rewrite (word_alone_typed word) at 1.
    rewrite windows_process_buffer_typed;
      [| now left | reflexivity | exact Hn].
    cbn [map fst for_each andb]. rewrite Ht. now rewrite bind_ret. }
  destruct delimiter; try discriminate;
    unfold keystroke_windows.on_press; rewrite bind_get; cbv zeta;
    cbn [cs_buffer buffer_at]; unfold try_except;
    [rewrite (bind_ext _ _ _ _ _ Hspace)
    |rewrite (bind_ext _ _ _ _ _ Hflush)
    |rewrite (bind_ext _ _ _ _ _ Hflush)];
    rewrite bind_bind; unfold bind;
    destruct (keystroke_windows.submit_word self word env s)
      as [[[]|e] s1]; reflexivity.
Qed.

Lemma linux_press_delimiter env self word delimiter t s :
  is_word (chr_isspace env) word = true ->
  chr_isspace env " "%char = true ->
  is_delimiter delimiter = true ->
  keystroke_linux.on_press self
    {| cs_buffer := word; cs_last_activity_time := t |} delimiter env s
  = try_except
      (keystroke_linux.submit_word self word ;;;
       ret {| cs_buffer := ""; cs_last_activity_time := clock s |})
      (fun e =>
         print ("Error in on_press (Linux): " ++ exn_str e) ;;;
         ret {| cs_buffer := buffer_at delimiter word;
                cs_last_activity_time := clock s |}) env s.
Proof.
  intros Hw Hsp Hd.
  destruct (is_word_inv _ _ Hw) as (Hn & Ht & _).
  assert (Hspace :
            keystroke_linux.process_buffer self (word ++ " ") false env s
            = (keystroke_linux.submit_word self word ;;; ret "") env s).
  { rewrite (word_then_space_typed word).
    rewrite linux_process_buffer_typed;
      [| now left | now apply typed_ok_word_space | reflexivity].
    cbn [map fst for_each andb]. rewrite bind_bind.
    apply bind_ext_r. now intros [] s1. }
  assert (Hflush :
            keystroke_linux.process_buffer self word true env s
            = (keystroke_linux.submit_word self word ;;; ret "") env s).
  { rewrite (word_alone_typed word) at 1.
    rewrite linux_process_buffer_typed;
      [| now left | reflexivity | exact Hn].
    cbn [map fst for_each andb]. rewrite Ht. now rewrite bind_ret. }
  destruct delimiter; try discriminate;
    unfold keystroke_linux.on_press; rewrite bind_get; cbv zeta;
    cbn [cs_buffer buffer_at]; unfold try_except;
    [rewrite (bind_ext _ _ _ _ _ Hspace)
    |rewrite (bind_ext _ _ _ _ _ Hflush)
    |rewrite (bind_ext _ _ _ _ _ Hflush)];
    rewrite bind_bind; unfold bind;
    destruct (keystroke_linux.submit_word self word env s)
      as [[[]|e] s1]; reflexivity.
Qed.

(** X16.  A typed word is submitted once.  Starting from an empty
    buffer, the keys of a word (one or more characters, none of them
    whitespace) followed by space, enter or tab make [on_press] call
    [submit_word] exactly once, with exactly that word, and leave the
    buffer empty; only if that call raises is the error printed and
    the text kept in the buffer.  The same on both platforms. *)
Theorem typed_word_is_submitted_once env self st chars delimiter s :
  let word := typed_chars chars in
  cs_buffer st = "" ->
  is_word (chr_isspace env) word = true ->
  chr_isspace env " "%char = true ->
  is_delimiter delimiter = true ->
  press_all (keystroke_windows.on_press self)
    (map KeyChar chars ++ [delimiter]) st env s
  = try_except
      (keystroke_windows.submit_word self word ;;;
       ret {| cs_buffer := ""; cs_last_activity_time := clock s |})
      (fun e =>
         print ("Error in on_press: " ++ exn_str e) ;;;
         ret {| cs_buffer := buffer_at delimiter word;
                cs_last_activity_time := clock s |}) env s
  /\ press_all (keystroke_linux.on_press self)
       (map KeyChar chars ++ [delimiter]) st env s
     = try_except
         (keystroke_linux.submit_word self word ;;;
          ret {| cs_buffer := ""; cs_last_activity_time := clock s |})
         (fun e =>
            print ("Error in on_press (Linux): " ++ exn_str e) ;;;
            ret {| cs_buffer := buffer_at delimiter word;
                   cs_last_activity_time := clock s |}) env s.
Proof.
  cbv zeta. intros Hb Hw Hsp Hd. split.
  - destruct (windows_press_chars self chars [delimiter] st env s)
      as (t & ->).
    rewrite Hb, string_app_nil_l. cbn [press_all]. rewrite bind_ret_r.
    now apply windows_press_delimiter.
  - destruct (linux_press_chars self chars [delimiter] st env s)
      as (t & ->).
    rewrite Hb, string_app_nil_l. cbn [press_all]. rewrite bind_ret_r.
    now apply linux_press_delimiter.
Qed.

Lemma typed_word_is_submitted_once_witness :
  let self := KeyCapture_new Ref.env (with_filters [] [] Ref.config)
                trace_callback in
  let st := {| cs_buffer := ""; cs_last_activity_time := 0 |} in
  let s := Ref.boot ∅ in
  cs_buffer st = ""
  /\ is_word (chr_isspace Ref.env) (typed_chars ["h"; "i"]) = true
  /\ chr_isspace Ref.env " "%char = true
  /\ is_delimiter KeySpace = true
  /\ press_all (keystroke_linux.on_press self)
       (map KeyChar ["h"; "i"] ++ [KeySpace]) st Ref.env s
     = try_except
         (keystroke_linux.submit_word self (typed_chars ["h"; "i"]) ;;;
          ret {| cs_buffer := ""; cs_last_activity_time := clock s |})
         (fun e =>
            print ("Error in on_press (Linux): " ++ exn_str e) ;;;
            ret {| cs_buffer := buffer_at KeySpace (typed_chars ["h"; "i"]);
                   cs_last_activity_time := clock s |}) Ref.env s
  /\ stdout (snd (press_all (keystroke_linux.on_press self)
                    (map KeyChar ["h"; "i"] ++ [KeySpace]) st Ref.env s))
     = ["chrome: hi"].
Proof.
  cbv zeta.
  split; [reflexivity|]. split; [reflexivity|]. split; [reflexivity|].
  split; [reflexivity|]. split; [|vm_compute; reflexivity].
  exact (proj2 (typed_word_is_submitted_once Ref.env
                  (KeyCapture_new Ref.env (with_filters [] [] Ref.config)
                     trace_callback)
                  {| cs_buffer := ""; cs_last_activity_time := 0 |}
                  ["h"; "i"] KeySpace (Ref.boot ∅)
                  eq_refl eq_refl eq_refl eq_refl)).
Defined.

(** ** main.py: starting the services *)

Lemma never_raises_start_screenshot_scheduler fuel config :
  never_raises (screenshot_capture.start_screenshot_scheduler fuel config).
Proof.
  unfold screenshot_capture.start_screenshot_scheduler.
  apply never_raises_bind.
  - apply never_raises_try_except. intros e.
    destruct (is_NotImplementedError e); monad_auto.
  - intros [|]; [|monad_auto].
    apply never_raises_bind;
      [apply never_raises_screenshot_scheduler_loop | monad_auto].
Qed.

(** X17.  [start_monitoring_services] always reports success.  Whatever
    starting the keystroke capture does (also when it raises), and
    whatever the platform and the capturer are, the call returns with
    [monitoring_active = True] and logs "Monitoring services started.":
    [start_screenshot_scheduler] returns normally also when it has
    refused to start a scheduler, so [screenshot_started] is always set,
    and the branch "No monitoring services could be started." is never
    taken.  (The interpreter is taken to start the scheduler thread when
    asked to, as in the model of [start_screenshot_scheduler].) *)
Theorem monitoring_is_always_reported_active
    ks_start_capture fuel config env s :
  exists s',
    main.start_monitoring_services ks_start_capture fuel config env s
    = (Ok true, s')
    /\ error_reported env "Monitoring services started." false s'.
Proof.
  unfold main.start_monitoring_services. rewrite bind_print.
  match goal with
  | |- context [bind (try_except ?m ?h) _ env ?s0] =>
      assert (Hh : forall e, never_raises (h e))
        by (intros e; destruct (is_NotImplementedError e); monad_auto);
      destruct (never_raises_try_except m h Hh env s0)
        as (keystroke_started & s1 & E1)
  end.
  rewrite (bind_Ok _ _ _ _ _ _ E1). clear Hh E1.
  destruct (never_raises_start_screenshot_scheduler fuel config env s1)
    as (started & s2 & E2).
  match goal with
  | |- context [bind (try_except ?m ?h) _ env s1] =>
      assert (E3 : try_except m h env s1
                   = (Ok true,
                      set_stdout
                        (fun out =>
                           (out ++ ["Screenshot capture service initiated."])%list)
                        s2))
        by (apply try_except_Ok; rewrite (bind_Ok _ _ _ _ _ _ E2);
            reflexivity)
  end.
  rewrite (bind_Ok _ _ _ _ _ _ E3). cbv zeta.
  rewrite orb_true_r. cbn [negb]. rewrite bind_bind, bind_print.
  match goal with
  | |- context [bind (logger.log_error ?msg config false) _ env ?s0] =>
      destruct (log_error_reports msg config false env s0) as (s' & E & R)
  end.
  rewrite (bind_Ok _ _ _ _ _ _ E). exists s'. split; [reflexivity | exact R].
Qed.

(** X18.  A scheduler that refuses to start does so silently for its
    caller.  On a platform that is neither Windows nor Linux, with no
    capturer built yet, [start_screenshot_scheduler] starts no thread
    (no pass of the loop runs, no tick is fired, no time passes, no
    capturer is stored) and yet returns normally: the
    [NotImplementedError] of [_get_capturer_instance] is caught inside,
    and only the console and the error log tell. *)
Theorem scheduler_refuses_unsupported_platform fuel config env s name :
  sys_platform env = OtherPlatform name ->
  screenshot_capturer_instance s = None ->
  exists s',
    screenshot_capture.start_screenshot_scheduler fuel config env s
    = (Ok None, s')
    /\ same_globals s s'
    /\ ticks s' = ticks s
    /\ exists lines,
         stdout s'
         = (lines ++ ["Cannot start screenshot scheduler: platform not supported for capture."])%list.
Proof.
  intros Hp Hi. unfold screenshot_capture.start_screenshot_scheduler.
  destruct (log_error_reports
              ("Screenshot capture not supported on this platform: " ++ name)
              config true env s) as (s1 & E & _).
  pose proof (io_only_log_error
                ("Screenshot capture not supported on this platform: "
                 ++ name) config true env s) as G.
  pose proof (no_tick_log_error
                ("Screenshot capture not supported on this platform: "
                 ++ name) config true env s) as T.
  rewrite E in G, T. simpl in G, T.
  assert (Eg : (screenshot_capture._get_capturer_instance config ;;; ret true)
                 env s
               = (Raise (NotImplementedError
                           ("Screenshot capture not supported on platform "
                            ++ name)), s1)).
  { unfold screenshot_capture._get_capturer_instance.
    rewrite bind_bind, bind_ask, bind_bind, bind_get, Hi, Hp.
    rewrite !bind_bind, (bind_Ok _ _ _ _ _ _ E). reflexivity. }
  erewrite bind_Ok
    by (rewrite (try_except_Raise _ _ _ _ _ _ Eg); reflexivity).
  eexists. split; [reflexivity|].
  split; [eapply same_globals_trans;
            [exact G | apply same_globals_set_stdout]|].
  split.
  - rewrite <- T. unfold ticks. simpl. rewrite count_occ_app. simpl. lia.
  - now exists (stdout s1).
Qed.

Lemma scheduler_refuses_unsupported_platform_witness :
  let env := Ref.with_platform (OtherPlatform "darwin") Ref.env in
  sys_platform env = OtherPlatform "darwin"
  /\ screenshot_capturer_instance Ref.ready = None
  /\ exists s',
       screenshot_capture.start_screenshot_scheduler 3 Ref.config env
         Ref.ready
       = (Ok None, s')
       /\ same_globals Ref.ready s'
       /\ ticks s' = ticks Ref.ready
       /\ exists lines,
            stdout s'
            = (lines ++ ["Cannot start screenshot scheduler: platform not supported for capture."])%list.
Proof.
  cbv zeta.
  assert (Hi : screenshot_capturer_instance Ref.ready = None)
    by (vm_compute; reflexivity).
  split; [reflexivity|]. split; [exact Hi|].
  exact (scheduler_refuses_unsupported_platform 3 Ref.config
           (Ref.with_platform (OtherPlatform "darwin") Ref.env) Ref.ready
           "darwin" eq_refl Hi).
Defined.

(** ** logger.py: reading the keyword log back *)

Lemma t_bind_Ok {A B} (m : T A) (k : A -> T B) env s out a s' out' :
  m env s out = (Ok a, s', out') -> t_bind m k env s out = k a env s' out'.
Proof. intros H. unfold t_bind. now rewrite H. Qed.

Lemma t_bind_Raise {A B} (m : T A) (k : A -> T B) env s out e s' out' :
  m env s out = (Raise e, s', out') ->
  t_bind m k env s out = (Raise e, s', out').
Proof. intros H. unfold t_bind. now rewrite H. Qed.

Lemma t_lift_run {A} (m : M A) env s out r s' :
  m env s = (r, s') -> t_lift m env s out = (r, s', out).
Proof. intros H. unfold t_lift. now rewrite H. Qed.

Lemma bytes_rstrip_line_feed block :
  bytes_rstrip (block ++ nl) = bytes_rstrip block.
Proof.
  induction block as [|c block IH]; [reflexivity|].
  rewrite string_app_cons. cbn [bytes_rstrip]. now rewrite IH.
Qed.

Lemma bytes_rstrip_block block :
  block_ends block = true -> bytes_rstrip block = block.
Proof.
  induction block as [|c block IH]; [discriminate|].
  cbn [block_ends bytes_rstrip]. destruct block as [|c' block].
  - cbn [bytes_rstrip]. intros H. now destruct (bytes_isspace c).
  - intros H. now rewrite (IH H).
Qed.

Lemma bytes_strip_block block :
  is_block block = true -> bytes_strip (block ++ nl) = block.
Proof.
  unfold is_block. rewrite !andb_true_iff. intros [[Hs He] _].
  unfold bytes_strip. destruct block as [|c block]; [discriminate|].
  rewrite string_app_cons. cbn [bytes_lstrip]. cbn [block_starts] in Hs.
  destruct (bytes_isspace c); [discriminate|].
  rewrite <- string_app_cons, bytes_rstrip_line_feed.
  now apply bytes_rstrip_block.
Qed.

Lemma bytes_lines_block block rest :
  no_line_feed block = true ->
  bytes_lines (block ++ nl ++ rest) = (block ++ nl) :: bytes_lines rest.
Proof.
  induction block as [|c block IH]; [reflexivity|].
  cbn [no_line_feed]. rewrite andb_true_iff, negb_true_iff. intros [Hc Hb].
  rewrite !string_app_cons. cbn [bytes_lines]. now rewrite Hc, (IH Hb).
Qed.

Lemma is_block_truthy block : is_block block = true -> str_truthy block = true.
Proof. now destruct block. Qed.

(** One pass of the loop over a block that decrypts. *)
Lemma decrypt_keyword_lines_block codec_error env s out key token entry rest :
  readable env key token entry ->
  logger.decrypt_keyword_lines codec_error {| fernet_key := key |}
    (bytes_lines (token ++ nl ++ rest)) env s out
  = logger.decrypt_keyword_lines codec_error {| fernet_key := key |}
      (bytes_lines rest) env s (out ++ entry).
Proof.
  intros (Hb & Hd & Hu).
  assert (Hn : no_line_feed token = true)
    by (unfold is_block in Hb; rewrite !andb_true_iff in Hb; tauto).
  rewrite (bytes_lines_block _ _ Hn). cbn [logger.decrypt_keyword_lines].
  rewrite (bytes_strip_block _ Hb), (is_block_truthy _ Hb). cbn [negb].
  pose proof (Fernet_decrypt_run {| fernet_key := key |} token env s) as Ed.
  simpl fernet_key in Ed. rewrite Hd in Ed.
  rewrite (t_bind_Ok _ _ _ _ _ _ _ _ (t_lift_run _ _ _ out _ _ Ed)).
  unfold bytes_decode_utf8. rewrite Hu.
  unfold t_bind at 1. unfold t_ret. unfold t_bind at 1. unfold t_print.
  now rewrite string_app_nil_r.
Qed.

Lemma decrypt_keyword_lines_blocks
    codec_error env s key tokens entries rest :
  Forall2 (readable env key) tokens entries ->
  forall out,
    logger.decrypt_keyword_lines codec_error {| fernet_key := key |}
      (bytes_lines (blocks tokens ++ rest)) env s out
    = logger.decrypt_keyword_lines codec_error {| fernet_key := key |}
        (bytes_lines rest) env s (out ++ text_of entries).
Proof.
  induction 1 as [|token entry tokens entries Hr _ IH]; intros out.
  - cbn [blocks text_of]. now rewrite string_app_nil_l, string_app_nil_r.
  - cbn [blocks text_of]. rewrite !string_app_assoc.
    rewrite (decrypt_keyword_lines_block _ _ _ _ _ _ _ _ Hr), IH.
    now rewrite string_app_assoc.
Qed.

(** The log opened: both files read, the cipher built. *)
Lemma decrypt_keyword_log_opened
    codec_error env s out key_file log_file key key_mode data log_mode :
  fs s !! key_file = Some (File key key_mode) ->
  faults env (OpRead key_file) = None ->
  lib_key_ok (fernet_lib env) key = true ->
  fs s !! log_file = Some (File data log_mode) ->
  faults env (OpRead log_file) = None ->
  logger.decrypt_keyword_log codec_error log_file key_file env s out
  = t_try_except
      (logger.decrypt_keyword_lines codec_error {| fernet_key := key |}
         (bytes_lines data))
      (fun e =>
         if is_FileNotFoundError e then
           t_print ("Error: File not found (" ++ log_file ++ " or "
                    ++ key_file ++ ")") nl
         else
           t_print ("An error occurred during decryption: " ++ exn_str e) nl)
      env s out.
Proof.
  intros Hk Fk Hok Hl Fl. unfold logger.decrypt_keyword_log, t_try_except.
  rewrite (t_bind_Ok _ _ _ _ _ _ _ _
             (t_lift_run _ _ _ out _ _ (read_file_existing _ _ _ _ _ Hk Fk))).
  pose proof (Fernet_new_run key env s) as En. rewrite Hok in En.
  rewrite (t_bind_Ok _ _ _ _ _ _ _ _ (t_lift_run _ _ _ out _ _ En)).
  now rewrite (t_bind_Ok _ _ _ _ _ _ _ _
                 (t_lift_run _ _ _ out _ _
                    (read_file_existing _ _ _ _ _ Hl Fl))).
Qed.

(** X19.  The keyword log reads back.  If the log file is a sequence of
    blocks, each followed by a line feed (the form in which
    [log_keyword] appends them), the key file holds a key that the
    library accepts and that opens every block, and both files can be
    read, then [decrypt_keyword_log] writes to the console exactly the
    entries, in the order of the file, one after the other with nothing
    between or after them; it returns normally and changes nothing. *)
Theorem decrypt_keyword_log_prints_every_entry
    codec_error env s out key_file log_file key key_mode log_mode
    tokens entries :
  fs s !! key_file = Some (File key key_mode) ->
  faults env (OpRead key_file) = None ->
  lib_key_ok (fernet_lib env) key = true ->
  fs s !! log_file = Some (File (blocks tokens) log_mode) ->
  faults env (OpRead log_file) = None ->
  Forall2 (readable env key) tokens entries ->
  logger.decrypt_keyword_log codec_error log_file key_file env s out
  = (Ok tt, s, out ++ text_of entries).
Proof.
  intros Hk Fk Hok Hl Fl Hr.
  rewrite (decrypt_keyword_log_opened _ _ _ _ _ _ _ _ _ _ Hk Fk Hok Hl Fl).
  unfold t_try_except.
  pose proof (decrypt_keyword_lines_blocks codec_error env s key tokens
                entries "" Hr out) as E.
  rewrite string_app_nil_r in E. now rewrite E.
Qed.

(** On the reference system: two keywords are logged, and the log of
    the day is read back with the key file of [initialize_logger]. *)
Lemma decrypt_keyword_log_prints_every_entry_witness :
  let key_file := "/etc/monitor/encryption.key" in
  let log_file := "/var/lib/monitor/data/20260314/keywords.log.enc" in
  let key := fernet_key Ref.ready_cipher in
  let entry1 := "[2026-03-14 00:00:00] chrome: hello world" ++ nl in
  let entry2 := "[2026-03-14 00:00:00] firefox: bake bread" ++ nl in
  let token1 := Ref.encrypt key 0 (entropy_bytes Ref.env 32 16) entry1 in
  let token2 := Ref.encrypt key 0 (entropy_bytes Ref.env 48 16) entry2 in
  let s :=
    snd (logger.log_keyword "firefox: bake bread" Ref.config Ref.env
           (snd (logger.log_keyword "chrome: hello world" Ref.config Ref.env
                   Ref.ready))) in
  logger.decrypt_keyword_log (fun _ => "") log_file key_file Ref.env s ""
  = (Ok tt, s, "" ++ text_of [entry1; entry2]).
Proof.
  cbv zeta.
  apply (decrypt_keyword_log_prints_every_entry (fun _ => "") Ref.env _ ""
           "/etc/monitor/encryption.key"
           "/var/lib/monitor/data/20260314/keywords.log.enc"
           (fernet_key Ref.ready_cipher) 420 384
           [Ref.encrypt (fernet_key Ref.ready_cipher) 0
              (entropy_bytes Ref.env 32 16)
              ("[2026-03-14 00:00:00] chrome: hello world" ++ nl);
            Ref.encrypt (fernet_key Ref.ready_cipher) 0
              (entropy_bytes Ref.env 48 16)
              ("[2026-03-14 00:00:00] firefox: bake bread" ++ nl)]).
  - vm_compute; reflexivity.
  - reflexivity.
  - vm_compute; reflexivity.
  - vm_compute; reflexivity.
  - reflexivity.
  - repeat constructor; vm_compute; reflexivity.
Defined.

(** X20.  One bad block hides everything after it.  If, after some
    readable blocks, the log file holds a block that the key does not
    open, then [decrypt_keyword_log] prints the entries before it, then
    the line "An error occurred during decryption: " with no text after
    the colon (the [InvalidToken] of the library has none), and nothing
    of what follows in the file, readable or not. *)
Theorem decrypt_keyword_log_stops_at_bad_block
    codec_error env s out key_file log_file key key_mode log_mode
    tokens entries bad rest :
  fs s !! key_file = Some (File key key_mode) ->
  faults env (OpRead key_file) = None ->
  lib_key_ok (fernet_lib env) key = true ->
  fs s !! log_file
  = Some (File (blocks tokens ++ bad ++ nl ++ rest) log_mode) ->
  faults env (OpRead log_file) = None ->
  Forall2 (readable env key) tokens entries ->
  is_block bad = true ->
  lib_decrypt (fernet_lib env) key bad = None ->
  logger.decrypt_keyword_log codec_error log_file key_file env s out
  = (Ok tt, s,
     out ++ text_of entries ++ "An error occurred during decryption: " ++ nl).
Proof.
  intros Hk Fk Hok Hl Fl Hr Hb Hd.
  rewrite (decrypt_keyword_log_opened _ _ _ _ _ _ _ _ _ _ Hk Fk Hok Hl Fl).
  unfold t_try_except.
  rewrite (decrypt_keyword_lines_blocks codec_error env s key tokens entries
             (bad ++ nl ++ rest) Hr out).
  assert (Hn : no_line_feed bad = true)
    by (unfold is_block in Hb; rewrite !andb_true_iff in Hb; tauto).
  rewrite (bytes_lines_block _ _ Hn). cbn [logger.decrypt_keyword_lines].
  rewrite (bytes_strip_block _ Hb), (is_block_truthy _ Hb). cbn [negb].
  pose proof (Fernet_decrypt_run {| fernet_key := key |} bad env s) as Ed.
  simpl fernet_key in Ed. rewrite Hd in Ed.
  rewrite (t_bind_Raise _ _ _ _ _ _ _ _
             (t_lift_run _ _ _ (out ++ text_of entries) _ _ Ed)).
  cbn [is_FileNotFoundError exn_str]. unfold t_print.
  now rewrite string_app_nil_r, string_app_assoc.
Qed.

(** A log with a foreign block between two blocks of the logger. *)
Lemma decrypt_keyword_log_stops_at_bad_block_witness :
  let key_file := "/etc/monitor/encryption.key" in
  let log_file := "/var/lib/monitor/data/keywords.log.enc" in
  let key := fernet_key Ref.ready_cipher in
  let entry1 := "[2026-03-14 00:00:00] chrome: hello world" ++ nl in
  let entry2 := "[2026-03-14 00:00:00] firefox: bake bread" ++ nl in
  let token1 := Ref.encrypt key 0 (entropy_bytes Ref.env 32 16) entry1 in
  let token2 := Ref.encrypt key 0 (entropy_bytes Ref.env 48 16) entry2 in
  let s :=
    set_fs (insert log_file
              (File (blocks [token1] ++ "not-a-token" ++ nl
                     ++ blocks [token2]) 384))
      Ref.ready in
  logger.decrypt_keyword_log (fun _ => "") log_file key_file Ref.env s ""
  = (Ok tt, s,
     "" ++ text_of [entry1] ++ "An error occurred during decryption: " ++ nl).
Proof.
  cbv zeta.
  apply (decrypt_keyword_log_stops_at_bad_block (fun _ => "") Ref.env _ ""
           "/etc/monitor/encryption.key"
           "/var/lib/monitor/data/keywords.log.enc"
           (fernet_key Ref.ready_cipher) 420 384
           [Ref.encrypt (fernet_key Ref.ready_cipher) 0
              (entropy_bytes Ref.env 32 16)
              ("[2026-03-14 00:00:00] chrome: hello world" ++ nl)]
           ["[2026-03-14 00:00:00] chrome: hello world" ++ nl]
           "not-a-token"
           (blocks [Ref.encrypt (fernet_key Ref.ready_cipher) 0
                      (entropy_bytes Ref.env 48 16)
                      ("[2026-03-14 00:00:00] firefox: bake bread" ++ nl)])).
  - vm_compute; reflexivity.
  - reflexivity.
  - vm_compute; reflexivity.
  - rewrite fs_set_fs. apply lookup_insert_eq.
  - reflexivity.
  - repeat constructor; vm_compute; reflexivity.
  - vm_compute; reflexivity.
  - vm_compute; reflexivity.
Defined.

Lemma only_prints_ret {A} (a : A) : only_prints (t_ret a).
Proof. intros env s out. exists (Ok a), "". unfold t_ret. now rewrite string_app_nil_r. Qed.

Lemma only_prints_raise {A} e : only_prints (@t_raise A e).
Proof.
  intros env s out. exists (Raise e), "". unfold t_raise.
  now rewrite string_app_nil_r.
Qed.

Lemma only_prints_print text end_ : only_prints (t_print text end_).
Proof. intros env s out. now exists (Ok tt), (text ++ end_). Qed.

Lemma only_prints_lift {A} (m : M A) :
  (forall env s, snd (m env s) = s) -> only_prints (t_lift m).
Proof.
  intros H env s out. specialize (H env s). unfold t_lift.
  destruct (m env s) as [r s']. simpl in H. subst s'.
  exists r, "". now rewrite string_app_nil_r.
Qed.

Lemma only_prints_bind {A B} (m : T A) (k : A -> T B) :
  only_prints m -> (forall a, only_prints (k a)) -> only_prints (t_bind m k).
Proof.
  intros Hm Hk env s out. unfold t_bind.
  destruct (Hm env s out) as (r & text & E). rewrite E.
  destruct r as [a|e].
  - destruct (Hk a env s (out ++ text)) as (r' & text' & E').
    exists r', (text ++ text'). now rewrite E', string_app_assoc.
  - now exists (Raise e), text.
Qed.

Lemma Fernet_new_state key env s : snd (Fernet_new key env s) = s.
Proof. rewrite Fernet_new_run. reflexivity. Qed.

Lemma Fernet_decrypt_state c token env s :
  snd (Fernet_decrypt c token env s) = s.
Proof. rewrite Fernet_decrypt_run. reflexivity. Qed.

Lemma only_prints_decrypt_keyword_lines codec_error fernet lines :
  only_prints (logger.decrypt_keyword_lines codec_error fernet lines).
Proof.
  induction lines as [|line lines IH]; cbn [logger.decrypt_keyword_lines].
  - apply only_prints_ret.
  - destruct (negb (str_truthy (bytes_strip line))); [exact IH|].
    apply only_prints_bind.
    { apply only_prints_lift. intros env s. apply Fernet_decrypt_state. }
    intros decrypted_entry. apply only_prints_bind.
    { unfold bytes_decode_utf8. destruct (utf8_valid decrypted_entry).
      - apply only_prints_ret.
      - apply only_prints_raise. }
    intros text. apply only_prints_bind; [apply only_prints_print|].
    intros _. exact IH.
Qed.

(** X21.  [decrypt_keyword_log] is safe to run on anything.  Whatever
    the two paths name (missing files, a directory, a key that the
    library refuses, a log that is no log) and whatever the files hold,
    the call returns normally, leaves the file system and every other
    part of the state as they were, and only adds text to the
    console. *)
Theorem decrypt_keyword_log_only_prints
    codec_error log_file key_file env s out :
  exists text,
    logger.decrypt_keyword_log codec_error log_file key_file env s out
    = (Ok tt, s, out ++ text).
Proof.
  unfold logger.decrypt_keyword_log, t_try_except.
  match goal with
  | |- context [match ?m env s out with _ => _ end] =>
      assert (H : only_prints m)
  end.
  { apply only_prints_bind.
    { apply only_prints_lift. intros env0 s0. apply read_file_state. }
    intros key. apply only_prints_bind.
    { apply only_prints_lift. intros env0 s0. apply Fernet_new_state. }
    intros fernet. apply only_prints_bind.
    { apply only_prints_lift. intros env0 s0. apply read_file_state. }
    intros f_enc. apply only_prints_decrypt_keyword_lines. }
  destruct (H env s out) as (r & text & E). rewrite E.
  destruct r as [[]|e].
  - now exists text.
  - destruct (is_FileNotFoundError e); unfold t_print; eexists;
      now rewrite string_app_assoc.
Qed.

Lemma blocks_app tokens token :
  blocks (tokens ++ [token])%list = blocks tokens ++ token ++ nl.
Proof.
  induction tokens as [|t tokens IH].
  - cbn [blocks app]. now rewrite string_app_nil_l, string_app_nil_r.
  - cbn [blocks app]. now rewrite IH, !string_app_assoc.
Qed.

Lemma text_of_app entries entry :
  text_of (entries ++ [entry])%list = text_of entries ++ entry.
Proof.
  induction entries as [|e entries IH].
  - cbn [text_of app]. now rewrite string_app_nil_l, string_app_nil_r.
  - cbn [text_of app]. now rewrite IH, string_app_assoc.
Qed.

(** X22.  What [log_keyword] has logged, [decrypt_keyword_log] prints
    back.  With the logger initialized, the partition of the day in
    place, and a log of the day that holds readable blocks (or does not
    exist yet), a call of [log_keyword] that the system lets append to
    the log returns normally, and [decrypt_keyword_log], run on that
    log with the key file of the logger, prints the earlier entries and
    then the new one as the line "[time stamp] entry".  The new token
    is taken to be a block that the key opens, as every token of the
    library is. *)
Theorem logged_keyword_reads_back
    codec_error env s c config keyword_entry dirs s1 key_file key_mode
    tokens entries out :
  let log_file := path_join env (fst dirs) "keywords.log.enc" in
  let line :=
    "[" ++ strftime_log (localtime env (clock s)) ++ "] " ++ keyword_entry
    ++ nl in
  let token :=
    lib_encrypt (fernet_lib env) (fernet_key c) (Qfloor (clock s))
      (entropy_bytes env (entropy_pos s) 16) line in
  logger_cipher_suite s = Some c ->
  lib_key_ok (fernet_lib env) (fernet_key c) = true ->
  logger.ensure_daily_log_dir config env s = (Ok dirs, s1) ->
  log_holds s1 log_file tokens ->
  Forall2 (readable env (fernet_key c)) tokens entries ->
  readable env (fernet_key c) token line ->
  fs s1 !! key_file = Some (File (fernet_key c) key_mode) ->
  key_file <> log_file ->
  faults env (OpAppend log_file) = None ->
  faults env (OpChmod log_file) = None ->
  faults env (OpRead log_file) = None ->
  faults env (OpRead key_file) = None ->
  exists s',
    logger.log_keyword keyword_entry config env s = (Ok tt, s')
    /\ logger.decrypt_keyword_log codec_error log_file key_file env s' out
       = (Ok tt, s', out ++ text_of entries ++ line).
Proof.
  intros log_file line token Hc Hok Ed Hlog Hr Hn Hkey Hne Fa Fc Frl Frk.
  pose proof (io_only_ensure_daily_log_dir config env s) as G.
  rewrite Ed in G. simpl in G.
  destruct G as (Gclock & Gpos & _ & Gc & _). rewrite Hc in Gc.
  set (s2 := set_entropy_pos (fun p => (p + 16)%nat) s1).
  assert (Happ : exists mode,
             append_file log_file (token ++ nl) env s2
             = (Ok tt,
                set_fs (insert log_file
                          (File (blocks (tokens ++ [token])%list) mode)) s2)).
  { unfold append_file. msimp. rewrite Fa. unfold log_holds in Hlog.
    change (fs s2) with (fs s1).
    destruct (fs s1 !! log_file) as [[data m|m]|]; [| now destruct Hlog |].
    - subst data. exists m. msimp. now rewrite blocks_app.
    - subst tokens. eexists. msimp. reflexivity. }
  destruct Happ as (mode & Ea).
  set (s3 := set_fs _ s2) in Ea.
  assert (Hfin : exists s' mode',
             logger.log_keyword keyword_entry config env s = (Ok tt, s')
             /\ fs s' !! log_file
                = Some (File (blocks (tokens ++ [token])%list) mode')
             /\ fs s' !! key_file = Some (File (fernet_key c) key_mode)).
  { assert (Hlook : fs s3 !! log_file
                    = Some (File (blocks (tokens ++ [token])%list) mode))
      by (subst s3; rewrite fs_set_fs; apply lookup_insert_eq).
    assert (Hk3 : fs s3 !! key_file = Some (File (fernet_key c) key_mode))
      by (subst s3; rewrite fs_set_fs, lookup_insert_ne by congruence;
          exact Hkey).
    unfold logger.log_keyword. msimp. rewrite Hc. cbv beta iota.
    rewrite (bind_Ok _ _ _ _ _ _ Ed). msimp.
    rewrite (bind_Ok _ _ _ _ _ _ (encrypt_data_initialized _ _ _ _ Gc)).
    rewrite Gclock, Gpos. fold log_file line token s2.
    destruct (os_name_posix (sys_platform env)).
    - exists (set_fs (insert log_file
                        (File (blocks (tokens ++ [token])%list) 384)) s3), 384.
      split; [|split].
      + apply try_except_Ok. rewrite (bind_Ok _ _ _ _ _ _ Ea).
        apply (os_chmod_file_Ok _ _ _ _ _ _ Hlook Fc).
      + rewrite fs_set_fs. apply lookup_insert_eq.
      + rewrite fs_set_fs, lookup_insert_ne by congruence. exact Hk3.
    - exists s3, mode. split; [|split; assumption].
      apply try_except_Ok. now rewrite (bind_Ok _ _ _ _ _ _ Ea). }
  destruct Hfin as (s' & mode' & El & Hl' & Hk').
  exists s'. split; [exact El|].
  assert (Hr' : Forall2 (readable env (fernet_key c))
                  (tokens ++ [token])%list (entries ++ [line])%list)
    by (apply Forall2_app; [exact Hr | now constructor]).
  rewrite (decrypt_keyword_log_opened _ _ _ _ _ _ _ _ _ _ Hk' Frk Hok Hl' Frl).
  unfold t_try_except.
  pose proof (decrypt_keyword_lines_blocks codec_error env s'
                (fernet_key c) _ _ "" Hr' out) as E.
  rewrite string_app_nil_r in E. now rewrite E, text_of_app.
Qed.

(** On the reference system: the first keyword of the day. *)
Lemma logged_keyword_reads_back_witness :
  let log_file := "/var/lib/monitor/data/20260314/keywords.log.enc" in
  let key_file := "/etc/monitor/encryption.key" in
  exists s',
    logger.log_keyword "chrome: hello world" Ref.config Ref.env Ref.ready
    = (Ok tt, s')
    /\ logger.decrypt_keyword_log (fun _ => "") log_file key_file Ref.env s'
         ""
       = (Ok tt, s',
          "" ++ text_of []
          ++ "[2026-03-14 00:00:00] chrome: hello world" ++ nl).
Proof.
  cbv zeta.
  assert (Ed : logger.ensure_daily_log_dir Ref.config Ref.env Ref.ready
               = (Ok ("/var/lib/monitor/data/20260314",
                      "/var/lib/monitor/data/20260314/Screenshots"),
                  snd (logger.ensure_daily_log_dir Ref.config Ref.env
                         Ref.ready)))
    by (vm_compute; reflexivity).
  assert (Hc : logger_cipher_suite Ref.ready = Some Ref.ready_cipher)
    by (vm_compute; reflexivity).
  assert (Hok : lib_key_ok (fernet_lib Ref.env) (fernet_key Ref.ready_cipher)
                = true)
    by (vm_compute; reflexivity).
  refine (logged_keyword_reads_back (fun _ => "") Ref.env Ref.ready
            Ref.ready_cipher Ref.config "chrome: hello world" _ _
            "/etc/monitor/encryption.key" 420 [] [] ""
            Hc Hok Ed _ (List.Forall2_nil _) _ _ _ eq_refl eq_refl eq_refl eq_refl).
  - vm_compute; reflexivity.
  - repeat split; vm_compute; reflexivity.
  - vm_compute; reflexivity.
  - vm_compute; discriminate.
Defined.

(** ** keystroke capture: the buffer timeout *)

Lemma set_clock_set_clock f g s :
  set_clock f (set_clock g s) = set_clock (fun t => f (g t)) s.
Proof. reflexivity. Qed.

Lemma later_sleep d s :
  later d s (set_clock (fun t => Qred (t + d)) s).
Proof.
  split; [reflexivity|]. simpl. apply Qred_correct.
Qed.

Lemma later_trans d1 d2 s s1 s2 :
  later d1 s s1 -> later d2 s1 s2 -> later (d1 + d2) s s2.
Proof.
  intros [E1 Q1] [E2 Q2]. split.
  - rewrite E2 at 1. rewrite E1 at 1. now rewrite set_clock_set_clock.
  - rewrite Q2, Q1. lra.
Qed.

Lemma timeout_sleep_run s env :
  time_sleep (PyFloat (inject_Z buffer_timeout_seconds / 2)) env s
  = (Ok tt, set_clock (fun t => Qred (t + (5 # 2)%Q)) s).
Proof. reflexivity. Qed.

(** A pass that comes too early only sleeps. *)
Lemma windows_timeout_pass_early env self st s :
  let s1 := set_clock (fun t => Qred (t + (5 # 2)%Q)) s in
  (clock s1 - cs_last_activity_time st <= 5)%Q ->
  keystroke_windows.buffer_timeout_pass self st env s = (Ok st, s1).
Proof.
  intros s1 Hle. subst s1. unfold keystroke_windows.buffer_timeout_pass.
  rewrite (bind_Ok _ _ _ _ _ _ (timeout_sleep_run s env)), bind_get.
  unfold py_gt, py_le, py_to_Q.
  apply Qle_bool_iff in Hle. unfold buffer_timeout_seconds.
  change (inject_Z 5) with 5%Q. rewrite Hle.
  now rewrite andb_false_r.
Qed.

Lemma linux_timeout_pass_early env self st s :
  let s1 := set_clock (fun t => Qred (t + (5 # 2)%Q)) s in
  (clock s1 - cs_last_activity_time st <= 5)%Q ->
  keystroke_linux.buffer_timeout_pass self st env s = (Ok st, s1).
Proof.
  intros s1 Hle. subst s1. unfold keystroke_linux.buffer_timeout_pass.
  rewrite (bind_Ok _ _ _ _ _ _ (timeout_sleep_run s env)), bind_get.
  unfold py_gt, py_le, py_to_Q.
  apply Qle_bool_iff in Hle. unfold buffer_timeout_seconds.
  change (inject_Z 5) with 5%Q. rewrite Hle.
  now rewrite andb_false_r.
Qed.

Lemma timeout_reached (x : Q) : (5 < x)%Q -> Qle_bool x 5 = false.
Proof.
  intros H. destruct (Qle_bool x 5) eqn:E; [|reflexivity].
  apply Qle_bool_iff in E. lra.
Qed.

(** X23.  A word left unfinished is submitted once, between five and
    seven and a half seconds after the last key.  Let the buffer hold a
    word (no whitespace), with the last key pressed during the sleep of
    a pass of [_buffer_timeout_checker], and no key pressed after it.
    Then that pass and the next one only sleep (two and a half seconds
    each): the buffer and the console are untouched and nothing is
    submitted.  The third pass hands the word to [submit_word], once,
    and empties the buffer; it does so seven and a half seconds after
    the first pass began.  The same on both platforms. *)
Theorem idle_word_is_flushed_by_third_check env self st word s :
  cs_buffer st = word ->
  is_word (chr_isspace env) word = true ->
  (clock s <= cs_last_activity_time st)%Q ->
  (cs_last_activity_time st < clock s + (5 # 2)%Q)%Q ->
  exists s2 s3,
    later 5%Q s s2 /\ later (15 # 2)%Q s s3
    /\ idle_passes (keystroke_windows.buffer_timeout_pass self) 2 st env s
       = (Ok st, s2)
    /\ idle_passes (keystroke_linux.buffer_timeout_pass self) 2 st env s
       = (Ok st, s2)
    /\ keystroke_windows.buffer_timeout_pass self st env s2
       = (keystroke_windows.submit_word self word ;;;
          ret {| cs_buffer := "";
                 cs_last_activity_time := cs_last_activity_time st |})
           env s3
    /\ keystroke_linux.buffer_timeout_pass self st env s2
       = (keystroke_linux.submit_word self word ;;;
          ret {| cs_buffer := "";
                 cs_last_activity_time := cs_last_activity_time st |})
           env s3.
Proof.
  intros Hb Hw Hlo Hhi.
  destruct (is_word_inv _ _ Hw) as (Hn & Ht & _).
  set (s1 := set_clock (fun t => Qred (t + (5 # 2)%Q)) s).
  set (s2 := set_clock (fun t => Qred (t + (5 # 2)%Q)) s1).
  set (s3 := set_clock (fun t => Qred (t + (5 # 2)%Q)) s2).
  assert (L1 : later (5 # 2)%Q s s1) by apply later_sleep.
  assert (L2 : later (5 # 2)%Q s1 s2) by apply later_sleep.
  assert (L3 : later (5 # 2)%Q s2 s3) by apply later_sleep.
  assert (L12 : later 5%Q s s2).
  { destruct (later_trans _ _ _ _ _ L1 L2) as [E Q]. split; [exact E|].
    rewrite Q. lra. }
  assert (L13 : later (15 # 2)%Q s s3).
  { destruct (later_trans _ _ _ _ _ L12 L3) as [E Q]. split; [exact E|].
    rewrite Q. lra. }
  assert (C1 : (clock s1 - cs_last_activity_time st <= 5)%Q).
  { destruct L1 as [_ Q]. rewrite Q. lra. }
  assert (C2 : (clock s2 - cs_last_activity_time st <= 5)%Q).
  { destruct L12 as [_ Q]. rewrite Q. lra. }
  assert (C3 : (5 < clock s3 - cs_last_activity_time st)%Q).
  { destruct L13 as [_ Q]. rewrite Q. lra. }
  exists s2, s3. split; [exact L12|]. split; [exact L13|].
  split; [|split; [|split]].
  - cbn [idle_passes].
    rewrite (bind_Ok _ _ _ _ _ _
               (windows_timeout_pass_early env self st s C1)).
    rewrite (bind_Ok _ _ _ _ _ _
               (windows_timeout_pass_early env self st s1 C2)).
    reflexivity.
  - cbn [idle_passes].
    rewrite (bind_Ok _ _ _ _ _ _
               (linux_timeout_pass_early env self st s C1)).
    rewrite (bind_Ok _ _ _ _ _ _
               (linux_timeout_pass_early env self st s1 C2)).
    reflexivity.
  - unfold keystroke_windows.buffer_timeout_pass.
    rewrite (bind_Ok _ _ _ _ _ _ (timeout_sleep_run s2 env)), bind_get.
    fold s3. unfold py_gt, py_le, py_to_Q, buffer_timeout_seconds.
    change (inject_Z 5) with 5%Q. rewrite (timeout_reached _ C3), Hb, Ht.
    cbn [negb andb].
    assert (Hflush :
              keystroke_windows.process_buffer self word true env s3
              = (keystroke_windows.submit_word self word ;;; ret "") env s3).
    { rewrite (word_alone_typed word) at 1.
      rewrite windows_process_buffer_typed;
        [| now left | reflexivity | exact Hn].
      cbn [map fst for_each andb]. rewrite Ht. now rewrite bind_ret. }
    rewrite (bind_ext _ _ _ _ _ Hflush), bind_bind.
    apply bind_ext_r. now intros [] s'.
  - unfold keystroke_linux.buffer_timeout_pass.
    rewrite (bind_Ok _ _ _ _ _ _ (timeout_sleep_run s2 env)), bind_get.
    fold s3. unfold py_gt, py_le, py_to_Q, buffer_timeout_seconds.
    change (inject_Z 5) with 5%Q. rewrite (timeout_reached _ C3), Hb, Ht.
    cbn [negb andb].
    assert (Hflush :
              keystroke_linux.process_buffer self word true env s3
              = (keystroke_linux.submit_word self word ;;; ret "") env s3).
    { rewrite (word_alone_typed word) at 1.
      rewrite linux_process_buffer_typed;
        [| now left | reflexivity | exact Hn].
      cbn [map fst for_each andb]. rewrite Ht. now rewrite bind_ret. }
    rewrite (bind_ext _ _ _ _ _ Hflush), bind_bind.
    apply bind_ext_r. now intros [] s'.
Qed.

(** The word "hello", typed one second into the first sleep. *)
Lemma idle_word_is_flushed_by_third_check_witness :
  let self := KeyCapture_new Ref.env (with_filters [] [] Ref.config)
                trace_callback in
  let st := {| cs_buffer := "hello"; cs_last_activity_time := 1 |} in
  let s := Ref.boot ∅ in
  (exists s2 s3,
     later 5%Q s s2 /\ later (15 # 2)%Q s s3
     /\ idle_passes (keystroke_windows.buffer_timeout_pass self) 2 st
          Ref.env s
        = (Ok st, s2)
     /\ idle_passes (keystroke_linux.buffer_timeout_pass self) 2 st Ref.env s
        = (Ok st, s2)
     /\ keystroke_windows.buffer_timeout_pass self st Ref.env s2
        = (keystroke_windows.submit_word self "hello" ;;;
           ret {| cs_buffer := ""; cs_last_activity_time := 1 |}) Ref.env s3
     /\ keystroke_linux.buffer_timeout_pass self st Ref.env s2
        = (keystroke_linux.submit_word self "hello" ;;;
           ret {| cs_buffer := ""; cs_last_activity_time := 1 |}) Ref.env s3)
  /\ stdout (snd (idle_passes (keystroke_linux.buffer_timeout_pass self) 3 st
                    Ref.env s))
     = ["chrome: hello"].
Proof.
  cbv zeta. split; [|vm_compute; reflexivity].
  assert (Hlo : (clock (Ref.boot ∅) <= 1)%Q) by (vm_compute; discriminate).
  assert (Hhi : (1 < clock (Ref.boot ∅) + (5 # 2))%Q)
    by (vm_compute; reflexivity).
  exact (idle_word_is_flushed_by_third_check Ref.env
           (KeyCapture_new Ref.env (with_filters [] [] Ref.config)
              trace_callback)
           {| cs_buffer := "hello"; cs_last_activity_time := 1 |}
           "hello" (Ref.boot ∅) eq_refl eq_refl Hlo Hhi).
Defined.

(** ** config.py: the path of the configuration file *)

Lemma mkdir_exist_ok_other d p env s r s' :
  mkdir_exist_ok d env s = (r, s') -> p <> d -> fs s' !! p = fs s !! p.
Proof.
  unfold mkdir_exist_ok. msimp. intros E Hne.
  destruct (fs s !! d) as [[c m|m]|]; msimp; injection E as <- <-;
    try reflexivity.
  rewrite fs_set_fs. now rewrite lookup_insert_ne by congruence.
Qed.

Lemma for_each_mkdir_other l p env s r s' :
  for_each mkdir_exist_ok l env s = (r, s') ->
  ~ In p l -> fs s' !! p = fs s !! p.
Proof.
  revert s. induction l as [|d l IH]; intros s E Hp.
  - simpl in E. now injection E as <- <-.
  - simpl in E. unfold bind in E.
    destruct (mkdir_exist_ok d env s) as [[[]|e] s1] eqn:Ed.
    + rewrite (IH s1 E) by (intros H; apply Hp; now right).
      eapply mkdir_exist_ok_other; [exact Ed|].
      intros ->. apply Hp. now left.
    + injection E as <- <-. eapply mkdir_exist_ok_other; [exact Ed|].
      intros ->. apply Hp. now left.
Qed.

(** X24.  [get_config_path] answers the same when it is asked again.
    [main] asks twice, once inside [load_config] and once for the path
    that it hands to the logger.  If the first call has returned a
    path, a second call in the state that the first has left returns
    the same path and changes nothing, also when the first call found
    no file and made the application directory; this needs that
    neither of the two places looked at first is one of the directories
    made. *)
Theorem get_config_path_is_stable proc env s path s1 :
  config.get_config_path proc env s = (Ok path, s1) ->
  (forall p, In p (config_candidates env proc) ->
             ~ In p (app_dir_chain env proc)) ->
  config.get_config_path proc env s1 = (Ok path, s1).
Proof.
  intros H Hc. unfold config.get_config_path in *.
  rewrite bind_ask in *. cbv zeta in *.
  rewrite bind_os_path_exists in H.
  set (cwd_path := path_join env (proc_cwd proc) config.CONFIG_FILE_NAME)
    in *.
  destruct (bool_decide (is_Some (fs s !! cwd_path))) eqn:E1.
  { injection H as <- <-. now rewrite bind_os_path_exists, E1. }
  rewrite bind_os_path_exists in H.
  set (script_path :=
         path_join env (path_dirname env (path_abspath env (proc_file proc)))
           config.CONFIG_FILE_NAME) in *.
  destruct (bool_decide (is_Some (fs s !! script_path))) eqn:E2.
  { injection H as <- <-.
    now rewrite bind_os_path_exists, E1, bind_os_path_exists, E2. }
  fold (default_app_dir env proc) in *.
  set (app_dir := default_app_dir env proc) in *.
  destruct (os_makedirs app_dir env s) as [[[]|e] s2] eqn:Em;
    [|rewrite (bind_Raise _ _ _ _ _ _ Em) in H; discriminate].
  rewrite (bind_Ok _ _ _ _ _ _ Em) in H. injection H as <- <-.
  destruct (os_makedirs_Ok_inv _ _ _ _ Em) as (F & Hne & Ef).
  fold (app_dir_chain env proc) in Ef.
  destruct (for_each_mkdir_Ok_inv _ _ _ _ Ef) as (Hdirs & _).
  assert (K1 : fs s2 !! cwd_path = fs s !! cwd_path).
  { eapply for_each_mkdir_other; [exact Ef|]. apply Hc. now left. }
  assert (K2 : fs s2 !! script_path = fs s !! script_path).
  { eapply for_each_mkdir_other; [exact Ef|]. apply Hc. right. now left. }
  rewrite bind_os_path_exists, K1, E1, bind_os_path_exists, K2, E2.
  assert (Em2 : os_makedirs app_dir env s2 = (Ok tt, s2)).
  { rewrite (os_makedirs_run _ _ _ F Hne).
    now apply for_each_mkdir_dirs. }
  now rewrite (bind_Ok _ _ _ _ _ _ Em2).
Qed.

(** A fresh installation, started from a directory without a
    configuration file: the application directory is made below
    [/opt]. *)
Lemma get_config_path_is_stable_witness :
  let proc :=
    {| proc_cwd := "/srv/monitor";
       proc_file := "/usr/lib/monitor/parental_monitor/config.py";
       proc_ProgramFiles := None |} in
  let s1 := snd (config.get_config_path proc Ref.env (Ref.boot Ref.installed))
  in
  fs s1 !! "/opt/parental-monitor" = Some (Dir 493)
  /\ config.get_config_path proc Ref.env s1
     = (Ok "/opt/parental-monitor/config.yaml", s1).
Proof.
  cbv zeta. split; [vm_compute; reflexivity|].
  apply (get_config_path_is_stable _ Ref.env (Ref.boot Ref.installed)).
  - vm_compute; reflexivity.
  - intros p Hp. vm_compute in Hp. vm_compute. intuition (subst; discriminate).
Defined.
